(** * django-eav-json-fields: the EAV schema engine ([eav_fields/eav.py])

    A shallow embedding of the attribute descriptors ([EAVString],
    [EAVBoolean], [EAVInteger], [EAVFloat], [EAVDecimal]), of the
    metaclass [EAVSchemaMeta] that collects them, and of
    [EAVSchema.validate], followed by the properties of the engine.

    Conventions of the embedding.
    - A Python [str] is a [string]: a sequence of code points below 256.
    - A Python [int] is a [Z]; a [float] is a binary64 [spec_float].
    - A [decimal.Decimal] is its (sign, coefficient, exponent) triple or a
      special value; its constructor from text and its [__str__] follow the
      reference implementation of the [decimal] module.
    - A [dict] is an insertion-ordered association list with unique keys.
    - A call either returns, raises [ValidationError], or raises another
      exception; the three outcomes are the constructors of [result].
    - [choices] holds values of the descriptor's own type.  Python's [in]
      tests identity before [==]; the two differ only for a value that is not
      [==] to itself, a NaN, which is then found only when the very object
      is an element of [choices].  Values here are not objects of a
      [choices] list, so [in] is [==] against each element.
    - [validate_cross] receives the very dict that [validate] returns: it is
      given by the dict as it leaves it, or the exception it raises.
    - Descriptor objects and [_eav_attributes] dicts are shared and mutable,
      so the metaclass works on a store of objects. *)

From Stdlib Require Import ZArith NArith List String Ascii Bool Lia.
From Stdlib Require Decimal DecimalString DecimalN DecimalPos DecimalFacts.
From Stdlib Require Import SpecFloat.
From Stdlib Require Import Orders Mergesort Sorted Permutation.
Import ListNotations.

Local Open Scope string_scope.
Local Open Scope list_scope.
Local Open Scope Z_scope.

(* ===================================================================== *)
(** ** Outcomes of a call *)
(* ===================================================================== *)

(** Exceptions other than [ValidationError] that the engine can meet. *)
Inductive pyexn : Type :=
| OverflowError      (* float(int) out of range *)
| InvalidOperation   (* decimal comparison with a NaN *)
| TypeError.         (* ordering a str against an int *)

(** [django.core.exceptions.ValidationError]: built from a list of
    messages or from a dict of field name to messages. *)
Inductive ValidationError : Type :=
| ErrorList (messages : list string)
| ErrorDict (message_dict : list (string * list string)).

Inductive result (A : Type) : Type :=
| Return (a : A)
| RaiseValidationError (e : ValidationError)
| Raise (x : pyexn).

Arguments Return {A} a.
Arguments RaiseValidationError {A} e.
Arguments Raise {A} x.

Definition bind {A B : Type} (m : result A) (k : A -> result B) : result B :=
  match m with
  | Return a => k a
  | RaiseValidationError e => RaiseValidationError e
  | Raise x => Raise x
  end.

Notation "x <- m ;; k" := (bind m (fun x => k))
  (at level 61, m at next level, right associativity).
Notation "m ;;; k" := (bind m (fun _ => k))
  (at level 61, right associativity).

(* ===================================================================== *)
(** ** Characters and digit strings *)
(* ===================================================================== *)

Definition chars (s : string) : list ascii := list_ascii_of_string s.
Definition text (l : list ascii) : string := string_of_list_ascii l.

Definition is_digit (c : ascii) : bool :=
  let n := nat_of_ascii c in (48 <=? n)%nat && (n <=? 57)%nat.

(** [str.isspace] on code points below 256. *)
Definition isspace (c : ascii) : bool :=
  let n := nat_of_ascii c in
  ((9 <=? n)%nat && (n <=? 13)%nat) || ((28 <=? n)%nat && (n <=? 32)%nat)
  || (n =? 133)%nat || (n =? 160)%nat.

Definition lower (c : ascii) : ascii :=
  let n := nat_of_ascii c in
  if (65 <=? n)%nat && (n <=? 90)%nat then ascii_of_nat (n + 32) else c.

(** [str(n)] for a non-negative int. *)
Definition chars_of_N (n : N) : list ascii :=
  chars (DecimalString.NilZero.string_of_uint (N.to_uint n)).

(** [int(s)] for a string of digits (leading zeros allowed). *)
Definition N_of_chars (l : list ascii) : N :=
  match DecimalString.NilEmpty.uint_of_string (text l) with
  | Some u => N.of_uint u
  | None => 0%N
  end.

(** [str(z)] for an int. *)
Definition chars_of_Z (z : Z) : list ascii :=
  if z <? 0 then "-"%char :: chars_of_N (Z.abs_N z) else chars_of_N (Z.to_N z).

Definition str_of_Z (z : Z) : string := text (chars_of_Z z).

(** ["%+d" % z] *)
Definition chars_plus_d (z : Z) : list ascii :=
  (if z <? 0 then "-"%char else "+"%char) :: chars_of_N (Z.abs_N z).

Fixpoint span (p : ascii -> bool) (l : list ascii) : list ascii * list ascii :=
  match l with
  | [] => ([], [])
  | c :: t => if p c then let (a, b) := span p t in (c :: a, b) else ([], l)
  end.

Fixpoint dropwhile (p : ascii -> bool) (l : list ascii) : list ascii :=
  match l with
  | [] => []
  | c :: t => if p c then dropwhile p t else l
  end.

(** [s.strip()] *)
Definition strip (l : list ascii) : list ascii :=
  rev (dropwhile isspace (rev (dropwhile isspace l))).

(** [s.replace("_", "")] *)
Definition drop_underscores (l : list ascii) : list ascii :=
  filter (fun c => negb (Ascii.eqb c "_"%char)) l.

(** Case-insensitive comparison with a lower-case literal. *)
Definition eq_nocase (l : list ascii) (lit : string) : bool :=
  String.eqb (text (map lower l)) lit.

(* ===================================================================== *)
(** ** decimal.Decimal *)
(* ===================================================================== *)

Module PyDecimal.

(** A Decimal holds a sign, a coefficient without leading zeros and an
    exponent, or is an infinity or a (quiet or signaling) NaN with a
    diagnostic payload. *)
Inductive Decimal : Type :=
| Finite (sign : bool) (coefficient : N) (exponent : Z)
| Infinity (sign : bool)
| NaN (sign : bool) (signaling : bool) (payload : N).

(** The third component of [as_tuple()]: an int, or one of the strings
    'F', 'n', 'N' for the special values. *)
Inductive tuple_exponent : Type :=
| ExpInt (e : Z)
| ExpF
| Expn
| ExpN.

Definition digit_value (c : ascii) : nat := nat_of_ascii c - 48.

Definition as_tuple (d : Decimal) : bool * list nat * tuple_exponent :=
  match d with
  | Finite s c e => (s, map digit_value (chars_of_N c), ExpInt e)
  | Infinity s => (s, [0%nat], ExpF)
  | NaN s sig p =>
      (s, if (p =? 0)%N then [] else map digit_value (chars_of_N p),
       if sig then ExpN else Expn)
  end.

Definition sign_chars (s : bool) : list ascii := if s then ["-"%char] else [].

(** [Decimal.__str__]: plain notation when the exponent is at most zero and
    the number is not too small, scientific notation otherwise. *)
Definition str_chars (d : Decimal) : list ascii :=
  match d with
  | Infinity s => sign_chars s ++ chars "Infinity"
  | NaN s sig p =>
      sign_chars s ++ chars (if sig then "sNaN" else "NaN")
        ++ (if (p =? 0)%N then [] else chars_of_N p)
  | Finite s c e =>
      let _int := chars_of_N c in
      let len := Z.of_nat (List.length _int) in
      let leftdigits := e + len in
      let dotplace := if (e <=? 0) && (-6 <? leftdigits) then leftdigits else 1 in
      let intpart :=
        if dotplace <=? 0 then ["0"%char]
        else if len <=? dotplace then _int ++ repeat "0"%char (Z.to_nat (dotplace - len))
        else firstn (Z.to_nat dotplace) _int in
      let fracpart :=
        if dotplace <=? 0 then "."%char :: repeat "0"%char (Z.to_nat (- dotplace)) ++ _int
        else if len <=? dotplace then []
        else "."%char :: skipn (Z.to_nat dotplace) _int in
      let exp :=
        if leftdigits =? dotplace then []
        else "E"%char :: chars_plus_d (leftdigits - dotplace) in
      sign_chars s ++ intpart ++ fracpart ++ exp
  end.

Definition str (d : Decimal) : string := text (str_chars d).

(** The exponent part of a numeric string up to the end of the text: nothing,
    or the letter E, an optional sign and at least one digit. *)
Definition parse_exponent (l : list ascii) : option Z :=
  match l with
  | [] => Some 0
  | c :: t =>
      if Ascii.eqb (lower c) "e"%char then
        let (neg, ds) :=
          match t with
          | "-"%char :: r => (true, r)
          | "+"%char :: r => (false, r)
          | _ => (false, t)
          end in
        match ds with
        | [] => None
        | _ => if forallb is_digit ds
               then Some (if neg then - Z.of_N (N_of_chars ds) else Z.of_N (N_of_chars ds))
               else None
        end
      else None
  end.

(** The finite alternative: digits, an optional point followed by digits,
    an optional exponent; at least one digit before the exponent. *)
Definition parse_number (s : bool) (l : list ascii) : option Decimal :=
  let (intpart, r1) := span is_digit l in
  let (fracpart, r2) :=
    match r1 with
    | "."%char :: t => span is_digit t
    | _ => ([], r1)
    end in
  match intpart ++ fracpart with
  | [] => None
  | ds =>
      match parse_exponent r2 with
      | Some exp => Some (Finite s (N_of_chars ds) (exp - Z.of_nat (List.length fracpart)))
      | None => None
      end
  end.

(** The special alternatives, in any case: Inf or Infinity, and NaN with
    an optional leading s and trailing diagnostic digits. *)
Definition parse_special (s : bool) (l : list ascii) : option Decimal :=
  if eq_nocase l "inf" || eq_nocase l "infinity" then Some (Infinity s)
  else
    let (sig, r) :=
      match l with
      | c :: t => if Ascii.eqb (lower c) "s"%char then (true, t) else (false, l)
      | [] => (false, l)
      end in
    if eq_nocase (firstn 3 r) "nan" && forallb is_digit (skipn 3 r)
    then Some (NaN s sig (N_of_chars (skipn 3 r)))
    else None.

(** [Decimal(value)] for a str; [None] stands for the exception
    [decimal.InvalidOperation].  The numeral is read exactly: the bounds
    that the C implementation puts on the exponent and on the number of
    digits (about 10^18, see [decimal_in_range] below) are not applied. *)
Definition of_chars (value : list ascii) : option Decimal :=
  let l := drop_underscores (strip value) in
  let (s, body) :=
    match l with
    | "-"%char :: r => (true, r)
    | "+"%char :: r => (false, r)
    | _ => (false, l)
    end in
  match body with
  | c :: _ =>
      if is_digit c || Ascii.eqb c "."%char then parse_number s body
      else parse_special s body
  | [] => None
  end.

Definition of_string (value : string) : option Decimal := of_chars (chars value).

Definition is_nan (d : Decimal) : bool :=
  match d with NaN _ _ _ => true | _ => false end.

Definition is_snan (d : Decimal) : bool :=
  match d with NaN _ true _ => true | _ => false end.

(** The value of a finite Decimal scaled to the exponent [m]. *)
Definition scaled (s : bool) (c : N) (e m : Z) : Z :=
  (if s then - Z.of_N c else Z.of_N c) * 10 ^ (e - m).

(** [Decimal._cmp] on operands that are not NaN. *)
Definition cmp (a b : Decimal) : comparison :=
  match a, b with
  | Infinity sa, Infinity sb =>
      match sa, sb with
      | true, false => Lt
      | false, true => Gt
      | _, _ => Eq
      end
  | Infinity sa, _ => if sa then Lt else Gt
  | _, Infinity sb => if sb then Gt else Lt
  | Finite sa ca ea, Finite sb cb eb =>
      let m := Z.min ea eb in
      Z.compare (scaled sa ca ea m) (scaled sb cb eb m)
  | _, _ => Eq
  end.

(** [a < b]: an ordering comparison with a NaN signals InvalidOperation. *)
Definition lt (a b : Decimal) : result bool :=
  if is_nan a || is_nan b then Raise InvalidOperation
  else Return (match cmp a b with Lt => true | _ => false end).

(** [a > b] *)
Definition gt (a b : Decimal) : result bool := lt b a.

(** [a == b]: false with a quiet NaN, InvalidOperation with a signaling one. *)
Definition eq (a b : Decimal) : result bool :=
  if is_snan a || is_snan b then Raise InvalidOperation
  else if is_nan a || is_nan b then Return false
  else Return (match cmp a b with Eq => true | _ => false end).

End PyDecimal.

(* ===================================================================== *)
(** ** Python values *)
(* ===================================================================== *)

(** The values a field can hold.  A float is a binary64 number in canonical
    form (a 53-bit mantissa, or the exponent -1074).  [VOther s] is an object
    of any other type (a list, a nested dict, ...): the engine only tests
    its type and takes its [str()], which is [s]. *)
Inductive pyval : Type :=
| VNone
| VBool (b : bool)
| VInt (z : Z)
| VFloat (f : spec_float)
| VStr (s : string)
| VDecimal (d : PyDecimal.Decimal)
| VOther (s : string).

Definition is_None (v : pyval) : bool :=
  match v with VNone => true | _ => false end.

(** f-strings: the concatenation of their pieces. *)
Definition fmt (pieces : list string) : string := String.concat "" pieces.

(** [raise ValidationError([message])] *)
Definition raise_message {A : Type} (message : string) : result A :=
  RaiseValidationError (ErrorList [message]).

(** [float(z)], correctly rounded; OverflowError beyond the binary64 range. *)
Definition float_of_int (z : Z) : result spec_float :=
  match binary_normalize 53 1024 z 0 false with
  | S754_infinity _ => Raise OverflowError
  | f => Return f
  end.

Definition float_lt (a b : spec_float) : bool := SFltb a b.
Definition float_eq (a b : spec_float) : bool := SFeqb a b.

(** [repr(s)] for a str. *)
Definition dquote : ascii := ascii_of_nat 34.
Definition squote : ascii := ascii_of_nat 39.
Definition backslash : ascii := ascii_of_nat 92.

Definition hex_digit (n : nat) : ascii :=
  if (n <? 10)%nat then ascii_of_nat (48 + n) else ascii_of_nat (87 + n).

Definition printable (c : ascii) : bool :=
  let n := nat_of_ascii c in
  negb ((n <? 32)%nat || ((127 <=? n)%nat && (n <=? 160)%nat) || (n =? 173)%nat).

Definition repr_char (quote c : ascii) : list ascii :=
  let n := nat_of_ascii c in
  if Ascii.eqb c quote || Ascii.eqb c backslash then [backslash; c]
  else if (n =? 9)%nat then [backslash; "t"%char]
  else if (n =? 10)%nat then [backslash; "n"%char]
  else if (n =? 13)%nat then [backslash; "r"%char]
  else if printable c then [c]
  else [backslash; "x"%char; hex_digit (n / 16); hex_digit (n mod 16)].

Definition str_repr (s : string) : string :=
  let l := chars s in
  let quote :=
    if existsb (Ascii.eqb squote) l && negb (existsb (Ascii.eqb dquote) l)
    then dquote else squote in
  text (quote :: flat_map (repr_char quote) l ++ [quote]).

(** [repr(f)] is the shortest decimal text that reads back as [f], the
    closest to [f] when there are several.  A positive finite float
    [m * 2^e] is handled in units of [2^(e-2)]: the float is [4m], and every
    real strictly between [lo] and [hi] reads back as it (the ends too when
    [m] is even). *)
Module FloatRepr.

Record scaled_float : Type := {
  unit_exp : Z;      (* the unit is 2^unit_exp *)
  mid : Z;           (* the float *)
  lo : Z;            (* half-way to the float below *)
  hi : Z;            (* half-way to the float above *)
  closed : bool      (* whether the ends read back as the float *)
}.

Definition scale (m : positive) (e : Z) : scaled_float :=
  let m := Z.pos m in
  {| unit_exp := e - 2;
     mid := 4 * m;
     lo := if (m =? 2 ^ 52) && (-1074 <? e) then 4 * m - 1 else 4 * m - 2;
     hi := 4 * m + 2;
     closed := Z.even m |}.

(** Compare [d * 10^k] with [q * 2^u]. *)
Definition compare_dec (d k q u : Z) : comparison :=
  Z.compare (d * 10 ^ Z.max k 0 * 2 ^ Z.max (- u) 0)
            (q * 2 ^ Z.max u 0 * 10 ^ Z.max (- k) 0).

(** The integer part of [q * 2^u / 10^k]. *)
Definition floor_dec (q u k : Z) : Z :=
  (q * 2 ^ Z.max u 0 * 10 ^ Z.max (- k) 0)
  / (2 ^ Z.max (- u) 0 * 10 ^ Z.max k 0).

Definition inside (f : scaled_float) (d k : Z) : bool :=
  match compare_dec d k (lo f) (unit_exp f), compare_dec d k (hi f) (unit_exp f) with
  | Gt, Lt => true
  | Eq, Lt | Gt, Eq => closed f
  | _, _ => false
  end.

(** The decimal exponent [p] with [10^p <= f < 10^(p+1)], searched around
    an estimate from the binary exponent. *)
Definition decimal_exponent (f : scaled_float) : Z :=
  let est := (Z.log2 (mid f) + unit_exp f) * 30103 / 100000 in
  let fits p :=
    let d := floor_dec (mid f) (unit_exp f) p in (1 <=? d) && (d <? 10) in
  if fits (est - 1) then est - 1
  else if fits est then est
  else if fits (est + 1) then est + 1
  else est + 2.

(** The shortest digits: for 1, 2, ... digits, the two decimals around
    the float; the first that reads back as the float wins, the closer of
    the two when both do. *)
Fixpoint shortest (fuel : nat) (f : scaled_float) (p n : Z) : Z * Z :=
  let k := p - n + 1 in
  let d := floor_dec (mid f) (unit_exp f) k in
  match fuel with
  | O => (d, k)
  | S fuel' =>
      let below := inside f d k in
      let above := inside f (d + 1) k in
      let nearer_above :=
        match compare_dec (2 * d + 1) k (2 * mid f) (unit_exp f) with
        | Lt => true
        | _ => false
        end in
      if below && above then (if nearer_above then (d + 1, k) else (d, k))
      else if below then (d, k)
      else if above then (d + 1, k)
      else shortest fuel' f p (n + 1)
  end.

Fixpoint strip_zeros (fuel : nat) (d k : Z) : Z * Z :=
  match fuel with
  | O => (d, k)
  | S fuel' => if d mod 10 =? 0 then strip_zeros fuel' (d / 10) (k + 1) else (d, k)
  end.

(** The digits of the float and the position of the point: the float is
    [0.digits * 10^decpt]. *)
Definition digits (m : positive) (e : Z) : list ascii * Z :=
  let f := scale m e in
  let '(d, k) := shortest 17 f (decimal_exponent f) 1 in
  let '(d, k) := strip_zeros 18 d k in
  let ds := chars_of_N (Z.to_N d) in
  (ds, k + Z.of_nat (List.length ds)).

(** The layout of [repr]: plain between 1e-4 and 1e16, with an exponent
    of at least two digits outside. *)
Definition layout (ds : list ascii) (decpt : Z) : list ascii :=
  let n := Z.of_nat (List.length ds) in
  if (-4 <? decpt) && (decpt <=? 16) then
    if decpt <=? 0 then
      chars "0." ++ repeat "0"%char (Z.to_nat (- decpt)) ++ ds
    else if n <=? decpt then
      ds ++ repeat "0"%char (Z.to_nat (decpt - n)) ++ chars ".0"
    else
      firstn (Z.to_nat decpt) ds ++ "."%char :: skipn (Z.to_nat decpt) ds
  else
    let x := decpt - 1 in
    let xs := chars_of_N (Z.abs_N x) in
    firstn 1 ds
      ++ (match skipn 1 ds with [] => [] | r => "."%char :: r end)
      ++ "e"%char :: (if x <? 0 then "-"%char else "+"%char)
      :: (if Z.abs x <? 10 then "0"%char :: xs else xs).

Definition repr (f : spec_float) : string :=
  match f with
  | S754_nan => "nan"
  | S754_infinity s => if s then "-inf" else "inf"
  | S754_zero s => if s then "-0.0" else "0.0"
  | S754_finite s m e =>
      let '(ds, decpt) := digits m e in
      text ((if s then ["-"%char] else []) ++ layout ds decpt)
  end.

End FloatRepr.

Definition float_repr : spec_float -> string := FloatRepr.repr.

Definition bool_repr (b : bool) : string := if b then "True" else "False".

Definition decimal_repr (d : PyDecimal.Decimal) : string :=
  fmt ["Decimal('"; PyDecimal.str d; "')"].

(* ===================================================================== *)
(** ** dict *)
(* ===================================================================== *)

Definition pydict (V : Type) : Type := list (string * V).

Definition keys {V : Type} (d : pydict V) : list string := map fst d.

(** [d.get(k)] *)
Fixpoint dict_get {V : Type} (d : pydict V) (k : string) : option V :=
  match d with
  | [] => None
  | (k', v) :: t => if String.eqb k' k then Some v else dict_get t k
  end.

(** [d[k] = v]: an existing key keeps its place, a new key goes last. *)
Fixpoint dict_set {V : Type} (d : pydict V) (k : string) (v : V) : pydict V :=
  match d with
  | [] => [(k, v)]
  | (k', v') :: t =>
      if String.eqb k' k then (k, v) :: t else (k', v') :: dict_set t k v
  end.

(** [d.update(other)] *)
Definition dict_update {V : Type} (d other : pydict V) : pydict V :=
  fold_left (fun acc kv => dict_set acc (fst kv) (snd kv)) other d.

(** [del d[k]] *)
Fixpoint dict_del {V : Type} (d : pydict V) (k : string) : pydict V :=
  match d with
  | [] => []
  | (k', v) :: t => if String.eqb k' k then t else (k', v) :: dict_del t k
  end.

(** [d.get(k)] on a dict of values: [None] when the key is missing. *)
Definition dget (d : list (string * pyval)) (k : string) : pyval :=
  match dict_get d k with
  | Some v => v
  | None => VNone
  end.

(** [errors.setdefault(field, []).extend(msgs)] *)
Definition setdefault_extend (errors : pydict (list string)) (field : string)
    (msgs : list string) : pydict (list string) :=
  match dict_get errors field with
  | Some old => dict_set errors field (old ++ msgs)
  | None => dict_set errors field ([] ++ msgs)
  end.

(** [sorted] on strings: code-point lexicographic order. *)
Module StringOrder <: TotalLeBool.
Definition t := string.
Definition leb := String.leb.
Definition leb_total : forall a1 a2, leb a1 a2 = true \/ leb a2 a1 = true :=
  String.leb_total.
End StringOrder.

Module StringSort := Sort StringOrder.

Definition sorted (l : list string) : list string := StringSort.sort l.

(* ===================================================================== *)
(** ** Attribute descriptors *)
(* ===================================================================== *)

(** The five descriptor classes with their own constructor arguments.
    [choices] is taken at the descriptor's own type, as annotated in each
    subclass. *)
Inductive descriptor : Type :=
| EAVString (max_length : option Z) (choices : option (list string))
| EAVBoolean (choices : option (list bool))
| EAVInteger (min_value max_value : option Z) (choices : option (list Z))
| EAVFloat (min_value max_value : option spec_float)
    (choices : option (list spec_float))
| EAVDecimal (max_digits decimal_places : option Z)
    (min_value max_value : option PyDecimal.Decimal)
    (choices : option (list PyDecimal.Decimal)).

(** An instance: the fields set by [EAVAttribute.__init__] and the fields of
    the subclass.  [name] is set by the metaclass. *)
Record EAVAttribute : Type := {
  name : string;
  required : bool;
  default : pyval;
  help_text : string;
  kind : descriptor
}.

Definition set_name (a : EAVAttribute) (key : string) : EAVAttribute :=
  {| name := key; required := required a; default := default a;
     help_text := help_text a; kind := kind a |}.

Module EAVString.

(** The inherited [EAVAttribute._coerce] with [python_type = str]. *)
Definition _coerce (self : EAVAttribute) (value : pyval) : result pyval :=
  match value with
  | VStr _ => Return value
  | _ => raise_message (fmt [name self; " must be a "; "string"; "."])
  end.

Definition _check_constraints (self : EAVAttribute) (max_length : option Z)
    (value : string) : result unit :=
  match max_length with
  | Some m =>
      if Z.of_nat (String.length value) >? m
      then raise_message
             (fmt [name self; " must be at most "; str_of_Z m; " characters."])
      else Return tt
  | None => Return tt
  end.

End EAVString.

Module EAVBoolean.

Definition _coerce (self : EAVAttribute) (value : pyval) : result pyval :=
  match value with
  | VBool _ => Return value
  | _ => raise_message (fmt [name self; " must be a boolean."])
  end.

End EAVBoolean.

Module EAVInteger.

Definition _coerce (self : EAVAttribute) (value : pyval) : result pyval :=
  match value with
  | VBool _ => raise_message (fmt [name self; " must be an integer."])
  | VInt _ => Return value
  | _ => raise_message (fmt [name self; " must be an integer."])
  end.

Definition _check_constraints (self : EAVAttribute)
    (min_value max_value : option Z) (value : Z) : result unit :=
  match min_value with
  | Some m =>
      if value <? m
      then raise_message (fmt [name self; " must be >= "; str_of_Z m; "."])
      else Return tt
  | None => Return tt
  end ;;;
  match max_value with
  | Some m =>
      if value >? m
      then raise_message (fmt [name self; " must be <= "; str_of_Z m; "."])
      else Return tt
  | None => Return tt
  end.

End EAVInteger.

Module EAVFloat.
Definition _coerce (self : EAVAttribute) (value : pyval) : result pyval :=
  match value with
  | VBool _ => raise_message (fmt [name self; " must be a number."])
  | VInt z => f <- float_of_int z ;; Return (VFloat f)
  | VFloat _ => Return value
  | _ => raise_message (fmt [name self; " must be a number."])
  end.

Definition _check_constraints (self : EAVAttribute)
    (min_value max_value : option spec_float) (value : spec_float)
    : result unit :=
  match min_value with
  | Some m =>
      if float_lt value m
      then raise_message (fmt [name self; " must be >= "; float_repr m; "."])
      else Return tt
  | None => Return tt
  end ;;;
  match max_value with
  | Some m =>
      if float_lt m value
      then raise_message (fmt [name self; " must be <= "; float_repr m; "."])
      else Return tt
  | None => Return tt
  end.

End EAVFloat.

(** [str(value)] *)
Definition py_str (value : pyval) : string :=
    match value with
    | VNone => "None"
    | VBool b => bool_repr b
    | VInt z => str_of_Z z
    | VFloat f => float_repr f
    | VStr s => s
    | VDecimal d => PyDecimal.str d
    | VOther s => s
    end.

Module EAVDecimal.
Definition _coerce (self : EAVAttribute) (value : pyval) : result pyval :=
  match value with
  | VBool _ => raise_message (fmt [name self; " must be a decimal."])
  | VDecimal _ => Return value
  | VInt _ | VFloat _ | VStr _ =>
      match PyDecimal.of_string (py_str value) with
      | Some d => Return (VDecimal d)
      | None => raise_message (fmt [name self; " must be a valid decimal."])
      end
  | _ => raise_message (fmt [name self; " must be a decimal."])
  end.

(** The digit counts of [_check_constraints]: [decimals], the digits to
    the right of the point, and [whole_digits].  Ordering the exponent of
    a special value, a str, against 0 is a TypeError. *)
Definition digit_counts (value : PyDecimal.Decimal) : result (Z * Z) :=
  let '(_sign, digits, exponent) := PyDecimal.as_tuple value in
  let num_digits := Z.of_nat (List.length digits) in
  match exponent with
  | PyDecimal.ExpInt e =>
      let decimals := if e <? 0 then - e else 0 in
      let whole_digits := num_digits - decimals in
      Return (decimals, whole_digits)
  | _ => Raise TypeError
  end.

Definition _check_constraints (self : EAVAttribute)
    (max_digits decimal_places : option Z)
    (min_value max_value : option PyDecimal.Decimal)
    (value : PyDecimal.Decimal) : result unit :=
  match min_value with
  | Some m =>
      below <- PyDecimal.lt value m ;;
      if below
      then raise_message (fmt [name self; " must be >= "; PyDecimal.str m; "."])
      else Return tt
  | None => Return tt
  end ;;;
  match max_value with
  | Some m =>
      above <- PyDecimal.gt value m ;;
      if above
      then raise_message (fmt [name self; " must be <= "; PyDecimal.str m; "."])
      else Return tt
  | None => Return tt
  end ;;;
  match max_digits, decimal_places with
  | None, None => Return tt
  | _, _ =>
      counts <- digit_counts value ;;
      let '(decimals, whole_digits) := counts in
      match decimal_places with
      | Some dp =>
          if decimals >? dp
          then raise_message
                 (fmt [name self; " must have at most "; str_of_Z dp;
                       " decimal places."])
          else Return tt
      | None => Return tt
      end ;;;
      match max_digits with
      | Some md =>
          let max_whole :=
            md - match decimal_places with Some dp => dp | None => 0 end in
          if whole_digits >? max_whole
          then raise_message
                 (fmt [name self; " has too many digits (max "; str_of_Z md; ")."])
          else Return tt
      | None => Return tt
      end
  end.

Definition to_json (self : EAVAttribute) (value : pyval) : pyval :=
  match value with
  | VNone => VNone
  | _ => VStr (py_str value)
  end.

Definition from_json (self : EAVAttribute) (value : pyval) : pyval :=
  match value with
  | VNone => default self
  | _ =>
      match PyDecimal.of_string (py_str value) with
      | Some d => VDecimal d
      | None => default self
      end
  end.

(** [value in choices]: the first equal element ends the search. *)
Fixpoint contains (choices : list PyDecimal.Decimal) (value : PyDecimal.Decimal)
    : result bool :=
  match choices with
  | [] => Return false
  | c :: rest =>
      same <- PyDecimal.eq c value ;;
      if same then Return true else contains rest value
  end.

End EAVDecimal.

Module EAVAttribute.
(** Method dispatch on the class of [self]. *)
Definition _coerce (self : EAVAttribute) (value : pyval) : result pyval :=
  match kind self with
  | EAVString _ _ => EAVString._coerce self value
  | EAVBoolean _ => EAVBoolean._coerce self value
  | EAVInteger _ _ _ => EAVInteger._coerce self value
  | EAVFloat _ _ _ => EAVFloat._coerce self value
  | EAVDecimal _ _ _ _ _ => EAVDecimal._coerce self value
  end.

(** [_check_constraints] is only applied to the result of [_coerce]; on a
    value of another type the model raises TypeError. *)
Definition _check_constraints (self : EAVAttribute) (value : pyval)
    : result unit :=
  match kind self, value with
  | EAVString max_length _, VStr s =>
      EAVString._check_constraints self max_length s
  | EAVBoolean _, VBool _ => Return tt
  | EAVInteger min_value max_value _, VInt z =>
      EAVInteger._check_constraints self min_value max_value z
  | EAVFloat min_value max_value _, VFloat f =>
      EAVFloat._check_constraints self min_value max_value f
  | EAVDecimal max_digits decimal_places min_value max_value _, VDecimal d =>
      EAVDecimal._check_constraints self max_digits decimal_places
        min_value max_value d
  | _, _ => Raise TypeError
  end.

(** [repr(c) for c in self.choices], when [choices] is set. *)
Definition choices_reprs (self : EAVAttribute) : option (list string) :=
  match kind self with
  | EAVString _ choices => option_map (map str_repr) choices
  | EAVBoolean choices => option_map (map bool_repr) choices
  | EAVInteger _ _ choices => option_map (map str_of_Z) choices
  | EAVFloat _ _ choices => option_map (map float_repr) choices
  | EAVDecimal _ _ _ _ choices => option_map (map decimal_repr) choices
  end.

(** [value in self.choices], for a coerced value: some element is [==] to
    it.  Python tests identity before [==]; for a value that is [==] to
    itself this gives the same answer, and a NaN, which is not, is found
    by Python only when the very object is an element of the list: the
    answer here is the one for a NaN object that is not in the list. *)
Definition in_choices (self : EAVAttribute) (value : pyval) : result bool :=
  match kind self, value with
  | EAVString _ (Some choices), VStr s => Return (existsb (String.eqb s) choices)
  | EAVBoolean (Some choices), VBool b => Return (existsb (Bool.eqb b) choices)
  | EAVInteger _ _ (Some choices), VInt z => Return (existsb (Z.eqb z) choices)
  | EAVFloat _ _ (Some choices), VFloat f => Return (existsb (float_eq f) choices)
  | EAVDecimal _ _ _ _ (Some choices), VDecimal d => EAVDecimal.contains choices d
  | _, _ => Return false
  end.

Definition validate (self : EAVAttribute) (value : pyval) : result pyval :=
  match value with
  | VNone =>
      if required self && is_None (default self)
      then raise_message (fmt [name self; " is required."])
      else Return (default self)
  | _ =>
      value <- _coerce self value ;;
      _check_constraints self value ;;;
      match choices_reprs self with
      | Some reprs =>
          found <- in_choices self value ;;
          if found then Return value
          else
            let allowed := String.concat ", " reprs in
            raise_message (fmt [name self; " must be one of: "; allowed; "."])
      | None => Return value
      end
  end.

Definition to_json (self : EAVAttribute) (value : pyval) : pyval :=
  match kind self with
  | EAVDecimal _ _ _ _ _ => EAVDecimal.to_json self value
  | _ => value
  end.

Definition from_json (self : EAVAttribute) (value : pyval) : result pyval :=
  match kind self with
  | EAVDecimal _ _ _ _ _ => Return (EAVDecimal.from_json self value)
  | _ =>
      match value with
      | VNone => Return (default self)
      | _ => _coerce self value
      end
  end.

End EAVAttribute.

(* ===================================================================== *)
(** ** Objects: descriptors and attribute dicts in a store *)
(* ===================================================================== *)

(** Descriptor objects and the [_eav_attributes] dict objects are mutable
    and may be shared, so they live in a store and are named by
    references.  [next_dict] is the first reference not yet given to a
    dict. *)
Definition ref : Type := nat.

Record store : Type := {
  objects : ref -> EAVAttribute;
  dicts : ref -> pydict ref;
  next_dict : ref
}.

Definition set_object (st : store) (r : ref) (a : EAVAttribute) : store :=
  {| objects := fun r' => if Nat.eqb r' r then a else objects st r';
     dicts := dicts st;
     next_dict := next_dict st |}.

Definition set_dict (st : store) (r : ref) (d : pydict ref) : store :=
  {| objects := objects st;
     dicts := fun r' => if Nat.eqb r' r then d else dicts st r';
     next_dict := next_dict st |}.

(** [{}]: a new, empty dict object. *)
Definition new_dict (st : store) : store * ref :=
  let r := next_dict st in
  ({| objects := objects st;
      dicts := fun r' => if Nat.eqb r' r then [] else dicts st r';
      next_dict := S r |}, r).

(** A value bound in a class body: a descriptor object, or anything else
    (a method, a constant, ...). *)
Inductive nsvalue : Type :=
| Attribute (r : ref)
| NotAttribute.

(** A class created by [EAVSchemaMeta]: the dict object bound to
    [_eav_attributes] and the class method [validate_cross] that attribute
    lookup finds on it.  The method may write to the dict it is given:
    [validate_cross data] is that dict as the method leaves it when it
    returns, or the exception it raises. *)
Record EAVSchema : Type := {
  _eav_attributes : ref;
  validate_cross : pydict pyval -> result (pydict pyval)
}.

Module EAVSchemaMeta.

(** [for base in bases: attrs.update(getattr(base, "_eav_attributes", {}))].
    A base is given by its [_eav_attributes], if it has one. *)
Definition inherit (st : store) (attrs : ref) (bases : list (option ref)) : store :=
  fold_left
    (fun st base =>
       let parent_attrs :=
         match base with
         | Some r => dicts st r
         | None => []
         end in
       set_dict st attrs (dict_update (dicts st attrs) parent_attrs))
    bases st.

(** The loop over [namespace.items()]: a descriptor gets its key as name
    and is entered in [attrs]; [attr_names] collects these keys. *)
Definition collect (st : store) (attrs : ref) (namespace : pydict nsvalue)
    : store * list string :=
  fold_left
    (fun acc kv =>
       let '(st, attr_names) := acc in
       let '(key, value) := kv in
       match value with
       | Attribute r =>
           let st := set_object st r (set_name (objects st r) key) in
           let st := set_dict st attrs (dict_set (dicts st attrs) key r) in
           (st, attr_names ++ [key])
       | NotAttribute => (st, attr_names)
       end)
    namespace (st, []).

(** [EAVSchemaMeta.__new__]: returns the store, the namespace without the
    descriptors, and the dict bound to [_eav_attributes] in it. *)
Definition __new__ (st : store) (bases : list (option ref))
    (namespace : pydict nsvalue) : store * pydict nsvalue * ref :=
  let '(st, attrs) := new_dict st in
  let st := inherit st attrs bases in
  let '(st, attr_names) := collect st attrs namespace in
  let namespace := fold_left (fun ns key => dict_del ns key) attr_names namespace in
  (st, namespace, attrs).

End EAVSchemaMeta.

(** A value passed as [data]: a dict, or a value that is not a dict. *)
Inductive pydata : Type :=
| Dict (d : pydict pyval)
| NotDict (v : pyval).

Module EAVSchema.
(** [cls._eav_attributes.items()] with the descriptor objects read from
    the store. *)
Definition items (st : store) (cls : EAVSchema) : list (string * EAVAttribute) :=
  map (fun kr => (fst kr, objects st (snd kr))) (dicts st (_eav_attributes cls)).

(** [get_attributes]: a copy of the dict. *)
Definition get_attributes (st : store) (cls : EAVSchema) : pydict ref :=
  dicts st (_eav_attributes cls).

(** The default [validate_cross]: no rule, the dict is left as it is. *)
Definition no_validate_cross (data : pydict pyval) : result (pydict pyval) :=
  Return data.

(** [unknown = set(data) - known_keys]; one error per key of
    [sorted(unknown)]. *)
Definition unknown_keys (known_keys : list string) (data : pydict pyval)
    : list string :=
  filter (fun key => negb (existsb (String.eqb key) known_keys)) (keys data).

Definition unknown_errors (unknown : list string) : pydict (list string) :=
  fold_left
    (fun errors key => dict_set errors key [fmt ["Unknown config key: "; key; "."]])
    (sorted unknown) [].

(** The [except ValidationError as exc] clause. *)
Definition record_error (errors : pydict (list string)) (attr_name : string)
    (exc : ValidationError) : pydict (list string) :=
  match exc with
  | ErrorDict message_dict =>
      fold_left
        (fun errors fm => setdefault_extend errors (fst fm) (snd fm))
        message_dict errors
  | ErrorList messages => setdefault_extend errors attr_name messages
  end.

(** The loop over the declared attributes.  An exception other than
    ValidationError leaves the loop and [validate]. *)
Fixpoint validate_attributes (attributes : list (string * EAVAttribute))
    (data : pydict pyval) (errors : pydict (list string))
    (cleaned : pydict pyval)
    : result (pydict (list string) * pydict pyval) :=
  match attributes with
  | [] => Return (errors, cleaned)
  | (attr_name, attr) :: rest =>
      let value := dget data attr_name in
      match EAVAttribute.validate attr value with
      | Return cleaned_value =>
          let cleaned :=
            if is_None cleaned_value then cleaned
            else dict_set cleaned attr_name
                   (EAVAttribute.to_json attr cleaned_value) in
          validate_attributes rest data errors cleaned
      | RaiseValidationError exc =>
          validate_attributes rest data (record_error errors attr_name exc) cleaned
      | Raise x => Raise x
      end
  end.

(** [EAVSchema.validate].  The first component is the list of the
    arguments with which [validate_cross] was called, in order, each as
    it was at the call.  The dict returned is the one handed to the hook,
    as the hook leaves it. *)
Definition validate_traced (st : store) (cls : EAVSchema) (data : pydata)
    : list (pydict pyval) * result (pydict pyval) :=
  let proceed (data : pydict pyval) :=
    let known_keys := keys (dicts st (_eav_attributes cls)) in
    let unknown := unknown_keys known_keys data in
    let errors := unknown_errors unknown in
    match validate_attributes (items st cls) data errors [] with
    | Return (errors, cleaned) =>
        match errors with
        | _ :: _ => ([], RaiseValidationError (ErrorDict errors))
        | [] =>
            ([cleaned], validate_cross cls cleaned)
        end
    | RaiseValidationError exc => ([], RaiseValidationError exc)
    | Raise x => ([], Raise x)
    end in
  match data with
  | NotDict VNone => proceed []
  | Dict d => proceed d
  | NotDict _ =>
      ([], RaiseValidationError (ErrorDict [("__all__", ["Config must be a dict."])]))
  end.

Definition validate (st : store) (cls : EAVSchema) (data : pydata)
    : result (pydict pyval) :=
  snd (validate_traced st cls data).

(** What the loop collects, attribute by attribute: the messages of the
    attributes that fail, the JSON values of those that pass with a value,
    and whether none raises another exception. *)
Definition field_errors (attributes : list (string * EAVAttribute))
    (data : pydict pyval) : pydict (list string) :=
  flat_map
    (fun na =>
       match EAVAttribute.validate (snd na) (dget data (fst na)) with
       | RaiseValidationError (ErrorList messages) => [(fst na, messages)]
       | _ => []
       end)
    attributes.

Definition field_values (attributes : list (string * EAVAttribute))
    (data : pydict pyval) : pydict pyval :=
  flat_map
    (fun na =>
       match EAVAttribute.validate (snd na) (dget data (fst na)) with
       | Return v =>
           if is_None v then []
           else [(fst na, EAVAttribute.to_json (snd na) v)]
       | _ => []
       end)
    attributes.

Definition no_exception (attributes : list (string * EAVAttribute))
    (data : pydict pyval) : bool :=
  forallb
    (fun na =>
       match EAVAttribute.validate (snd na) (dget data (fst na)) with
       | Raise _ => false
       | _ => true
       end)
    attributes.

Definition validate_cross_calls (st : store) (cls : EAVSchema) (data : pydata)
    : list (pydict pyval) :=
  fst (validate_traced st cls data).

(** [apply_defaults], on a dict or [None] as annotated: a copy of [data]
    to which each declared name that is not a key yet is added with its
    default in JSON form, when the default is not [None]. *)
Definition apply_defaults (st : store) (cls : EAVSchema)
    (data : option (pydict pyval)) : pydict pyval :=
  let data := match data with Some d => d | None => [] end in
  fold_left
    (fun result na =>
       let '(attr_name, attr) := na in
       if negb (existsb (String.eqb attr_name) (keys result))
          && negb (is_None (default attr))
       then dict_set result attr_name (EAVAttribute.to_json attr (default attr))
       else result)
    (items st cls) data.

End EAVSchema.

(* ===================================================================== *)
(** ** Auxiliary notions of the proofs *)
(* ===================================================================== *)

(** A dict has each key once. *)
Fixpoint unique (l : list string) : bool :=
  match l with
  | [] => true
  | k :: t => negb (existsb (String.eqb k) t) && unique t
  end.

(** Where a run of digits ends. *)
Definition no_digit_ahead (l : list ascii) : Prop :=
  match l with
  | [] => True
  | c :: _ => is_digit c = false
  end.

(** Text without white space and underscores. *)
Definition is_plain (c : ascii) : bool :=
  negb (isspace c) && negb (Ascii.eqb c "_"%char).

(** The tail of a numeric text: nothing, or an exponent. *)
Definition exponent_tail (x : list ascii) (z : Z) : Prop :=
  (x = [] /\ z = 0) \/ x = "E"%char :: chars_plus_d z.

(** The value type of each descriptor. *)
Definition canonical (self : EAVAttribute) (v : pyval) : Prop :=
  match kind self, v with
  | EAVString _ _, VStr _ => True
  | EAVBoolean _, VBool _ => True
  | EAVInteger _ _ _, VInt _ => True
  | EAVFloat _ _ _, VFloat _ => True
  | EAVDecimal _ _ _ _ _, VDecimal _ => True
  | _, _ => False
  end.

(** [w == v] on two values of one type; [None] for two values of
    different types, which no property here compares. *)
Definition same_type_eq (w v : pyval) : option (result bool) :=
  match w, v with
  | VNone, VNone => Some (Return true)
  | VBool a, VBool b => Some (Return (Bool.eqb a b))
  | VInt a, VInt b => Some (Return (Z.eqb a b))
  | VFloat a, VFloat b => Some (Return (float_eq a b))
  | VStr a, VStr b => Some (Return (String.eqb a b))
  | VDecimal a, VDecimal b => Some (PyDecimal.eq a b)
  | _, _ => None
  end.

(** A float nan or a Decimal NaN. *)
Definition is_nan_value (v : pyval) : bool :=
  match v with
  | VFloat S754_nan => true
  | VDecimal d => PyDecimal.is_nan d
  | _ => false
  end.

(** [rate = EAVDecimal()] and [ratio = EAVFloat()], as named by the
    metaclass. *)
Definition rate_plain : EAVAttribute :=
  {| name := "rate"; required := true; default := VNone; help_text := "";
     kind := EAVDecimal None None None None None |}.

Definition ratio_plain : EAVAttribute :=
  {| name := "ratio"; required := true; default := VNone; help_text := "";
     kind := EAVFloat None None None |}.

(** [len(digits)] of a finite Decimal. *)
Definition num_digits (c : N) : Z := Z.of_nat (List.length (chars_of_N c)).

(** Sample descriptors and values. *)
Definition amount_5_2 : EAVAttribute :=
  {| name := "amount"; required := true; default := VNone; help_text := "";
     kind := EAVDecimal (Some 5) (Some 2) None None None |}.



Definition one_point_5 : PyDecimal.Decimal := PyDecimal.Finite false 15 (-1).
Definition one_point_50 : PyDecimal.Decimal := PyDecimal.Finite false 150 (-2).

(** The outcome is not a [ValidationError] built from a dict. *)
Definition list_error {A : Type} (r : result A) : Prop :=
  match r with
  | RaiseValidationError (ErrorDict _) => False
  | _ => True
  end.

(** The dict that [validate] works on: [data], or [{}] for [None]. *)
Definition as_dict (data : pydata) : pydict pyval :=
  match data with
  | Dict d => d
  | NotDict _ => []
  end.

(** A class statement: the class that [EAVSchemaMeta.__new__] makes of the
    bases and the body, with the [validate_cross] that lookup finds on it. *)
Definition class_statement (st : store) (bases : list (option ref))
    (namespace : pydict nsvalue) (hook : pydict pyval -> result (pydict pyval))
    : store * EAVSchema :=
  let '(st, _, attrs) := EAVSchemaMeta.__new__ st bases namespace in
  (st, {| _eav_attributes := attrs; validate_cross := hook |}).

(** A store with the given descriptor objects and no dict yet. *)
Definition initial_store (objects : ref -> EAVAttribute) : store :=
  {| objects := objects; dicts := fun _ => []; next_dict := 0%nat |}.

(** A descriptor as its constructor leaves it: no name yet. *)
Definition descriptor_object (required : bool) (default : pyval) (kind : descriptor)
    : EAVAttribute :=
  {| name := ""; required := required; default := default; help_text := "";
     kind := kind |}.

(** A module with the base class [EAVSchema] and one class statement
    [class C(EAVSchema): k1 = a1; k2 = a2; ...]: descriptor [i] of the body
    is object [i] of the store. *)
Definition declare (body : list (string * EAVAttribute))
    (hook : pydict pyval -> result (pydict pyval)) : store * EAVSchema :=
  let objects :=
    fun r => nth r (map snd body) (descriptor_object true VNone (EAVBoolean None)) in
  let namespace :=
    combine (map fst body) (map Attribute (seq 0 (List.length body))) in
  let '(st, base) :=
    class_statement (initial_store objects) [] [] EAVSchema.no_validate_cross in
  class_statement st [Some (_eav_attributes base)] namespace hook.


(** [name = EAVString(); count = EAVInteger()] *)
Definition config_schema : store * EAVSchema :=
  declare [("name", descriptor_object true VNone (EAVString None None));
           ("count", descriptor_object true VNone (EAVInteger None None None))]
    EAVSchema.no_validate_cross.

(** [name = EAVString(); note = EAVString(required=False)] *)
Definition note_schema : store * EAVSchema :=
  declare [("name", descriptor_object true VNone (EAVString None None));
           ("note", descriptor_object false VNone (EAVString None None))]
    EAVSchema.no_validate_cross.

(** [name = EAVString(required=False, default="unnamed");
    rate = EAVDecimal(required=False, default=Decimal("0.05"))] *)
Definition defaults_schema : store * EAVSchema :=
  declare [("name", descriptor_object false (VStr "unnamed") (EAVString None None));
           ("rate", descriptor_object false (VDecimal (PyDecimal.Finite false 5 (-2)))
                      (EAVDecimal None None None None None))]
    EAVSchema.no_validate_cross.

(** [name = EAVString(required=False, default="unnamed")], with a hook
    that writes to the dict it is given: [data["added"] = 1]. *)
Definition writing_schema : store * EAVSchema :=
  declare [("name", descriptor_object false (VStr "unnamed") (EAVString None None))]
    (fun data => Return (dict_set data "added" (VInt 1))).


(** The merged attribute set, without the store: the parents' sets folded in
    order into an empty dict, then the descriptors of the class body. *)
Definition parent_attrs (st : store) (base : option ref) : pydict ref :=
  match base with
  | Some r => dicts st r
  | None => []
  end.

Definition merged_parents (st : store) (bases : list (option ref)) : pydict ref :=
  fold_left (fun attrs base => dict_update attrs (parent_attrs st base)) bases [].

Definition own_attributes (namespace : pydict nsvalue) : pydict ref :=
  flat_map
    (fun kv => match snd kv with
               | Attribute r => [(fst kv, r)]
               | NotAttribute => []
               end)
    namespace.

Definition merged_attributes (st : store) (bases : list (option ref))
    (namespace : pydict nsvalue) : pydict ref :=
  dict_update (merged_parents st bases) (own_attributes namespace).

(** [class Parent(EAVSchema): name = EAVString(max_length=50)], with the
    descriptor of [class Child(Parent): name = EAVString(max_length=100)]
    already made as object 1. *)
Definition name_objects (r : ref) : EAVAttribute :=
  match r with
  | O => descriptor_object true VNone (EAVString (Some 50) None)
  | _ => descriptor_object true VNone (EAVString (Some 100) None)
  end.

Definition parent_schema : store * EAVSchema :=
  let '(st, base) :=
    class_statement (initial_store name_objects) [] [] EAVSchema.no_validate_cross in
  class_statement st [Some (_eav_attributes base)] [("name", Attribute 0%nat)]
    EAVSchema.no_validate_cross.

Definition child_namespace : pydict nsvalue := [("name", Attribute 1%nat)].

(** A class body that binds the parent's own descriptor object to another
    name. *)
Definition alias_namespace : pydict nsvalue := [("other", Attribute 0%nat)].

(** The entries that [apply_defaults] adds to [d]: the declared names that
    are no key of [d] and have a default, with the default in JSON form. *)
Definition missing_defaults (attributes : list (string * EAVAttribute))
    (d : pydict pyval) : pydict pyval :=
  flat_map
    (fun na =>
       if existsb (String.eqb (fst na)) (keys d) || is_None (default (snd na))
       then []
       else [(fst na, EAVAttribute.to_json (snd na) (default (snd na)))])
    attributes.

(** The bounds that the C implementation of [decimal] puts on what its
    constructor reads (64-bit build): the exponent is at least
    -1999999999999999997, the exponent of the leading digit at most
    999999999999999999, and there are at most 999999999999999999 digits.
    Beyond them the constructor raises InvalidOperation; [PyDecimal.of_string]
    reads the numeral alone and has no such bounds. *)
Definition decimal_in_range (d : PyDecimal.Decimal) : bool :=
  match d with
  | PyDecimal.Finite _ c e =>
      (-1999999999999999997 <=? e)
      && (e + Z.of_nat (List.length (chars_of_N c)) - 1 <=? 999999999999999999)
      && (Z.of_nat (List.length (chars_of_N c)) <=? 999999999999999999)
  | PyDecimal.Infinity _ => true
  | PyDecimal.NaN _ _ p =>
      Z.of_nat (List.length (chars_of_N p)) <=? 999999999999999999
  end.

(** The outcome is not a [ValidationError] with no or several messages. *)
Definition one_message {A : Type} (r : result A) : Prop :=
  match r with
  | RaiseValidationError (ErrorList [_]) => True
  | RaiseValidationError _ => False
  | _ => True
  end.

(** The JSON type of each descriptor: its value type, and a str holding
    the text of a decimal for a Decimal descriptor. *)
Definition json_form (self : EAVAttribute) (w : pyval) : Prop :=
  match kind self, w with
  | EAVString _ _, VStr _ => True
  | EAVBoolean _, VBool _ => True
  | EAVInteger _ _ _, VInt _ => True
  | EAVFloat _ _ _, VFloat _ => True
  | EAVDecimal _ _ _ _ _, VStr s => exists d, s = PyDecimal.str d
  | _, _ => False
  end.

(** [name = EAVString(); ratio = EAVFloat()] *)
Definition ratio_schema : store * EAVSchema :=
  declare [("name", descriptor_object true VNone (EAVString None None));
           ("ratio", descriptor_object true VNone (EAVFloat None None None))]
    EAVSchema.no_validate_cross.

(* ===================================================================== *)
(** ** The model field: [fields.py] *)
(* ===================================================================== *)

(** Exceptions, other than [ValidationError], met around a field: the
    ValueError of its constructor, the AttributeError of a failed [getattr],
    an exception of the import machinery, and an exception that leaves
    [EAVSchema.validate]. *)
Inductive exn : Type :=
| ValueError (message : string)
| AttributeError
| ImportFailure (module_path : string)
| Engine (x : pyexn).

Inductive outcome (A : Type) : Type :=
| Ok (a : A)
| Invalid (e : ValidationError)
| Fails (x : exn).

Arguments Ok {A} a.
Arguments Invalid {A} e.
Arguments Fails {A} x.

(** A schema class as an object of a module: the class made by the
    metaclass, with its [__module__] and [__qualname__]. *)
Record schema_class : Type := {
  __module__ : string;
  __qualname__ : string;
  schema_of : EAVSchema
}.

(** A reference to a schema: the class or its dotted path. *)
Inductive schema_ref : Type :=
| SchemaClass (c : schema_class)
| SchemaPath (ref : string).

(** A module, by the names it binds to schema classes; [importlib] by what
    [import_module] does on each name. *)
Definition pymodule : Type := pydict schema_class.

Definition importlib : Type := string -> outcome pymodule.

Definition getattr (module : pymodule) (class_name : string)
    : outcome schema_class :=
  match dict_get module class_name with
  | Some c => Ok c
  | None => Fails AttributeError
  end.

(** [s.rpartition(".")]: the text before the last dot, the dot and the
    text after it; two empty texts and [s] when [s] has no dot. *)
Fixpoint rsplit_dot (s : string) : option (string * string) :=
  match s with
  | EmptyString => None
  | String c rest =>
      match rsplit_dot rest with
      | Some (head, tail) => Some (String c head, tail)
      | None => if Ascii.eqb c "."%char then Some (EmptyString, rest) else None
      end
  end.

Definition rpartition (s : string) : string * string * string :=
  match rsplit_dot s with
  | Some (head, tail) => (head, ".", tail)
  | None => ("", "", s)
  end.

Definition _resolve_schema_class (import_module : importlib) (ref : schema_ref)
    : outcome schema_class :=
  match ref with
  | SchemaPath ref =>
      let '(module_path, _, class_name) := rpartition ref in
      match import_module module_path with
      | Ok module => getattr module class_name
      | Invalid e => Invalid e
      | Fails x => Fails x
      end
  | SchemaClass c => Ok c
  end.

Definition _schema_to_path (schema : schema_ref) : string :=
  match schema with
  | SchemaPath schema => schema
  | SchemaClass c => fmt [__module__ c; "."; __qualname__ c]
  end.

(** A model instance, by its attributes; the key field of a polymorphic
    field holds a str or None. *)
Definition model_instance : Type := pydict (option string).

(** The inherited [JSONField], for the other arguments given to the
    constructor: what its [__init__] and its [validate] do. *)
Record JSONField : Type := {
  super_init : outcome unit;
  super_validate : pydata -> model_instance -> outcome unit
}.

Record EAVField : Type := {
  schema : option schema_ref;
  schema_map : option (pydict schema_ref);
  schema_key_field : option string;
  json_field : JSONField
}.

(** The keyword arguments that [deconstruct] adds. *)
Record eav_kwargs : Type := {
  kw_schema : option string;
  kw_schema_map : option (pydict string);
  kw_schema_key_field : option string
}.

Module EAVField.

(** Truth values of the arguments: a class is true, a str and a dict are
    true when they are not empty, [None] is false. *)
Definition schema_true (schema : option schema_ref) : bool :=
  match schema with
  | Some (SchemaClass _) => true
  | Some (SchemaPath ref) => negb (String.eqb ref "")
  | None => false
  end.

Definition schema_map_true (schema_map : option (pydict schema_ref)) : bool :=
  match schema_map with
  | Some (_ :: _) => true
  | _ => false
  end.

Definition key_field_true (schema_key_field : option string) : bool :=
  match schema_key_field with
  | Some f => negb (String.eqb f "")
  | None => false
  end.

Definition __init__ (super : JSONField) (schema : option schema_ref)
    (schema_map : option (pydict schema_ref))
    (schema_key_field : option string) : outcome EAVField :=
  if schema_true schema && schema_map_true schema_map
  then Fails (ValueError "Specify either 'schema' or 'schema_map', not both.")
  else if schema_map_true schema_map && negb (key_field_true schema_key_field)
  then Fails (ValueError "'schema_key_field' is required when using 'schema_map'.")
  else
    match super_init super with
    | Ok _ =>
        Ok {| schema := schema; schema_map := schema_map;
              schema_key_field := schema_key_field; json_field := super |}
    | Invalid e => Invalid e
    | Fails x => Fails x
    end.

(** [getattr(model_instance, field, None)] *)
Definition key_value (instance : model_instance) (field : string)
    : option string :=
  match dict_get instance field with
  | Some v => v
  | None => None
  end.

(** [_resolve_schema]: the schema class to validate against, or [None]. *)
Definition _resolve_schema (import_module : importlib) (self : EAVField)
    (instance : model_instance) : outcome (option schema_class) :=
  let resolved (ref : schema_ref) :=
    match _resolve_schema_class import_module ref with
    | Ok c => Ok (Some c)
    | Invalid e => Invalid e
    | Fails x => Fails x
    end in
  match schema self with
  | Some ref => resolved ref
  | None =>
      match schema_map self, schema_key_field self with
      | Some map, Some field =>
          match key_value instance field with
          | None => Ok None
          | Some key =>
              match dict_get map key with
              | None => Ok None
              | Some schema_ref => resolved schema_ref
              end
          end
      | _, _ => Ok None
      end
  end.

(** [schema_cls.validate(value)], its result dropped. *)
Definition schema_validate (st : store) (c : schema_class)
    (value : pydict pyval) : outcome unit :=
  match EAVSchema.validate st (schema_of c) (Dict value) with
  | Return _ => Ok tt
  | RaiseValidationError e => Invalid e
  | Raise x => Fails (Engine x)
  end.

Definition validate (import_module : importlib) (st : store) (self : EAVField)
    (value : pydata) (instance : model_instance) : outcome unit :=
  match super_validate (json_field self) value instance with
  | Ok _ =>
      match value with
      | NotDict _ => Ok tt
      | Dict d =>
          match _resolve_schema import_module self instance with
          | Ok None => Ok tt
          | Ok (Some schema_cls) => schema_validate st schema_cls d
          | Invalid e => Invalid e
          | Fails x => Fails x
          end
      end
  | Invalid e => Invalid e
  | Fails x => Fails x
  end.

Definition deconstruct (self : EAVField) : eav_kwargs :=
  {| kw_schema := option_map _schema_to_path (schema self);
     kw_schema_map :=
       option_map (map (fun kv => (fst kv, _schema_to_path (snd kv))))
         (schema_map self);
     kw_schema_key_field := schema_key_field self |}.

(** The constructor called with the keyword arguments of [deconstruct]. *)
Definition reconstruct (super : JSONField) (kwargs : eav_kwargs)
    : outcome EAVField :=
  __init__ super
    (option_map SchemaPath (kw_schema kwargs))
    (option_map (map (fun kv => (fst kv, SchemaPath (snd kv))))
       (kw_schema_map kwargs))
    (kw_schema_key_field kwargs).

End EAVField.

(** A text without a dot. *)
Fixpoint no_dot (s : string) : bool :=
  match s with
  | EmptyString => true
  | String c rest => negb (Ascii.eqb c "."%char) && no_dot rest
  end.

(** The schema references of a field. *)
Definition field_refs (self : EAVField) : list schema_ref :=
  match schema self with Some r => [r] | None => [] end
  ++ match schema_map self with Some m => map snd m | None => [] end.

(** A class can be imported under its path: its module is importable and
    binds its qualified name, a name without a dot, to it. *)
Definition importable (import_module : importlib) (c : schema_class) : Prop :=
  no_dot (__qualname__ c) = true
  /\ exists module, import_module (__module__ c) = Ok module
                    /\ dict_get module (__qualname__ c) = Some c.

(** A module [app.schemas] with the class [Config] of [config_schema], and
    a field class whose inherited part accepts everything. *)
Definition config_class : schema_class :=
  {| __module__ := "app.schemas"; __qualname__ := "Config";
     schema_of := snd config_schema |}.

Definition app_modules : importlib :=
  fun module_path =>
    if String.eqb module_path "app.schemas"
    then Ok [("Config", config_class)]
    else Fails (ImportFailure module_path).

Definition plain_json_field : JSONField :=
  {| super_init := Ok tt; super_validate := fun _ _ => Ok tt |}.

(* ===================================================================== *)
(** ** Digit strings *)
(* ===================================================================== *)

Lemma chars_text (l : list ascii) : chars (text l) = l.
Proof. apply list_ascii_of_string_of_list_ascii. Qed.

Lemma text_chars (s : string) : text (chars s) = s.
Proof. apply string_of_list_ascii_of_string. Qed.

Lemma uint_chars_digits (u : Decimal.uint) :
  forallb is_digit (chars (DecimalString.NilEmpty.string_of_uint u)) = true.
Proof. induction u; simpl; auto. Qed.

Lemma to_uint_not_Nil (n : N) : N.to_uint n <> Decimal.Nil.
Proof.
  destruct n as [|p]; simpl; [discriminate|].
  apply DecimalPos.Unsigned.to_uint_nonnil.
Qed.

Lemma NilZero_NilEmpty (u : Decimal.uint) :
  u <> Decimal.Nil ->
  DecimalString.NilZero.string_of_uint u = DecimalString.NilEmpty.string_of_uint u.
Proof. destruct u; simpl; congruence. Qed.

Lemma chars_of_N_digits (n : N) : forallb is_digit (chars_of_N n) = true.
Proof.
  unfold chars_of_N. rewrite NilZero_NilEmpty by apply to_uint_not_Nil.
  apply uint_chars_digits.
Qed.

Lemma chars_of_N_not_nil (n : N) : chars_of_N n <> [].
Proof.
  unfold chars_of_N. rewrite NilZero_NilEmpty by apply to_uint_not_Nil.
  pose proof (to_uint_not_Nil n) as H.
  destruct (N.to_uint n); simpl; congruence.
Qed.

Lemma N_of_chars_of_N (n : N) : N_of_chars (chars_of_N n) = n.
Proof.
  unfold N_of_chars, chars_of_N. rewrite text_chars.
  rewrite NilZero_NilEmpty by apply to_uint_not_Nil.
  rewrite DecimalString.NilEmpty.usu.
  apply DecimalN.Unsigned.of_to.
Qed.

Lemma N_of_chars_zero (l : list ascii) : N_of_chars ("0"%char :: l) = N_of_chars l.
Proof.
  unfold N_of_chars. simpl.
  destruct (DecimalString.NilEmpty.uint_of_string (text l)); reflexivity.
Qed.

Lemma N_of_chars_zeros (k : nat) (l : list ascii) :
  N_of_chars (repeat "0"%char k ++ l) = N_of_chars l.
Proof. induction k; simpl; [reflexivity|]. now rewrite N_of_chars_zero. Qed.

Lemma span_digits_app (a b : list ascii) :
  forallb is_digit a = true -> no_digit_ahead b ->
  span is_digit (a ++ b) = (a, b).
Proof.
  intros Ha Hb. induction a as [|c a IH]; simpl in *.
  - destruct b as [|c b]; simpl in *; [reflexivity|]. now rewrite Hb.
  - apply andb_true_iff in Ha as [Hc Ha]. rewrite Hc, (IH Ha). reflexivity.
Qed.

Lemma span_digits_all (a : list ascii) :
  forallb is_digit a = true -> span is_digit a = (a, []).
Proof.
  intros Ha. rewrite <- (app_nil_r a) at 1. now apply span_digits_app.
Qed.

Lemma dropwhile_head (p : ascii -> bool) (c : ascii) (l : list ascii) :
  p c = false -> dropwhile p (c :: l) = c :: l.
Proof. intros H. simpl. now rewrite H. Qed.

Lemma strip_plain (l : list ascii) :
  forallb is_plain l = true -> strip l = l.
Proof.
  intros H. unfold strip.
  assert (Hd : forall m, forallb is_plain m = true -> dropwhile isspace m = m).
  { intros [|c m] Hm; simpl in *; [reflexivity|].
    apply andb_true_iff in Hm as [Hc _]. unfold is_plain in Hc.
    apply andb_true_iff in Hc as [Hc _]. apply negb_true_iff in Hc.
    now rewrite Hc. }
  rewrite (Hd l H), Hd, rev_involutive; [reflexivity|].
  rewrite forallb_forall in *. intros x Hx. apply H. now apply in_rev.
Qed.

Lemma drop_underscores_plain (l : list ascii) :
  forallb is_plain l = true -> drop_underscores l = l.
Proof.
  intros H. unfold drop_underscores. induction l as [|c l IH]; simpl in *.
  - reflexivity.
  - apply andb_true_iff in H as [Hc Hl]. unfold is_plain in Hc.
    apply andb_true_iff in Hc as [_ Hc]. rewrite Hc, (IH Hl). reflexivity.
Qed.

Lemma digit_is_plain (c : ascii) : is_digit c = true -> is_plain c = true.
Proof.
  destruct c as [[|] [|] [|] [|] [|] [|] [|] [|]]; intros H; try reflexivity;
    discriminate H.
Qed.

Lemma digits_plain (l : list ascii) :
  forallb is_digit l = true -> forallb is_plain l = true.
Proof.
  rewrite !forallb_forall. intros H x Hx. apply digit_is_plain. now apply H.
Qed.

(* ===================================================================== *)
(** ** Decimal: reading back what [str] wrote *)
(* ===================================================================== *)

Import PyDecimal.

Lemma parse_exponent_plus_d (z : Z) :
  parse_exponent ("E"%char :: chars_plus_d z) = Some z.
Proof.
  unfold parse_exponent, chars_plus_d.
  change (Ascii.eqb (lower "E") "e") with true. cbv iota.
  pose proof (chars_of_N_not_nil (Z.abs_N z)) as Hne.
  pose proof (chars_of_N_digits (Z.abs_N z)) as Hd.
  destruct (z <? 0) eqn:Hz.
  - destruct (chars_of_N (Z.abs_N z)) as [|c l] eqn:E; [congruence|].
    rewrite Hd, <- E, N_of_chars_of_N, N2Z.inj_abs_N.
    apply Z.ltb_lt in Hz. f_equal. lia.
  - destruct (chars_of_N (Z.abs_N z)) as [|c l] eqn:E; [congruence|].
    rewrite Hd, <- E, N_of_chars_of_N, N2Z.inj_abs_N.
    apply Z.ltb_ge in Hz. f_equal. lia.
Qed.

Lemma exponent_tail_parse (x : list ascii) (z : Z) :
  exponent_tail x z -> parse_exponent x = Some z.
Proof.
  intros [[-> ->] | ->]; [reflexivity | apply parse_exponent_plus_d].
Qed.

Lemma exponent_tail_no_digit (x : list ascii) (z : Z) :
  exponent_tail x z -> no_digit_ahead x.
Proof. intros [[-> _] | ->]; simpl; auto. Qed.

Lemma exponent_tail_no_point (x : list ascii) (z : Z) :
  exponent_tail x z ->
  match x with "."%char :: _ => False | _ => True end.
Proof. intros [[-> _] | ->]; simpl; auto. Qed.

Lemma parse_number_point (s : bool) (i f x : list ascii) (z : Z) :
  forallb is_digit i = true -> forallb is_digit f = true ->
  i ++ f <> [] -> exponent_tail x z ->
  parse_number s (i ++ "."%char :: f ++ x)
  = Some (Finite s (N_of_chars (i ++ f)) (z - Z.of_nat (List.length f))).
Proof.
  intros Hi Hf Hne Hx. unfold parse_number.
  rewrite (span_digits_app i ("."%char :: f ++ x) Hi) by reflexivity.
  rewrite (span_digits_app f x Hf (exponent_tail_no_digit _ _ Hx)).
  rewrite (exponent_tail_parse _ _ Hx).
  destruct (i ++ f) eqn:E; [congruence | reflexivity].
Qed.

Lemma parse_number_whole (s : bool) (i x : list ascii) (z : Z) :
  forallb is_digit i = true -> i <> [] -> exponent_tail x z ->
  parse_number s (i ++ x) = Some (Finite s (N_of_chars i) z).
Proof.
  intros Hi Hne Hx. unfold parse_number.
  rewrite (span_digits_app i x Hi (exponent_tail_no_digit _ _ Hx)).
  pose proof (exponent_tail_no_point _ _ Hx) as Hp.
  assert (E : (match x with
               | "."%char :: t => span is_digit t
               | _ => ([], x)
               end) = ([], x)).
  { destruct x as [|c t]; [reflexivity|].
    destruct (Ascii.eqb_spec c "."%char) as [->|Hc]; [contradiction|].
    destruct c as [[|] [|] [|] [|] [|] [|] [|] [|]]; try reflexivity;
      exfalso; apply Hc; reflexivity. }
  rewrite E, app_nil_r, (exponent_tail_parse _ _ Hx).
  destruct i; [congruence|]. simpl. now rewrite Z.sub_0_r.
Qed.

Lemma exponent_tail_plain (x : list ascii) (z : Z) :
  exponent_tail x z -> forallb is_plain x = true.
Proof.
  intros [[-> _] | ->]; [reflexivity|].
  unfold chars_plus_d. cbn [forallb].
  rewrite (digits_plain _ (chars_of_N_digits _)).
  now destruct (z <? 0).
Qed.

Lemma sign_chars_plain (s : bool) : forallb is_plain (sign_chars s) = true.
Proof. now destruct s. Qed.

(** A signed text that begins with a digit goes to [parse_number]. *)
Lemma of_chars_number (s : bool) (c : ascii) (rest : list ascii) :
  is_digit c = true -> forallb is_plain (c :: rest) = true ->
  of_chars (sign_chars s ++ c :: rest) = parse_number s (c :: rest).
Proof.
  intros Hc Hp. unfold of_chars.
  assert (Hall : forallb is_plain (sign_chars s ++ c :: rest) = true).
  { now rewrite forallb_app, sign_chars_plain, Hp. }
  rewrite (strip_plain _ Hall), (drop_underscores_plain _ Hall).
  destruct s; simpl sign_chars; cbn [app].
  - now rewrite Hc.
  - replace (match c :: rest with
             | "-"%char :: r => (true, r)
             | "+"%char :: r => (false, r)
             | _ => (false, c :: rest)
             end) with (false, c :: rest).
    + now rewrite Hc.
    + destruct c as [[|] [|] [|] [|] [|] [|] [|] [|]]; try reflexivity;
        discriminate Hc.
Qed.

Lemma digits_head (i rest : list ascii) :
  forallb is_digit i = true -> i <> [] ->
  exists c t, i ++ rest = c :: t /\ is_digit c = true.
Proof.
  intros Hi Hne. destruct i as [|c i]; [congruence|].
  simpl in Hi. apply andb_true_iff in Hi as [Hc _].
  exists c, (i ++ rest). split; [reflexivity | exact Hc].
Qed.

Lemma of_chars_point (s : bool) (i f x : list ascii) (z : Z) :
  forallb is_digit i = true -> forallb is_digit f = true ->
  i <> [] -> exponent_tail x z ->
  of_chars (sign_chars s ++ i ++ "."%char :: f ++ x)
  = Some (Finite s (N_of_chars (i ++ f)) (z - Z.of_nat (List.length f))).
Proof.
  intros Hi Hf Hne Hx.
  destruct (digits_head i ("."%char :: f ++ x) Hi Hne) as (c & t & E & Hc).
  rewrite E, of_chars_number, <- E.
  - apply parse_number_point; auto. destruct i; [congruence | discriminate].
  - exact Hc.
  - rewrite <- E, forallb_app. cbn [forallb]. rewrite forallb_app.
    rewrite (digits_plain _ Hi), (digits_plain _ Hf), (exponent_tail_plain _ _ Hx).
    reflexivity.
Qed.

Lemma of_chars_whole (s : bool) (i x : list ascii) (z : Z) :
  forallb is_digit i = true -> i <> [] -> exponent_tail x z ->
  of_chars (sign_chars s ++ i ++ x) = Some (Finite s (N_of_chars i) z).
Proof.
  intros Hi Hne Hx.
  destruct (digits_head i x Hi Hne) as (c & t & E & Hc).
  rewrite E, of_chars_number, <- E.
  - apply parse_number_whole; auto.
  - exact Hc.
  - rewrite <- E, forallb_app.
    now rewrite (digits_plain _ Hi), (exponent_tail_plain _ _ Hx).
Qed.

Lemma digits_firstn_skipn (k : nat) (l : list ascii) :
  forallb is_digit l = true ->
  forallb is_digit (firstn k l) = true /\ forallb is_digit (skipn k l) = true.
Proof.
  intros H. rewrite <- (firstn_skipn k l), forallb_app in H.
  now apply andb_true_iff in H.
Qed.

Lemma digits_repeat_zero (k : nat) : forallb is_digit (repeat "0"%char k) = true.
Proof. induction k; simpl; auto. Qed.

(** [Decimal(str(d))] is [d], for a finite [d]. *)
Lemma of_chars_str_finite (s : bool) (c : N) (e : Z) :
  of_chars (str_chars (Finite s c e)) = Some (Finite s c e).
Proof.
  unfold str_chars.
  pose proof (chars_of_N_digits c) as HD.
  pose proof (chars_of_N_not_nil c) as HN.
  pose proof (N_of_chars_of_N c) as HV.
  set (D := chars_of_N c) in *.
  assert (Hlen : (0 < List.length D)%nat) by (destruct D; [congruence | simpl; lia]).
  set (len := Z.of_nat (List.length D)).
  assert (Hlen' : 0 < len) by (subst len; lia).
  destruct ((e <=? 0) && (-6 <? e + len)) eqn:Hplain.
  - (* plain notation *)
    apply andb_true_iff in Hplain as [He _]. apply Z.leb_le in He.
    rewrite Z.eqb_refl.
    destruct (e + len <=? 0) eqn:H0.
    + apply Z.leb_le in H0.
      change (sign_chars s ++ ["0"%char]
                ++ ("."%char :: repeat "0"%char (Z.to_nat (- (e + len))) ++ D) ++ [])
        with (sign_chars s ++ ["0"%char]
                ++ "."%char :: (repeat "0"%char (Z.to_nat (- (e + len))) ++ D) ++ []).
      rewrite (of_chars_point s _ _ [] 0); try reflexivity.
      * cbn [app]. rewrite N_of_chars_zero, N_of_chars_zeros, HV.
        do 2 f_equal. rewrite length_app, repeat_length. subst len. lia.
      * now rewrite forallb_app, digits_repeat_zero, HD.
      * discriminate.
      * left; auto.
    + apply Z.leb_gt in H0.
      destruct (len <=? e + len) eqn:H1.
      * apply Z.leb_le in H1. assert (e = 0) by lia. subst e.
        replace (0 + len - len) with 0 by lia. cbn [Z.to_nat repeat].
        rewrite !app_nil_r.
        rewrite <- (app_nil_r D) at 1.
        rewrite (of_chars_whole s D [] 0); auto; [now rewrite HV | left; auto].
      * apply Z.leb_gt in H1.
        destruct (digits_firstn_skipn (Z.to_nat (e + len)) D HD) as [Hf Hs].
        change (sign_chars s ++ firstn (Z.to_nat (e + len)) D
                  ++ ("."%char :: skipn (Z.to_nat (e + len)) D) ++ [])
          with (sign_chars s ++ firstn (Z.to_nat (e + len)) D
                  ++ "."%char :: skipn (Z.to_nat (e + len)) D ++ []).
        rewrite (of_chars_point s _ _ [] 0); auto.
        -- rewrite firstn_skipn, HV. do 2 f_equal.
           rewrite length_skipn. subst len. lia.
        -- intros E. apply (f_equal (@List.length ascii)) in E.
           rewrite length_firstn in E. cbn [List.length] in E. subst len. lia.
        -- left; auto.
  - (* scientific notation *)
    assert (Hne : (e + len =? 1) = false).
    { apply Z.eqb_neq. intros E1.
      apply andb_false_iff in Hplain as [H | H];
        [apply Z.leb_gt in H | apply Z.ltb_ge in H]; lia. }
    rewrite Hne. change (1 <=? 0) with false. cbv iota.
    destruct (len <=? 1) eqn:H1.
    + apply Z.leb_le in H1. assert (Hl1 : len = 1) by lia.
      rewrite Hl1. cbn [Z.sub Z.to_nat repeat Z.add Z.opp Z.pos_sub].
      rewrite app_nil_r. cbn [app].
      rewrite (of_chars_whole s D _ (e + 1 - 1)); auto.
      * rewrite HV. do 2 f_equal. lia.
      * right. reflexivity.
    + apply Z.leb_gt in H1.
      destruct (digits_firstn_skipn (Z.to_nat 1) D HD) as [Hf Hs].
      change (sign_chars s ++ firstn (Z.to_nat 1) D
                ++ ("."%char :: skipn (Z.to_nat 1) D)
                ++ "E"%char :: chars_plus_d (e + len - 1))
        with (sign_chars s ++ firstn (Z.to_nat 1) D
                ++ "."%char :: skipn (Z.to_nat 1) D
                ++ "E"%char :: chars_plus_d (e + len - 1)).
      rewrite (of_chars_point s _ _ _ (e + len - 1)); auto.
      * rewrite firstn_skipn, HV. do 2 f_equal.
        rewrite length_skipn. subst len. lia.
      * intros E. apply (f_equal (@List.length ascii)) in E.
        rewrite length_firstn in E. change (Z.to_nat 1) with 1%nat in E.
        cbn [List.length] in E. subst len. lia.
      * right. reflexivity.
Qed.

Lemma of_chars_nan (s sig : bool) (ds : list ascii) :
  forallb is_digit ds = true ->
  of_chars (sign_chars s ++ chars (if sig then "sNaN" else "NaN") ++ ds)
  = Some (NaN s sig (N_of_chars ds)).
Proof.
  intros Hd. unfold of_chars.
  assert (Hall : forallb is_plain
            (sign_chars s ++ chars (if sig then "sNaN" else "NaN") ++ ds) = true).
  { rewrite !forallb_app, sign_chars_plain, (digits_plain _ Hd).
    now destruct sig. }
  rewrite (strip_plain _ Hall), (drop_underscores_plain _ Hall).
  destruct s, sig; cbn;
    change (is_digit "s"%char) with false; change (is_digit "N"%char) with false;
    cbn; unfold parse_special, eq_nocase; cbn;
    change (lower "s"%char) with "s"%char; change (lower "N"%char) with "n"%char;
    change (lower "a"%char) with "a"%char; cbn; rewrite Hd; reflexivity.
Qed.

Lemma of_chars_str_special_payload (p : N) :
  N_of_chars (if (p =? 0)%N then [] else chars_of_N p) = p
  /\ forallb is_digit (if (p =? 0)%N then [] else chars_of_N p) = true.
Proof.
  destruct (N.eqb_spec p 0) as [->|Hp].
  - split; reflexivity.
  - split; [apply N_of_chars_of_N | apply chars_of_N_digits].
Qed.

(** [Decimal(str(d))] is [d], for every Decimal. *)
Lemma PyDecimal_of_string_str (d : Decimal) : of_string (str d) = Some d.
Proof.
  unfold of_string, str. rewrite chars_text.
  destruct d as [s c e | s | s sig p].
  - apply of_chars_str_finite.
  - destruct s; reflexivity.
  - destruct (of_chars_str_special_payload p) as [Hv Hd].
    unfold str_chars. rewrite (of_chars_nan s sig _ Hd), Hv. reflexivity.
Qed.

(** A Decimal that is not a NaN is [==] to itself. *)
Lemma PyDecimal_eq_refl (d : Decimal) :
  is_nan d = false -> PyDecimal.eq d d = Return true.
Proof.
  destruct d as [s c e | s | s sig p]; intros H; try discriminate H.
  - unfold PyDecimal.eq, cmp. cbn [is_snan is_nan orb].
    now rewrite Z.compare_refl.
  - now destruct s.
Qed.

(* ===================================================================== *)
(** ** Descriptors *)
(* ===================================================================== *)

Section Descriptors.


Local Abbreviation validate := (EAVAttribute.validate).
Local Abbreviation to_json := (EAVAttribute.to_json).
Local Abbreviation from_json := (EAVAttribute.from_json).
Local Abbreviation _coerce := (EAVAttribute._coerce).

Lemma coerce_canonical (self : EAVAttribute) (raw v : pyval) :
  _coerce self raw = Return v -> canonical self v.
Proof.
  unfold EAVAttribute._coerce, canonical.
  destruct (kind self); destruct raw; simpl; intros H;
    try discriminate H; try (injection H as <-; exact I).
  - unfold bind in H. destruct (float_of_int z); try discriminate H.
    injection H as <-. exact I.
  - destruct (PyDecimal.of_string _); [injection H as <-; exact I | discriminate H].
  - destruct (PyDecimal.of_string _); [injection H as <-; exact I | discriminate H].
  - destruct (PyDecimal.of_string _); [injection H as <-; exact I | discriminate H].
Qed.

(** Coercing a value of the canonical type returns it. *)
Lemma coerce_of_canonical (self : EAVAttribute) (v : pyval) :
  canonical self v -> _coerce self v = Return v.
Proof.
  unfold EAVAttribute._coerce, canonical.
  destruct (kind self); destruct v; simpl; intros H; try contradiction; reflexivity.
Qed.

(** On a present value, [validate] returns what [_coerce] returned. *)
Lemma validate_present (self : EAVAttribute) (raw v : pyval) :
  raw <> VNone -> validate self raw = Return v -> _coerce self raw = Return v.
Proof.
  intros Hraw H. unfold EAVAttribute.validate in H.
  destruct raw; try congruence;
    (destruct (_coerce self _) as [w | |]; simpl in H; try discriminate H;
     destruct (EAVAttribute._check_constraints self w) as [[] | |];
       simpl in H; try discriminate H;
     destruct (EAVAttribute.choices_reprs self);
       [destruct (EAVAttribute.in_choices self w) as [[] | |]; simpl in H;
          try discriminate H; exact H
       | exact H]).
Qed.

Lemma canonical_not_None (self : EAVAttribute) (v : pyval) :
  canonical self v -> v <> VNone.
Proof. unfold canonical. destruct (kind self); intros H ->; exact H. Qed.

(** [from_json] after [to_json] on a value of the canonical type. *)
Lemma from_json_to_json_canonical (self : EAVAttribute) (v : pyval) :
  canonical self v -> from_json self (to_json self v) = Return v.
Proof.
  intros Hc. pose proof (coerce_of_canonical self v Hc) as Hco.
  unfold EAVAttribute.from_json, EAVAttribute.to_json.
  unfold canonical in Hc. unfold EAVAttribute._coerce in Hco.
  destruct (kind self) eqn:K; destruct v; try contradiction;
    try (unfold EAVAttribute._coerce; rewrite K; exact Hco).
  simpl. now rewrite PyDecimal_of_string_str.
Qed.


Lemma float_eq_refl (f : spec_float) :
  float_eq f f = negb (is_nan_value (VFloat f)).
Proof.
  unfold float_eq, SFeqb, SFcompare. destruct f as [s | s | | s m e]; cbn.
  - reflexivity.
  - now destruct s.
  - reflexivity.
  - destruct s; rewrite Z.compare_refl, ?Pos.compare_cont_refl;
      try rewrite Pos.compare_refl; reflexivity.
Qed.

(** A value that is not a NaN is [==] to itself. *)
Lemma same_type_eq_refl (self : EAVAttribute) (v : pyval) :
  canonical self v -> is_nan_value v = false ->
  same_type_eq v v = Some (Return true).
Proof.
  unfold canonical. intros Hc Hn.
  destruct (kind self); destruct v; try contradiction; cbn [same_type_eq].
  - now rewrite String.eqb_refl.
  - now rewrite Bool.eqb_reflx.
  - now rewrite Z.eqb_refl.
  - rewrite float_eq_refl, Hn. reflexivity.
  - cbn [is_nan_value] in Hn. now rewrite (PyDecimal_eq_refl d Hn).
Qed.

(** C2, amended.  Round trip: a value returned by [validate] for a
    present input, and more generally every value of the descriptor's
    type, is returned by [from_json] after [to_json] as the same value: the
    same type and, for a Decimal, the same sign, digits and exponent.  That
    value is [==] to the original unless it is a NaN: a float nan and a
    Decimal NaN are accepted and are [==] to nothing, themselves included
    (comparing a signaling NaN raises).  For a Decimal descriptor [to_json]
    is the exact text of the decimal, trailing zeros and scale included, and
    [from_json] reads that text back as the same decimal; for the other
    descriptors both are the identity. *)
Theorem C2_json_round_trip :
  (forall (self : EAVAttribute) (raw v : pyval),
      raw <> VNone -> validate self raw = Return v ->
      from_json self (to_json self v) = Return v
      /\ (is_nan_value v = false -> same_type_eq v v = Some (Return true))
      /\ (is_nan_value v = true ->
          same_type_eq v v = Some (Return false)
          \/ same_type_eq v v = Some (Raise InvalidOperation)))
  /\ (forall (self : EAVAttribute) (v : pyval),
      canonical self v -> from_json self (to_json self v) = Return v)
  /\ (forall (self : EAVAttribute) (raw : pyval) (d : PyDecimal.Decimal),
      raw <> VNone -> validate self raw = Return (VDecimal d) ->
      to_json self (VDecimal d) = VStr (PyDecimal.str d)
      /\ from_json self (VStr (PyDecimal.str d)) = Return (VDecimal d))
  /\ (forall (self : EAVAttribute) (raw v : pyval),
      raw <> VNone -> validate self raw = Return v ->
      (forall d, v <> VDecimal d) ->
      to_json self v = v /\ from_json self v = Return v)
  /\ (forall d : PyDecimal.Decimal,
      PyDecimal.of_string (PyDecimal.str d) = Some d)
  /\ (forall d : PyDecimal.Decimal,
      PyDecimal.is_nan d = false -> PyDecimal.eq d d = Return true)
  /\ PyDecimal.of_string "0.06500" = Some (PyDecimal.Finite false 6500 (-5))
  /\ PyDecimal.str (PyDecimal.Finite false 6500 (-5)) = "0.06500".
Proof.
  split; [| split; [| split; [| split; [| split; [| split; [| split]]]]]].
  - intros self raw v Hraw Hv.
    pose proof (coerce_canonical self raw _ (validate_present _ _ _ Hraw Hv)) as Hc.
    split; [now apply from_json_to_json_canonical|].
    split; [now apply (same_type_eq_refl self)|].
    intros Hn. unfold canonical in Hc.
    destruct (kind self); destruct v; try contradiction; try discriminate Hn.
    + left. cbn [same_type_eq]. rewrite float_eq_refl, Hn. reflexivity.
    + cbn [is_nan_value] in Hn. destruct d as [? ? ? | ? | s sig p];
        try discriminate Hn.
      destruct sig; [right | left]; reflexivity.
  - exact from_json_to_json_canonical.
  - intros self raw d Hraw Hv.
    pose proof (coerce_canonical self raw _ (validate_present _ _ _ Hraw Hv)) as Hc.
    unfold canonical in Hc.
    unfold EAVAttribute.to_json, EAVAttribute.from_json.
    destruct (kind self); try contradiction. simpl.
    now rewrite PyDecimal_of_string_str.
  - intros self raw v Hraw Hv Hnd.
    pose proof (coerce_canonical self raw _ (validate_present _ _ _ Hraw Hv)) as Hc.
    pose proof (from_json_to_json_canonical self v Hc) as Hrt.
    assert (Hto : to_json self v = v).
    { unfold EAVAttribute.to_json. unfold canonical in Hc.
      destruct (kind self); try reflexivity.
      destruct v; try contradiction. now elim (Hnd d). }
    rewrite Hto in Hrt. now split.
  - exact PyDecimal_of_string_str.
  - exact PyDecimal_eq_refl.
  - reflexivity.
  - reflexivity.
Qed.

(** C2, as stated, fails at a NaN: the text "NaN" is accepted by a Decimal
    descriptor and the float nan by a Float descriptor; each comes back
    from [from_json] after [to_json], and is not [==] to the original. *)
Lemma C2_counterexample :
  validate rate_plain (VStr "NaN") = Return (VDecimal (PyDecimal.NaN false false 0))
  /\ from_json rate_plain
       (to_json rate_plain (VDecimal (PyDecimal.NaN false false 0)))
     = Return (VDecimal (PyDecimal.NaN false false 0))
  /\ same_type_eq (VDecimal (PyDecimal.NaN false false 0))
       (VDecimal (PyDecimal.NaN false false 0))
     = Some (Return false)
  /\ validate ratio_plain (VFloat S754_nan) = Return (VFloat S754_nan)
  /\ from_json ratio_plain (to_json ratio_plain (VFloat S754_nan))
     = Return (VFloat S754_nan)
  /\ same_type_eq (VFloat S754_nan) (VFloat S754_nan) = Some (Return false)
  /\ ~ (forall (self : EAVAttribute) (raw v w : pyval),
          raw <> VNone -> validate self raw = Return v ->
          from_json self (to_json self v) = Return w ->
          same_type_eq w v = Some (Return true)).
Proof.
  repeat (split; [reflexivity|]).
  intros H.
  specialize (H ratio_plain (VFloat S754_nan) (VFloat S754_nan) (VFloat S754_nan)).
  assert (E : same_type_eq (VFloat S754_nan) (VFloat S754_nan) = Some (Return true)).
  { apply H; [discriminate | reflexivity | reflexivity]. }
  discriminate E.
Qed.

(** C7.  An Integer descriptor rejects every boolean and a Boolean
    descriptor rejects every integer, each with its type-mismatch
    message. *)
Theorem C7_boolean_integer_disambiguation :
  forall (n : string) (req : bool) (dflt : pyval) (help : string),
    (forall (mn mx : option Z) (ch : option (list Z)) (b : bool),
        validate {| name := n; required := req; default := dflt;
                    help_text := help; kind := EAVInteger mn mx ch |} (VBool b)
        = RaiseValidationError (ErrorList [(n ++ " must be an integer.")%string]))
    /\ (forall (ch : option (list bool)) (i : Z),
        validate {| name := n; required := req; default := dflt;
                    help_text := help; kind := EAVBoolean ch |} (VInt i)
        = RaiseValidationError (ErrorList [(n ++ " must be a boolean.")%string])).
Proof.
  intros n req dflt help. split; intros; reflexivity.
Qed.

End Descriptors.

(* ===================================================================== *)
(** ** Decimal digit counts *)
(* ===================================================================== *)






Section DecimalConstraints.


Local Abbreviation validate := (EAVAttribute.validate).


End DecimalConstraints.



(* ===================================================================== *)
(** ** dict *)
(* ===================================================================== *)

Section Dict.

Context {V : Type}.
Implicit Types (d : pydict V) (k : string) (v : V).

Lemma existsb_eqb_In (k : string) (l : list string) :
  existsb (String.eqb k) l = true <-> In k l.
Proof.
  rewrite existsb_exists. split.
  - intros (x & Hx & E). apply String.eqb_eq in E. now subst.
  - intros H. exists k. split; [exact H | apply String.eqb_refl].
Qed.

Lemma existsb_eqb_not_In (k : string) (l : list string) :
  existsb (String.eqb k) l = false <-> ~ In k l.
Proof.
  rewrite <- existsb_eqb_In. destruct (existsb _ l); split; congruence.
Qed.

Lemma dict_get_None d k : dict_get d k = None <-> ~ In k (keys d).
Proof.
  induction d as [|[k' v'] d IH]; simpl.
  - tauto.
  - destruct (String.eqb_spec k' k) as [->|Hne].
    + split; [discriminate | intros H; elim H; now left].
    + rewrite IH. split; [intros H [E | HI]; [congruence | tauto] | tauto].
Qed.

Lemma dict_get_Some_In d k v : dict_get d k = Some v -> In (k, v) d.
Proof.
  induction d as [|[k' v'] d IH]; simpl; [discriminate|].
  destruct (String.eqb_spec k' k) as [->|Hne].
  - intros [= ->]. now left.
  - intros H. right. now apply IH.
Qed.

Lemma dict_get_In d k : In k (keys d) -> exists v, dict_get d k = Some v.
Proof.
  intros H. destruct (dict_get d k) as [v|] eqn:E; [now exists v|].
  apply dict_get_None in E. contradiction.
Qed.

Lemma In_dict_get d k v :
  NoDup (keys d) -> In (k, v) d -> dict_get d k = Some v.
Proof.
  induction d as [|[k' v'] d IH]; simpl; [tauto|].
  intros Hn [E | HI].
  - injection E as -> ->. now rewrite String.eqb_refl.
  - inversion Hn as [|? ? Hk Hd]; subst.
    destruct (String.eqb_spec k' k) as [->|Hne].
    + elim Hk. unfold keys. change k with (fst (k, v)). now apply in_map.
    + now apply IH.
Qed.

(** Setting a key that is not there appends it. *)
Lemma dict_set_fresh d k v : ~ In k (keys d) -> dict_set d k v = d ++ [(k, v)].
Proof.
  induction d as [|[k' v'] d IH]; simpl; [reflexivity|].
  intros H. destruct (String.eqb_spec k' k) as [->|Hne]; [tauto|].
  rewrite IH; tauto.
Qed.

Lemma dict_set_not_nil d k v : dict_set d k v <> [].
Proof. destruct d as [|[k' v'] d]; simpl; [|destruct (String.eqb k' k)]; discriminate. Qed.

Lemma keys_dict_set d k v k' :
  In k' (keys (dict_set d k v)) <-> k' = k \/ In k' (keys d).
Proof.
  induction d as [|[k0 v0] d IH]; simpl.
  - intuition.
  - destruct (String.eqb_spec k0 k) as [->|Hne]; simpl.
    + intuition.
    + rewrite IH. intuition.
Qed.

Lemma dict_get_set_eq d k v : dict_get (dict_set d k v) k = Some v.
Proof.
  induction d as [|[k0 v0] d IH]; simpl.
  - now rewrite String.eqb_refl.
  - destruct (String.eqb_spec k0 k) as [->|Hne]; simpl.
    + now rewrite String.eqb_refl.
    + destruct (String.eqb_spec k0 k); [congruence | exact IH].
Qed.

Lemma dict_get_set_ne d k v k' :
  k' <> k -> dict_get (dict_set d k v) k' = dict_get d k'.
Proof.
  intros Hne. induction d as [|[k0 v0] d IH]; simpl.
  - destruct (String.eqb_spec k k'); [congruence | reflexivity].
  - destruct (String.eqb_spec k0 k) as [->|Hne0]; simpl.
    + destruct (String.eqb_spec k k'); [congruence | reflexivity].
    + destruct (String.eqb_spec k0 k'); [reflexivity | exact IH].
Qed.

Lemma keys_dict_set_same d k v :
  In k (keys d) -> keys (dict_set d k v) = keys d.
Proof.
  induction d as [|[k0 v0] d IH]; simpl; [tauto|].
  intros H. destruct (String.eqb_spec k0 k) as [->|Hne]; simpl; [reflexivity|].
  f_equal. apply IH. destruct H; [congruence | assumption].
Qed.

Lemma NoDup_keys_dict_set d k v :
  NoDup (keys d) -> NoDup (keys (dict_set d k v)).
Proof.
  intros Hn. destruct (in_dec string_dec k (keys d)) as [Hin | Hnin].
  - now rewrite keys_dict_set_same.
  - rewrite dict_set_fresh by assumption. unfold keys. rewrite map_app. simpl.
    apply NoDup_app; [exact Hn | repeat constructor; simpl; tauto |].
    intros x Hx [<- | []]. exact (Hnin Hx).
Qed.

Lemma unique_NoDup (l : list string) : unique l = true <-> NoDup l.
Proof.
  induction l as [|k l IH]; simpl.
  - split; [constructor | reflexivity].
  - rewrite andb_true_iff, negb_true_iff, existsb_eqb_not_In, IH.
    split; [intros [H1 H2]; now constructor | intros H; now inversion H].
Qed.

End Dict.

Lemma dget_missing (d : pydict pyval) (k : string) :
  ~ In k (keys d) -> dget d k = VNone.
Proof. intros H. unfold dget. apply dict_get_None in H. now rewrite H. Qed.

(** ** sorted *)

Lemma sorted_In (l : list string) (k : string) : In k (sorted l) <-> In k l.
Proof.
  unfold sorted. split; intros H.
  - eapply Permutation_in; [symmetry; apply StringSort.Permuted_sort | exact H].
  - eapply Permutation_in; [apply StringSort.Permuted_sort | exact H].
Qed.

Lemma sorted_NoDup (l : list string) : NoDup l -> NoDup (sorted l).
Proof.
  intros H. eapply Permutation_NoDup; [apply StringSort.Permuted_sort | exact H].
Qed.

Lemma sorted_Sorted (l : list string) :
  Sorted (fun a b => String.leb a b = true) (sorted l).
Proof.
  exact (StringSort.Sorted_sort l).
Qed.

Lemma sorted_nil_iff (l : list string) : sorted l = [] <-> l = [].
Proof.
  split; intros H.
  - destruct l as [|k l]; [reflexivity|].
    assert (Hin : In k (sorted (k :: l))) by (apply sorted_In; now left).
    rewrite H in Hin. contradiction.
  - subst. reflexivity.
Qed.

Lemma flat_map_constant_nil {A B : Type} (l : list A) :
  flat_map (fun _ : A => @nil B) l = [].
Proof. induction l; simpl; auto. Qed.

(* ===================================================================== *)
(** ** The errors a descriptor raises *)
(* ===================================================================== *)

Lemma bind_list_error {A B : Type} (m : result A) (k : A -> result B) :
  list_error m -> (forall a, list_error (k a)) -> list_error (bind m k).
Proof. destruct m as [a | [msgs | md] | x]; simpl; auto. Qed.

Lemma raise_message_list_error {A : Type} (message : string) :
  list_error (@raise_message A message).
Proof. exact I. Qed.

Ltac list_error_step :=
  match goal with
  | |- list_error (bind _ _) => apply bind_list_error; [| intros ?]
  | |- list_error (raise_message _) => exact I
  | |- list_error (Return _) => exact I
  | |- list_error (Raise _) => exact I
  | |- list_error (match ?x with _ => _ end) => destruct x
  | |- list_error (if ?x then _ else _) => destruct x
  end.

Lemma decimal_lt_list_error (a b : PyDecimal.Decimal) : list_error (PyDecimal.lt a b).
Proof. unfold PyDecimal.lt. repeat list_error_step. Qed.

Lemma decimal_eq_list_error (a b : PyDecimal.Decimal) : list_error (PyDecimal.eq a b).
Proof. unfold PyDecimal.eq. repeat list_error_step. Qed.

Lemma contains_list_error (l : list PyDecimal.Decimal) (d : PyDecimal.Decimal) :
  list_error (EAVDecimal.contains l d).
Proof.
  induction l as [|c l IH]; simpl; [exact I|].
  apply bind_list_error; [apply decimal_eq_list_error|].
  intros []; [exact I | exact IH].
Qed.

Section Errors.


Lemma coerce_list_error (self : EAVAttribute) (v : pyval) :
  list_error (EAVAttribute._coerce self v).
Proof.
  unfold EAVAttribute._coerce, EAVString._coerce, EAVBoolean._coerce,
    EAVInteger._coerce, EAVFloat._coerce, EAVDecimal._coerce, float_of_int.
  destruct (kind self); destruct v; repeat list_error_step.
Qed.

Lemma check_constraints_list_error (self : EAVAttribute) (v : pyval) :
  list_error (EAVAttribute._check_constraints self v).
Proof.
  unfold EAVAttribute._check_constraints, EAVString._check_constraints,
    EAVInteger._check_constraints, EAVFloat._check_constraints,
    EAVDecimal._check_constraints, EAVDecimal.digit_counts, PyDecimal.gt.
  destruct (kind self); destruct v;
    repeat (list_error_step || apply decimal_lt_list_error).
Qed.

Lemma in_choices_list_error (self : EAVAttribute) (v : pyval) :
  list_error (EAVAttribute.in_choices self v).
Proof.
  unfold EAVAttribute.in_choices.
  destruct (kind self) as [? [?|] | [?|] | ? ? [?|] | ? ? [?|] | ? ? ? ? [?|]];
    destruct v; try exact I.
  apply contains_list_error.
Qed.

(** A descriptor raises [ValidationError] with a list of messages. *)
Lemma validate_list_error (self : EAVAttribute) (v : pyval) :
  list_error (EAVAttribute.validate self v).
Proof.
  unfold EAVAttribute.validate.
  destruct v;
    try (apply bind_list_error; [apply coerce_list_error | intros w];
         apply bind_list_error; [apply check_constraints_list_error | intros _];
         destruct (EAVAttribute.choices_reprs self);
           [apply bind_list_error; [apply in_choices_list_error | intros []];
            exact I
           | exact I]).
  destruct (required self && is_None (default self)); exact I.
Qed.

End Errors.

(* ===================================================================== *)
(** ** The loop of [EAVSchema.validate] *)
(* ===================================================================== *)

(** Setting fresh keys one after the other appends them in order. *)
Lemma fold_dict_set_fresh {V : Type} (f : string -> V) (l : list string)
    (acc : pydict V) :
  NoDup l -> (forall k, In k l -> ~ In k (keys acc)) ->
  fold_left (fun d k => dict_set d k (f k)) l acc
  = acc ++ map (fun k => (k, f k)) l.
Proof.
  revert acc. induction l as [|k l IH]; intros acc Hn Hd; simpl.
  - now rewrite app_nil_r.
  - inversion Hn as [|? ? Hk Hl]; subst.
    rewrite dict_set_fresh by (apply Hd; now left).
    rewrite IH; [now rewrite <- app_assoc | exact Hl |].
    intros k' Hk' Hin. unfold keys in Hin. rewrite map_app in Hin.
    apply in_app_or in Hin as [Hin | [<- | []]].
    + apply (Hd k'); [now right | exact Hin].
    + contradiction.
Qed.

Section Loop.


Local Abbreviation attr_validate := (EAVAttribute.validate).
Local Abbreviation validate_attributes := (EAVSchema.validate_attributes).
Local Abbreviation field_errors := (EAVSchema.field_errors).
Local Abbreviation field_values := (EAVSchema.field_values).
Local Abbreviation no_exception := (EAVSchema.no_exception).

Lemma unknown_errors_map (unknown : list string) :
  NoDup unknown ->
  EAVSchema.unknown_errors unknown
  = map (fun key => (key, [fmt ["Unknown config key: "; key; "."]])) (sorted unknown).
Proof.
  intros Hn. unfold EAVSchema.unknown_errors.
  rewrite (fold_dict_set_fresh
             (fun key => [fmt ["Unknown config key: "; key; "."]]));
    [reflexivity | now apply sorted_NoDup | intros k _ []].
Qed.

Lemma unknown_keys_NoDup (known : list string) (data : pydict pyval) :
  NoDup (keys data) -> NoDup (EAVSchema.unknown_keys known data).
Proof. intros H. unfold EAVSchema.unknown_keys. now apply NoDup_filter. Qed.

Lemma unknown_keys_In (known : list string) (data : pydict pyval) (k : string) :
  In k (EAVSchema.unknown_keys known data) <-> In k (keys data) /\ ~ In k known.
Proof.
  unfold EAVSchema.unknown_keys. rewrite filter_In, negb_true_iff.
  now rewrite existsb_eqb_not_In.
Qed.

Lemma keys_field_errors (attributes : list (string * EAVAttribute))
    (data : pydict pyval) (k : string) :
  In k (keys (field_errors attributes data)) -> In k (keys attributes).
Proof.
  induction attributes as [|[n a] l IH]; simpl; [tauto|].
  unfold keys in *. rewrite map_app. intros H.
  apply in_app_or in H as [H | H]; [| right; now apply IH].
  destruct (attr_validate a (dget data n)) as [v | [msgs | md] | x]; simpl in H;
    try contradiction.
  destruct H as [<- | []]. now left.
Qed.

Lemma keys_field_values (attributes : list (string * EAVAttribute))
    (data : pydict pyval) (k : string) :
  In k (keys (field_values attributes data)) -> In k (keys attributes).
Proof.
  induction attributes as [|[n a] l IH]; simpl; [tauto|].
  unfold keys in *. rewrite map_app. intros H.
  apply in_app_or in H as [H | H]; [| right; now apply IH].
  destruct (attr_validate a (dget data n)) as [v | e | x]; simpl in H;
    try contradiction.
  destruct (is_None v); simpl in H; [contradiction|].
  destruct H as [<- | []]. now left.
Qed.

(** The loop, when no descriptor raises another exception: the failing
    attributes are appended to [errors], the values to [cleaned], in the
    order of the attributes. *)
Lemma validate_attributes_spec (attributes : list (string * EAVAttribute))
    (data : pydict pyval) (errors : pydict (list string)) (cleaned : pydict pyval) :
  NoDup (keys attributes) ->
  (forall n, In n (keys attributes) -> ~ In n (keys errors)) ->
  (forall n, In n (keys attributes) -> ~ In n (keys cleaned)) ->
  no_exception attributes data = true ->
  validate_attributes attributes data errors cleaned
  = Return (errors ++ field_errors attributes data,
            cleaned ++ field_values attributes data).
Proof.
  revert errors cleaned.
  induction attributes as [|[n a] l IH]; intros errors cleaned Hn He Hc Hx.
  - simpl. now rewrite !app_nil_r.
  - inversion Hn as [|? ? Hk Hl]; subst.
    simpl in Hx. apply andb_true_iff in Hx as [Hx1 Hx].
    cbn [EAVSchema.validate_attributes EAVSchema.field_errors
           EAVSchema.field_values flat_map fst snd] in *.
    pose proof (validate_list_error a (dget data n)) as Hle.
    assert (Hfresh : forall (V : Type) (d : pydict V) (v : V),
               (forall m, In m (keys ((n, a) :: l)) -> ~ In m (keys d)) ->
               forall m, In m (keys l) -> ~ In m (keys (d ++ [(n, v)]))).
    { intros V d v Hd m Hm Hin. unfold keys in Hin. rewrite map_app in Hin.
      apply in_app_or in Hin as [Hin | [<- | []]].
      - apply (Hd m); [now right | exact Hin].
      - contradiction. }
    destruct (attr_validate a (dget data n)) as [v | [msgs | md] | x];
      try contradiction; try discriminate.
    + destruct (is_None v).
      * rewrite IH;
          [reflexivity | exact Hl | intros m Hm; apply He; now right
          | intros m Hm; apply Hc; now right | exact Hx].
      * rewrite dict_set_fresh by (apply Hc; now left).
        rewrite IH;
          [now rewrite <- !app_assoc | exact Hl
          | intros m Hm; apply He; now right | now apply Hfresh | exact Hx].
    + unfold EAVSchema.record_error, setdefault_extend.
      assert (Hg : dict_get errors n = None)
        by (apply dict_get_None, He; now left).
      rewrite Hg, dict_set_fresh by (apply He; now left).
      rewrite IH;
        [now rewrite <- !app_assoc | exact Hl | now apply Hfresh
        | intros m Hm; apply Hc; now right | exact Hx].
Qed.

(** The loop returns or leaves with another exception. *)
Lemma validate_attributes_cases (attributes : list (string * EAVAttribute))
    (data : pydict pyval) (errors : pydict (list string)) (cleaned : pydict pyval) :
  (exists r, validate_attributes attributes data errors cleaned = Return r
             /\ no_exception attributes data = true)
  \/ (exists x, validate_attributes attributes data errors cleaned = Raise x
                /\ no_exception attributes data = false).
Proof.
  revert errors cleaned.
  induction attributes as [|[n a] l IH]; intros errors cleaned.
  - left. eexists. split; reflexivity.
  - cbn [EAVSchema.validate_attributes EAVSchema.no_exception forallb fst snd].
    destruct (attr_validate a (dget data n)) as [v | e | x].
    + apply IH.
    + apply IH.
    + right. exists x. split; reflexivity.
Qed.

(** The loop reads [data] only at the declared names. *)
Lemma validate_attributes_ext (attributes : list (string * EAVAttribute))
    (data data' : pydict pyval) (errors : pydict (list string))
    (cleaned : pydict pyval) :
  (forall n, In n (keys attributes) -> dget data' n = dget data n) ->
  validate_attributes attributes data' errors cleaned
  = validate_attributes attributes data errors cleaned.
Proof.
  revert errors cleaned.
  induction attributes as [|[n a] l IH]; intros errors cleaned H; [reflexivity|].
  cbn [EAVSchema.validate_attributes].
  rewrite (H n) by now left.
  destruct (attr_validate a (dget data n)); try reflexivity;
    apply IH; intros m Hm; apply H; now right.
Qed.

(** Errors, once collected, stay; a failing attribute adds one. *)
Lemma validate_attributes_errors (attributes : list (string * EAVAttribute))
    (data : pydict pyval) (errors errors' : pydict (list string))
    (cleaned cleaned' : pydict pyval) :
  validate_attributes attributes data errors cleaned = Return (errors', cleaned') ->
  (errors <> [] -> errors' <> [])
  /\ ((exists n a e, In (n, a) attributes
                     /\ attr_validate a (dget data n) = RaiseValidationError e) ->
      errors' <> []).
Proof.
  revert errors cleaned.
  induction attributes as [|[n a] l IH]; intros errors cleaned H.
  - simpl in H. injection H as <- <-. split; [auto|].
    intros (n & a & e & [] & _).
  - cbn [EAVSchema.validate_attributes] in H.
    pose proof (validate_list_error a (dget data n)) as Hle.
    destruct (attr_validate a (dget data n)) as [v | [msgs | md] | x] eqn:E;
      try contradiction; try discriminate.
    + destruct (IH _ _ H) as [H1 H2]. split; [exact H1|].
      intros (n' & a' & e & [Heq | Hin] & Hv).
      * injection Heq as <- <-. congruence.
      * apply H2. now exists n', a', e.
    + destruct (IH _ _ H) as [H1 H2].
      assert (Hne : EAVSchema.record_error errors n (ErrorList msgs) <> []).
      { unfold EAVSchema.record_error, setdefault_extend.
        destruct (dict_get errors n); apply dict_set_not_nil. }
      split; intros _; apply H1, Hne.
Qed.

End Loop.

(* ===================================================================== *)
(** ** [EAVSchema.validate] *)
(* ===================================================================== *)

Lemma keys_fold_dict_set {V : Type} (f : string -> V) (l : list string)
    (acc : pydict V) (k : string) :
  In k (keys (fold_left (fun d k => dict_set d k (f k)) l acc)) <->
  In k l \/ In k (keys acc).
Proof.
  revert acc. induction l as [|x l IH]; intros acc; simpl; [tauto|].
  rewrite IH, keys_dict_set. intuition.
Qed.

Lemma keys_unknown_errors (unknown : list string) (k : string) :
  In k (keys (EAVSchema.unknown_errors unknown)) <-> In k unknown.
Proof.
  unfold EAVSchema.unknown_errors. rewrite keys_fold_dict_set, sorted_In.
  simpl. tauto.
Qed.

Lemma unknown_errors_nil (unknown : list string) :
  EAVSchema.unknown_errors unknown = [] <-> unknown = [].
Proof.
  split; intros H.
  - destruct unknown as [|k l]; [reflexivity|].
    assert (Hin : In k (keys (EAVSchema.unknown_errors (k :: l))))
      by (apply keys_unknown_errors; now left).
    rewrite H in Hin. contradiction.
  - subst. reflexivity.
Qed.

Lemma keys_items (st : store) (cls : EAVSchema) :
  keys (EAVSchema.items st cls) = keys (dicts st (_eav_attributes cls)).
Proof.
  unfold EAVSchema.items, keys. rewrite map_map. reflexivity.
Qed.

Lemma dict_get_app {V : Type} (d d' : pydict V) (k : string) :
  dict_get (d ++ d') k
  = match dict_get d k with Some v => Some v | None => dict_get d' k end.
Proof.
  induction d as [|[k0 v0] d IH]; simpl; [reflexivity|].
  destruct (String.eqb k0 k); [reflexivity | exact IH].
Qed.

Section Validate.


Local Abbreviation attr_validate := (EAVAttribute.validate).
Local Abbreviation to_json := (EAVAttribute.to_json).
Local Abbreviation validate_attributes := (EAVSchema.validate_attributes).
Local Abbreviation field_errors := (EAVSchema.field_errors).
Local Abbreviation field_values := (EAVSchema.field_values).
Local Abbreviation no_exception := (EAVSchema.no_exception).
Local Abbreviation validate_traced := (EAVSchema.validate_traced).
Local Abbreviation validate := (EAVSchema.validate).
Local Abbreviation validate_cross_calls := (EAVSchema.validate_cross_calls).

(** [validate] on a dict, when no descriptor raises another exception. *)
Lemma validate_traced_dict (st : store) (cls : EAVSchema) (d : pydict pyval) :
  NoDup (keys (dicts st (_eav_attributes cls))) ->
  no_exception (EAVSchema.items st cls) d = true ->
  let attributes := EAVSchema.items st cls in
  let errors :=
    EAVSchema.unknown_errors (EAVSchema.unknown_keys (keys attributes) d)
      ++ field_errors attributes d in
  let cleaned := field_values attributes d in
  validate_traced st cls (Dict d)
  = match errors with
    | _ :: _ => ([], RaiseValidationError (ErrorDict errors))
    | [] => ([cleaned], validate_cross cls cleaned)
    end.
Proof.
  intros Hn Hx attributes errors cleaned.
  unfold EAVSchema.validate_traced.
  rewrite <- keys_items. fold attributes.
  rewrite (validate_attributes_spec attributes d); auto.
  - subst attributes. now rewrite keys_items.
  - intros n Hn' Hin. apply keys_unknown_errors, unknown_keys_In in Hin.
    tauto.
Qed.

Lemma to_json_not_None (self : EAVAttribute) (v : pyval) :
  v <> VNone -> to_json self v <> VNone.
Proof.
  unfold EAVAttribute.to_json, EAVDecimal.to_json.
  destruct (kind self); destruct v; congruence.
Qed.

Lemma field_values_In (attributes : list (string * EAVAttribute))
    (d : pydict pyval) (k : string) (w : pyval) :
  In (k, w) (field_values attributes d) ->
  exists a v, In (k, a) attributes /\ attr_validate a (dget d k) = Return v
              /\ v <> VNone /\ w = to_json a v.
Proof.
  unfold EAVSchema.field_values. rewrite in_flat_map.
  intros ([n a] & Hin & H). cbn [fst snd] in H.
  destruct (attr_validate a (dget d n)) as [v | e | x] eqn:E; try contradiction.
  destruct v; simpl in H; try contradiction;
    destruct H as [[= <- <-] | []]; eexists a, _;
      (split; [exact Hin | split; [exact E | split; [discriminate | reflexivity]]]).
Qed.

Lemma NoDup_keys_In_eq {V : Type} (l : pydict V) (k : string) (a b : V) :
  NoDup (keys l) -> In (k, a) l -> In (k, b) l -> a = b.
Proof.
  intros Hn Ha Hb. apply (In_dict_get _ _ _ Hn) in Ha, Hb. congruence.
Qed.

(** What a call of the hook tells: the field pass was clean, the hook got
    the dict of the JSON values, and [validate] ends as the hook does. *)
Lemma validate_cross_calls_inv (st : store) (cls : EAVSchema) (data : pydata)
    (cleaned : pydict pyval) :
  let attributes := EAVSchema.items st cls in
  let d := as_dict data in
  NoDup (keys (dicts st (_eav_attributes cls))) ->
  In cleaned (validate_cross_calls st cls data) ->
  cleaned = field_values attributes d
  /\ validate_cross_calls st cls data = [cleaned]
  /\ no_exception attributes d = true
  /\ EAVSchema.unknown_keys (keys attributes) d = []
  /\ field_errors attributes d = []
  /\ validate st cls data = validate_cross cls cleaned.
Proof.
  intros attributes d Hk Hin.
  assert (Hd : validate_traced st cls data = validate_traced st cls (Dict d)).
  { destruct data as [d' | v]; [reflexivity|].
    destruct v; try contradiction Hin. reflexivity. }
  unfold EAVSchema.validate_cross_calls, EAVSchema.validate in Hin |- *.
  rewrite Hd in Hin |- *. clear Hd.
  destruct (validate_attributes_cases attributes d
              (EAVSchema.unknown_errors
                 (EAVSchema.unknown_keys (keys attributes) d)) [])
    as [(r & Hr & Hx) | (x & Hr & _)].
  - rewrite (validate_traced_dict st cls d Hk Hx) in Hin |- *.
    fold attributes in Hin |- *.
    destruct (EAVSchema.unknown_errors _ ++ field_errors attributes d) eqn:E;
      [| contradiction Hin].
    apply app_eq_nil in E as [E1 E2]. apply unknown_errors_nil in E1.
    cbn [fst snd] in Hin |- *. destruct Hin as [<- | []]. auto 6.
  - unfold EAVSchema.validate_traced in Hin. rewrite <- keys_items in Hin.
    fold attributes in Hin. rewrite Hr in Hin. contradiction Hin.
Qed.

(** What a successful [validate] has gone through: the hook was called
    once, on the dict of the JSON values, and returned the result. *)
Lemma validate_Return_inv (st : store) (cls : EAVSchema) (data : pydata)
    (out : pydict pyval) :
  let attributes := EAVSchema.items st cls in
  let d := as_dict data in
  let cleaned := field_values attributes d in
  NoDup (keys (dicts st (_eav_attributes cls))) ->
  validate st cls data = Return out ->
  validate_cross_calls st cls data = [cleaned]
  /\ no_exception attributes d = true
  /\ EAVSchema.unknown_keys (keys attributes) d = []
  /\ field_errors attributes d = []
  /\ validate_cross cls cleaned = Return out.
Proof.
  intros attributes d cleaned Hk Hv.
  assert (Hd : validate_traced st cls data = validate_traced st cls (Dict d)).
  { destruct data as [d' | v]; [reflexivity|].
    destruct v; try discriminate Hv. reflexivity. }
  unfold EAVSchema.validate_cross_calls, EAVSchema.validate in Hv |- *.
  rewrite Hd in Hv |- *. clear Hd.
  destruct (validate_attributes_cases attributes d
              (EAVSchema.unknown_errors
                 (EAVSchema.unknown_keys (keys attributes) d)) [])
    as [(r & Hr & Hx) | (x & Hr & _)].
  - rewrite (validate_traced_dict st cls d Hk Hx) in Hv |- *.
    fold attributes in Hv |- *.
    destruct (EAVSchema.unknown_errors _ ++ field_errors attributes d) eqn:E;
      [| discriminate Hv].
    apply app_eq_nil in E as [E1 E2]. apply unknown_errors_nil in E1.
    cbn [fst snd] in Hv |- *. auto 6.
  - unfold EAVSchema.validate_traced in Hv. rewrite <- keys_items in Hv.
    fold attributes in Hv. rewrite Hr in Hv. discriminate Hv.
Qed.

End Validate.

Section ValidateProperties.


Local Abbreviation attr_validate := (EAVAttribute.validate).
Local Abbreviation to_json := (EAVAttribute.to_json).
Local Abbreviation validate_attributes := (EAVSchema.validate_attributes).
Local Abbreviation field_errors := (EAVSchema.field_errors).
Local Abbreviation field_values := (EAVSchema.field_values).
Local Abbreviation no_exception := (EAVSchema.no_exception).
Local Abbreviation validate_traced := (EAVSchema.validate_traced).
Local Abbreviation validate := (EAVSchema.validate).
Local Abbreviation validate_cross_calls := (EAVSchema.validate_cross_calls).

(** C1, amended.  A value that is neither None nor a dict fails at once
    with the single error "Config must be a dict." under "__all__", whatever
    the schema, and the hook is not called.  On a dict, when no descriptor
    raises an exception other than ValidationError, the report is: one
    entry per unknown key, in sorted order, with its message, followed by
    one entry per failing declared attribute with that attribute's
    messages; unknown keys do not stop the pass, and a non-empty report is
    raised as one ValidationError. *)
Theorem C1_validate_error_report :
  forall (st : store) (cls : EAVSchema) (v : pyval) (d : pydict pyval),
    let attributes := EAVSchema.items st cls in
    let unknown := sorted (EAVSchema.unknown_keys (keys attributes) d) in
    let report :=
      map (fun key => (key, [("Unknown config key: " ++ key ++ ".")%string])) unknown
        ++ field_errors attributes d in
    validate_traced st cls (NotDict v)
    = (if is_None v then validate_traced st cls (Dict [])
       else ([], RaiseValidationError
                   (ErrorDict [("__all__", ["Config must be a dict."])])))
    /\ (unique (keys d) = true ->
        unique (keys (dicts st (_eav_attributes cls))) = true ->
        no_exception attributes d = true ->
        Sorted (fun a b => String.leb a b = true) unknown
        /\ NoDup unknown
        /\ (forall k, In k unknown <-> In k (keys d) /\ ~ In k (keys attributes))
        /\ (forall n a messages,
              In (n, a) attributes ->
              attr_validate a (dget d n)
              = RaiseValidationError (ErrorList messages) ->
              In (n, messages) report)
        /\ (report <> [] ->
            validate st cls (Dict d) = RaiseValidationError (ErrorDict report))).
Proof.
  intros st cls v d attributes unknown report.
  split; [destruct v; reflexivity|].
  intros Hd Hk Hx.
  apply unique_NoDup in Hd, Hk.
  split; [| split; [| split; [| split]]].
  - apply sorted_Sorted.
  - apply sorted_NoDup, unknown_keys_NoDup, Hd.
  - intros k. unfold unknown. rewrite sorted_In. apply unknown_keys_In.
  - intros n a messages Hin Hv. unfold report. apply in_or_app. right.
    unfold EAVSchema.field_errors. apply in_flat_map.
    exists (n, a). split; [exact Hin|]. cbn [fst snd]. rewrite Hv. now left.
  - intros Hne. unfold EAVSchema.validate.
    rewrite (validate_traced_dict st cls d Hk Hx).
    fold attributes.
    rewrite (unknown_errors_map _ (unknown_keys_NoDup _ _ Hd)).
    fold unknown. change (map _ unknown ++ field_errors attributes d) with report.
    destruct report; [congruence | reflexivity].
Qed.

(** C4.  When an unknown key or a failing attribute is present the hook
    is not called; when the hook is called, every key is declared and
    every attribute passed, and the outcome of [validate] is the outcome
    of the hook alone (the dict as the hook leaves it, or its exception),
    so an error of the hook is raised as it is. *)
Theorem C4_validate_cross_gate :
  forall (st : store) (cls : EAVSchema) (d : pydict pyval),
    let attributes := EAVSchema.items st cls in
    ((exists k, In k (keys d) /\ ~ In k (keys attributes))
     \/ (exists n a e, In (n, a) attributes
                       /\ attr_validate a (dget d n) = RaiseValidationError e) ->
     validate_cross_calls st cls (Dict d) = [])
    /\ (forall cleaned,
          In cleaned (validate_cross_calls st cls (Dict d)) ->
          validate_cross_calls st cls (Dict d) = [cleaned]
          /\ (forall k, In k (keys d) -> In k (keys attributes))
          /\ (forall n a, In (n, a) attributes ->
                exists w, attr_validate a (dget d n) = Return w)
          /\ validate st cls (Dict d) = validate_cross cls cleaned)
    /\ (forall cleaned e,
          In cleaned (validate_cross_calls st cls (Dict d)) ->
          validate_cross cls cleaned = RaiseValidationError e ->
          validate st cls (Dict d) = RaiseValidationError e)
    /\ (forall v, v <> VNone -> validate_cross_calls st cls (NotDict v) = []).
Proof.
  intros st cls d attributes.
  assert (Hcalled : forall cleaned,
             In cleaned (validate_cross_calls st cls (Dict d)) ->
             validate_attributes attributes d
               (EAVSchema.unknown_errors (EAVSchema.unknown_keys (keys attributes) d)) []
             = Return ([], cleaned)
             /\ validate_cross_calls st cls (Dict d) = [cleaned]
             /\ validate st cls (Dict d) = validate_cross cls cleaned).
  { intros cleaned. unfold EAVSchema.validate_cross_calls, EAVSchema.validate,
      EAVSchema.validate_traced.
    rewrite <- keys_items. fold attributes.
    destruct (validate_attributes attributes d _ []) as [[errors c] | e | x];
      cbn [fst snd]; try (intros []).
    destruct errors; cbn [fst snd]; [| intros []].
    intros [<- | []]. auto. }
  assert (Hgate : (exists k, In k (keys d) /\ ~ In k (keys attributes))
     \/ (exists n a e, In (n, a) attributes
                       /\ attr_validate a (dget d n) = RaiseValidationError e) ->
     validate_cross_calls st cls (Dict d) = []).
  { intros Herr.
    destruct (validate_cross_calls st cls (Dict d)) as [|cleaned l] eqn:E;
      [reflexivity | exfalso].
    destruct (Hcalled cleaned (or_introl eq_refl)) as (Hloop & _).
    destruct (validate_attributes_errors _ _ _ _ _ _ Hloop) as [H1 H2].
    destruct Herr as [(k & Hk1 & Hk2) | Hfail].
    - apply H1; [| reflexivity]. intros Hu. apply unknown_errors_nil in Hu.
      assert (Hin : In k (EAVSchema.unknown_keys (keys attributes) d))
        by (apply unknown_keys_In; tauto).
      rewrite Hu in Hin. contradiction.
    - now apply H2. }
  split; [exact Hgate | split; [| split]].
  - intros cleaned Hin. destruct (Hcalled cleaned Hin) as (Hloop & Hc & Hv).
    split; [exact Hc | split; [| split; [| exact Hv]]].
    + intros k Hk. destruct (in_dec string_dec k (keys attributes)) as [|Hn];
        [assumption | exfalso].
      assert (E : validate_cross_calls st cls (Dict d) = [])
        by (apply Hgate; left; now exists k).
      rewrite E in Hin. contradiction.
    + intros n a Hna.
      destruct (validate_attributes_cases attributes d
                  (EAVSchema.unknown_errors
                     (EAVSchema.unknown_keys (keys attributes) d)) [])
        as [(r & _ & Hx) | (x & Hr & _)]; [| congruence].
      unfold EAVSchema.no_exception in Hx. rewrite forallb_forall in Hx.
      specialize (Hx (n, a) Hna). cbn [fst snd] in Hx.
      destruct (attr_validate a (dget d n)) as [w | e | x] eqn:E;
        [now exists w | exfalso | discriminate].
      assert (E' : validate_cross_calls st cls (Dict d) = [])
        by (apply Hgate; right; now exists n, a, e).
      rewrite E' in Hin. contradiction.
  - intros cleaned e Hin He. destruct (Hcalled cleaned Hin) as (_ & _ & Hv).
    rewrite Hv, He. reflexivity.
  - intros v Hv. destruct v; congruence || reflexivity.
Qed.

(** C8, amended.  When [validate] returns, the hook was called once, on
    the dict built by the field pass, and the dict returned is that dict
    as the hook leaves it.  The dict handed to the hook has only declared
    keys, holds no None, and has no key for a declared attribute whose
    validated value is None, in particular for an attribute without value
    that is optional and has no default.  So has the dict returned,
    whenever the hook leaves its argument as it is. *)
Theorem C8_cleaned_keys :
  forall (st : store) (cls : EAVSchema) (data : pydata) (out : pydict pyval),
    let attributes := EAVSchema.items st cls in
    unique (keys (dicts st (_eav_attributes cls))) = true ->
    validate st cls data = Return out ->
    exists cleaned : pydict pyval,
      validate_cross_calls st cls data = [cleaned]
      /\ validate_cross cls cleaned = Return out
      /\ (validate_cross cls cleaned = Return cleaned -> out = cleaned)
      /\ (forall k, In k (keys cleaned) -> In k (keys attributes))
      /\ (forall k w, In (k, w) cleaned -> w <> VNone)
      /\ (forall n a, In (n, a) attributes ->
            attr_validate a (dget (as_dict data) n) = Return VNone ->
            ~ In n (keys cleaned))
      /\ (forall n a, In (n, a) attributes ->
            dget (as_dict data) n = VNone -> required a = false ->
            default a = VNone ->
            ~ In n (keys cleaned)).
Proof.
  intros st cls data out attributes Hk Hv.
  apply unique_NoDup in Hk.
  destruct (validate_Return_inv st cls data out Hk Hv) as (Hc & _ & _ & _ & Hh).
  fold attributes in Hc, Hh.
  set (cleaned := field_values attributes (as_dict data)) in *.
  assert (Hn : NoDup (keys attributes))
    by (subst attributes; now rewrite keys_items).
  assert (Habsent : forall n a, In (n, a) attributes ->
            attr_validate a (dget (as_dict data) n) = Return VNone ->
            ~ In n (keys cleaned)).
  { intros n a Hna Hnone Hin.
    unfold keys in Hin. apply in_map_iff in Hin as ([n' w] & E & Hin).
    cbn in E. subst n'.
    apply field_values_In in Hin as (a' & v' & Hna' & Hv' & Hnn & _).
    assert (a' = a) by (eapply NoDup_keys_In_eq; eauto). subst a'.
    congruence. }
  exists cleaned.
  split; [exact Hc | split; [exact Hh | split; [| split; [| split; [| split]]]]].
  - intros Hsame. congruence.
  - intros k Hin. now apply keys_field_values in Hin.
  - intros k w Hin.
    apply field_values_In in Hin as (a & v' & _ & _ & Hnn & ->).
    now apply to_json_not_None.
  - exact Habsent.
  - intros n a Hna Hval Hreq Hdef. apply (Habsent n a Hna).
    rewrite Hval. unfold EAVAttribute.validate. now rewrite Hreq, Hdef.
Qed.

End ValidateProperties.

(* ===================================================================== *)
(** ** Validating a cleaned mapping again *)
(* ===================================================================== *)

Section Idempotence.

Local Abbreviation attr_validate := (EAVAttribute.validate).
Local Abbreviation to_json := (EAVAttribute.to_json).
Local Abbreviation field_errors := (EAVSchema.field_errors).
Local Abbreviation field_values := (EAVSchema.field_values).
Local Abbreviation no_exception := (EAVSchema.no_exception).
Local Abbreviation validate := (EAVSchema.validate).




Lemma dict_get_field_values (attributes : list (string * EAVAttribute))
    (d : pydict pyval) (n : string) (a : EAVAttribute) :
  NoDup (keys attributes) -> In (n, a) attributes ->
  dict_get (field_values attributes d) n
  = match attr_validate a (dget d n) with
    | Return v => if is_None v then None else Some (to_json a v)
    | _ => None
    end.
Proof.
  induction attributes as [|[n0 a0] l IH]; intros Hn Hin; [contradiction|].
  inversion Hn as [|? ? Hk Hl]; subst.
  cbn [EAVSchema.field_values flat_map fst snd]. rewrite dict_get_app.
  destruct Hin as [E | Hin].
  - injection E as -> ->.
    destruct (attr_validate a (dget d n)) as [v | e | x]; cbn.
    + destruct (is_None v); cbn.
      * apply dict_get_None. intros H. apply keys_field_values in H. contradiction.
      * now rewrite String.eqb_refl.
    + apply dict_get_None. intros H. apply keys_field_values in H. contradiction.
    + apply dict_get_None. intros H. apply keys_field_values in H. contradiction.
  - assert (Hne : n0 <> n).
    { intros ->. apply Hk. unfold keys. change n with (fst (n, a)).
      now apply in_map. }
    destruct (attr_validate a0 (dget d n0)) as [v | e | x];
      [destruct (is_None v) |..]; cbn;
      try (destruct (String.eqb_spec n0 n); [congruence|]); now apply IH.
Qed.

Lemma flat_map_ext_In {A B : Type} (f g : A -> list B) (l : list A) :
  (forall x, In x l -> f x = g x) -> flat_map f l = flat_map g l.
Proof.
  induction l as [|x l IH]; intros H; simpl; [reflexivity|].
  rewrite (H x) by now left. f_equal. apply IH. intros y Hy. apply H. now right.
Qed.

Lemma field_errors_nil (attributes : list (string * EAVAttribute))
    (d : pydict pyval) :
  field_errors attributes d = [] ->
  forall n a messages, In (n, a) attributes ->
    attr_validate a (dget d n) <> RaiseValidationError (ErrorList messages).
Proof.
  intros H n a messages Hin Hv.
  assert (Hm : In (n, messages) (field_errors attributes d)).
  { unfold EAVSchema.field_errors. apply in_flat_map. exists (n, a).
    split; [exact Hin|]. cbn [fst snd]. rewrite Hv. now left. }
  rewrite H in Hm. contradiction.
Qed.






End Idempotence.

(* ===================================================================== *)
(** ** The metaclass *)
(* ===================================================================== *)

Lemma dict_get_update {V : Type} (other d : pydict V) (k : string) :
  NoDup (keys other) ->
  dict_get (dict_update d other) k
  = match dict_get other k with
    | Some v => Some v
    | None => dict_get d k
    end.
Proof.
  unfold dict_update. revert d.
  induction other as [|[k0 v0] other IH]; intros d Hn; [reflexivity|].
  inversion Hn as [|? ? Hk Hl]; subst. cbn [fold_left fst snd dict_get].
  rewrite (IH _ Hl).
  destruct (String.eqb_spec k0 k) as [->|Hne].
  - apply dict_get_None in Hk. now rewrite Hk, dict_get_set_eq.
  - now rewrite dict_get_set_ne by congruence.
Qed.

Lemma NoDup_keys_dict_update {V : Type} (other d : pydict V) :
  NoDup (keys d) -> NoDup (keys (dict_update d other)).
Proof.
  unfold dict_update. revert d.
  induction other as [|[k0 v0] other IH]; intros d Hn; [exact Hn|].
  apply IH. now apply NoDup_keys_dict_set.
Qed.

(** The loop over the bases writes to the new dict only. *)
Lemma inherit_spec (attrs : ref) (bases : list (option ref)) (st : store) :
  (forall r, In (Some r) bases -> r <> attrs) ->
  let st' := EAVSchemaMeta.inherit st attrs bases in
  (forall r, objects st' r = objects st r)
  /\ next_dict st' = next_dict st
  /\ (forall r, r <> attrs -> dicts st' r = dicts st r)
  /\ dicts st' attrs
     = fold_left (fun acc base => dict_update acc (parent_attrs st base)) bases
         (dicts st attrs).
Proof.
  unfold EAVSchemaMeta.inherit. revert st.
  induction bases as [|base bases IH]; intros st Hb; cbn [fold_left].
  - auto.
  - set (st1 := set_dict st attrs _).
    destruct (IH st1) as (H1 & H2 & H3 & H4);
      [intros r Hr; apply Hb; now right|].
    assert (Hd : forall r, r <> attrs -> dicts st1 r = dicts st r).
    { intros r Hr. subst st1. cbn. apply Nat.eqb_neq in Hr. now rewrite Hr. }
    assert (Hp : forall b, In b (base :: bases) ->
                   parent_attrs st1 b = parent_attrs st b).
    { intros [r|] Hin; [| reflexivity]. cbn. apply Hd, Hb, Hin. }
    split; [intros r; now rewrite H1|].
    split; [now rewrite H2|].
    split; [intros r Hr; now rewrite H3, Hd|].
    assert (Hs : dicts st1 attrs
                 = dict_update (dicts st attrs) (parent_attrs st base)).
    { subst st1. cbn [dicts set_dict]. now rewrite Nat.eqb_refl. }
    rewrite H4, Hs.
    clear -Hp. revert Hp.
    generalize (dict_update (dicts st attrs) (parent_attrs st base)).
    generalize st1. clear st1.
    induction bases as [|b bases IH]; intros st1 acc Hp; [reflexivity|].
    cbn [fold_left]. rewrite (Hp b) by (right; now left).
    apply IH. intros b' [<- | Hin]; apply Hp; [now left | right; now right].
Qed.

(** The names given to the descriptor objects by a class body. *)
Lemma collect_spec (attrs : ref) (namespace : pydict nsvalue) (st : store)
    (names : list string) :
  let '(st', names') :=
    fold_left
      (fun acc kv =>
         let '(st, attr_names) := acc in
         let '(key, value) := kv in
         match value with
         | Attribute r =>
             let st := set_object st r (set_name (objects st r) key) in
             let st := set_dict st attrs (dict_set (dicts st attrs) key r) in
             (st, attr_names ++ [key])
         | NotAttribute => (st, attr_names)
         end)
      namespace (st, names) in
  next_dict st' = next_dict st
  /\ (forall r, r <> attrs -> dicts st' r = dicts st r)
  /\ dicts st' attrs = dict_update (dicts st attrs) (own_attributes namespace)
  /\ (forall r, (forall k, ~ In (k, Attribute r) namespace) ->
        objects st' r = objects st r)
  /\ (forall r k, In (k, Attribute r) namespace ->
        (forall k', In (k', Attribute r) namespace -> k' = k) ->
        objects st' r = set_name (objects st r) k).
Proof.
  revert st names.
  induction namespace as [|[key value] ns IH]; intros st names; cbn [fold_left].
  - repeat split; auto. intros r k [].
  - destruct value as [r0|].
    + set (st1 := set_dict (set_object st r0 (set_name (objects st r0) key)) attrs _).
      specialize (IH st1 (names ++ [key])).
      destruct (fold_left _ ns (st1, names ++ [key])) as [st' names'].
      destruct IH as (H1 & H2 & H3 & H4 & H5).
      assert (Ho : forall r, objects st1 r
                             = if Nat.eqb r r0 then set_name (objects st r0) key
                               else objects st r) by reflexivity.
      split; [now rewrite H1|].
      split; [intros r Hr; rewrite (H2 r Hr); subst st1; cbn;
              apply Nat.eqb_neq in Hr; now rewrite Hr|].
      split; [rewrite H3; subst st1; cbn [dicts set_dict set_object];
              now rewrite Nat.eqb_refl|].
      split.
      * intros r Hr. rewrite H4 by (intros k Hk; apply (Hr k); now right).
        rewrite Ho. destruct (Nat.eqb_spec r r0) as [->|]; [|reflexivity].
        elim (Hr key). now left.
      * intros r k Hin Honce.
        destruct (Nat.eqb_spec r r0) as [->|Hne].
        -- assert (key = k) by (apply Honce; now left). subst key.
           destruct (in_dec (fun a b : string * nsvalue =>
                               ltac:(decide equality; [decide equality; apply Nat.eq_dec
                                                      | apply string_dec]))
                       (k, Attribute r0) ns) as [Hin' | Hnin].
           ++ rewrite (H5 r0 k Hin') by (intros k' Hk'; apply Honce; now right).
              rewrite Ho, Nat.eqb_refl. reflexivity.
           ++ rewrite H4; [rewrite Ho, Nat.eqb_refl; reflexivity|].
              intros k' Hk'. assert (k' = k) by (apply Honce; now right).
              subst k'. contradiction.
        -- destruct Hin as [E | Hin]; [injection E as -> E; congruence|].
           rewrite (H5 r k Hin) by (intros k' Hk'; apply Honce; now right).
           rewrite Ho. apply Nat.eqb_neq in Hne. now rewrite Hne.
    + specialize (IH st names).
      destruct (fold_left _ ns (st, names)) as [st' names'].
      destruct IH as (H1 & H2 & H3 & H4 & H5).
      repeat split; auto.
      * intros r Hr. apply H4. intros k Hk. apply (Hr k). now right.
      * intros r k [E | Hin] Honce; [discriminate E|].
        apply H5; [exact Hin|]. intros k' Hk'. apply Honce. now right.
Qed.

Lemma merged_parents_fold (st st0 : store) (bases : list (option ref))
    (acc : pydict ref) :
  (forall b, In b bases -> parent_attrs st0 b = parent_attrs st b) ->
  fold_left (fun acc base => dict_update acc (parent_attrs st0 base)) bases acc
  = fold_left (fun acc base => dict_update acc (parent_attrs st base)) bases acc.
Proof.
  revert acc. induction bases as [|b bases IH]; intros acc H; [reflexivity|].
  cbn [fold_left]. rewrite (H b) by now left.
  apply IH. intros b' Hb'. apply H. now right.
Qed.

(** What [EAVSchemaMeta.__new__] does to the store. *)
Lemma new_spec (st : store) (bases : list (option ref))
    (namespace : pydict nsvalue) :
  (forall r, In (Some r) bases -> (r < next_dict st)%nat) ->
  let st' := fst (fst (EAVSchemaMeta.__new__ st bases namespace)) in
  let attrs := snd (EAVSchemaMeta.__new__ st bases namespace) in
  attrs = next_dict st
  /\ next_dict st' = S (next_dict st)
  /\ (forall r, r <> attrs -> dicts st' r = dicts st r)
  /\ dicts st' attrs = merged_attributes st bases namespace
  /\ (forall r, (forall k, ~ In (k, Attribute r) namespace) ->
        objects st' r = objects st r)
  /\ (forall r k, In (k, Attribute r) namespace ->
        (forall k', In (k', Attribute r) namespace -> k' = k) ->
        objects st' r = set_name (objects st r) k).
Proof.
  intros Halloc. unfold EAVSchemaMeta.__new__, new_dict.
  set (attrs := next_dict st).
  set (st0 := {| objects := objects st;
                 dicts := fun r' => if Nat.eqb r' attrs then [] else dicts st r';
                 next_dict := S attrs |}).
  assert (Hb : forall r, In (Some r) bases -> r <> attrs).
  { intros r Hr. apply Halloc in Hr. subst attrs. lia. }
  destruct (inherit_spec attrs bases st0 Hb) as (I1 & I2 & I3 & I4).
  set (st1 := EAVSchemaMeta.inherit st0 attrs bases) in *.
  pose proof (collect_spec attrs namespace st1 []) as C.
  unfold EAVSchemaMeta.collect.
  destruct (fold_left _ namespace (st1, [])) as [st2 names].
  destruct C as (C1 & C2 & C3 & C4 & C5).
  cbn [fst snd].
  assert (Hd0 : forall r, r <> attrs -> dicts st0 r = dicts st r).
  { intros r Hr. subst st0. cbn. apply Nat.eqb_neq in Hr. now rewrite Hr. }
  split; [reflexivity|].
  split; [now rewrite C1, I2|].
  split; [intros r Hr; now rewrite C2, I3, Hd0|].
  split.
  - rewrite C3, I4. unfold merged_attributes, merged_parents. f_equal.
    replace (dicts st0 attrs) with (@nil (string * ref))
      by (subst st0; cbn; now rewrite Nat.eqb_refl).
    apply merged_parents_fold. intros [r|] Hin; [| reflexivity].
    cbn. apply Hd0, Hb, Hin.
  - split.
    + intros r Hr. now rewrite (C4 r Hr), I1.
    + intros r k Hin Honce. now rewrite (C5 r k Hin Honce), I1.
Qed.

Lemma keys_own_attributes (namespace : pydict nsvalue) (k : string) :
  In k (keys (own_attributes namespace)) <->
  exists r, In (k, Attribute r) namespace.
Proof.
  unfold own_attributes, keys. rewrite in_map_iff. split.
  - intros ([k' r] & E & Hin). cbn in E. subst k'.
    apply in_flat_map in Hin as ([k0 v0] & Hin & H). cbn in H.
    destruct v0 as [r0|]; [| contradiction].
    destruct H as [[= <- <-] | []]. now exists r0.
  - intros (r & Hin). exists (k, r). split; [reflexivity|].
    apply in_flat_map. exists (k, Attribute r). split; [exact Hin | now left].
Qed.

Lemma NoDup_keys_own_attributes (namespace : pydict nsvalue) :
  NoDup (keys namespace) -> NoDup (keys (own_attributes namespace)).
Proof.
  induction namespace as [|[k v] ns IH]; intros Hn; [constructor|].
  inversion Hn as [|? ? Hk Hl]; subst.
  unfold own_attributes. cbn [flat_map fst snd].
  destruct v as [r|]; cbn [app]; [| now apply IH].
  change (NoDup (k :: keys (own_attributes ns))). constructor; [| now apply IH].
  intros Hin. apply keys_own_attributes in Hin as (r' & Hin).
  apply Hk. unfold keys. change k with (fst (k, Attribute r')). now apply in_map.
Qed.

Lemma dict_get_own_attributes (namespace : pydict nsvalue) (k : string) (r : ref) :
  NoDup (keys namespace) -> In (k, Attribute r) namespace ->
  dict_get (own_attributes namespace) k = Some r.
Proof.
  intros Hn Hin. apply In_dict_get; [now apply NoDup_keys_own_attributes|].
  unfold own_attributes. apply in_flat_map. exists (k, Attribute r).
  split; [exact Hin | now left].
Qed.

Lemma NoDup_keys_merged_parents (st : store) (bases : list (option ref)) :
  NoDup (keys (merged_parents st bases)).
Proof.
  unfold merged_parents.
  assert (H : forall acc, NoDup (keys acc) ->
                NoDup (keys (fold_left
                               (fun attrs base => dict_update attrs (parent_attrs st base))
                               bases acc))).
  { induction bases as [|b bases IH]; intros acc Hacc; [exact Hacc|].
    cbn [fold_left]. apply IH. now apply NoDup_keys_dict_update. }
  apply H. constructor.
Qed.

Lemma NoDup_keys_merged_attributes (st : store) (bases : list (option ref))
    (namespace : pydict nsvalue) :
  NoDup (keys (merged_attributes st bases namespace)).
Proof.
  unfold merged_attributes. apply NoDup_keys_dict_update, NoDup_keys_merged_parents.
Qed.

Lemma validate_traced_same_items (st st' : store) (cls : EAVSchema) (data : pydata) :
  dicts st' (_eav_attributes cls) = dicts st (_eav_attributes cls) ->
  EAVSchema.items st' cls = EAVSchema.items st cls ->
  EAVSchema.validate_traced st' cls data = EAVSchema.validate_traced st cls data.
Proof.
  intros Hd Hi. unfold EAVSchema.validate_traced. now rewrite Hd, Hi.
Qed.

Lemma dict_get_items (st : store) (cls : EAVSchema) (k : string) :
  dict_get (EAVSchema.items st cls) k
  = option_map (objects st) (dict_get (dicts st (_eav_attributes cls)) k).
Proof.
  unfold EAVSchema.items.
  induction (dicts st (_eav_attributes cls)) as [|[k0 r0] l IH]; [reflexivity|].
  cbn. destruct (String.eqb k0 k); [reflexivity | exact IH].
Qed.

(** C5.  The merged set of a class is the fold of its parents' sets, in
    order, into an empty dict, followed by the descriptors of its own body;
    an own descriptor overrides every inherited entry of its name, a later
    parent overrides an earlier one; the class validates a redeclared
    attribute with its own descriptor; and the dict of every class made
    before is left as it was, as are its descriptors when the body does not
    bind them again. *)
Theorem C5_merged_attribute_set :
  forall (st : store) (bases : list (option ref)) (namespace : pydict nsvalue)
         (hook : pydict pyval -> result (pydict pyval)),
    let st' := fst (class_statement st bases namespace hook) in
    let cls := snd (class_statement st bases namespace hook) in
    (forall r, In (Some r) bases -> (r < next_dict st)%nat) ->
    unique (keys namespace) = true ->
    (forall r, In (Some r) bases -> unique (keys (dicts st r)) = true) ->
    EAVSchema.get_attributes st' cls
    = dict_update (merged_parents st bases) (own_attributes namespace)
    /\ merged_parents st []  = []
    /\ (forall bs b, merged_parents st (bs ++ [b])
                     = dict_update (merged_parents st bs) (parent_attrs st b))
    /\ NoDup (keys (EAVSchema.get_attributes st' cls))
    /\ (forall k r, In (k, Attribute r) namespace ->
          dict_get (EAVSchema.get_attributes st' cls) k = Some r)
    /\ (forall k bs b,
          (forall r, ~ In (k, Attribute r) namespace) -> bases = bs ++ [b] ->
          dict_get (EAVSchema.get_attributes st' cls) k
          = match dict_get (parent_attrs st b) k with
            | Some r => Some r
            | None => dict_get (merged_parents st bs) k
            end)
    /\ (forall k r, In (k, Attribute r) namespace ->
          (forall k', In (k', Attribute r) namespace -> k' = k) ->
          dict_get (EAVSchema.items st' cls) k = Some (set_name (objects st r) k)
          /\ kind (set_name (objects st r) k) = kind (objects st r))
    /\ (forall parent : EAVSchema,
          (_eav_attributes parent < next_dict st)%nat ->
          EAVSchema.get_attributes st' parent = EAVSchema.get_attributes st parent
          /\ ((forall k r, In (k, r) (EAVSchema.get_attributes st parent) ->
                 forall k', ~ In (k', Attribute r) namespace) ->
              EAVSchema.items st' parent = EAVSchema.items st parent
              /\ forall data, EAVSchema.validate_traced st' parent data
                              = EAVSchema.validate_traced st parent data)).
Proof.
  intros st bases namespace hook st' cls Halloc Hns Hparents.
  apply unique_NoDup in Hns.
  destruct (new_spec st bases namespace Halloc) as (N1 & N2 & N3 & N4 & N5 & N6).
  assert (Est : st' = fst (fst (EAVSchemaMeta.__new__ st bases namespace))).
  { subst st'. unfold class_statement.
    now destruct (EAVSchemaMeta.__new__ st bases namespace) as [[s n] a]. }
  assert (Ecls : _eav_attributes cls = snd (EAVSchemaMeta.__new__ st bases namespace)).
  { subst cls. unfold class_statement.
    now destruct (EAVSchemaMeta.__new__ st bases namespace) as [[s n] a]. }
  rewrite <- Est in *. rewrite <- Ecls in *.
  assert (Hga : EAVSchema.get_attributes st' cls = merged_attributes st bases namespace)
    by exact N4.
  split; [exact Hga|].
  split; [reflexivity|].
  split; [intros bs b; unfold merged_parents; now rewrite fold_left_app|].
  split; [rewrite Hga; apply NoDup_keys_merged_attributes|].
  assert (Hown : forall k r, In (k, Attribute r) namespace ->
            dict_get (EAVSchema.get_attributes st' cls) k = Some r).
  { intros k r Hin. rewrite Hga. unfold merged_attributes.
    rewrite dict_get_update by now apply NoDup_keys_own_attributes.
    now rewrite (dict_get_own_attributes namespace k r Hns Hin). }
  split; [exact Hown|].
  split.
  - intros k bs b Hnot ->. rewrite Hga. unfold merged_attributes.
    rewrite dict_get_update by now apply NoDup_keys_own_attributes.
    assert (Hnone : dict_get (own_attributes namespace) k = None).
    { apply dict_get_None. intros Hin. apply keys_own_attributes in Hin as (r & Hin).
      exact (Hnot r Hin). }
    rewrite Hnone. unfold merged_parents. rewrite fold_left_app. cbn [fold_left].
    apply dict_get_update.
    destruct b as [r|]; cbn; [| constructor].
    apply unique_NoDup, Hparents, in_or_app. right. now left.
  - split.
    + intros k r Hin Honce. split; [| reflexivity].
      rewrite dict_get_items.
      change (dicts st' (_eav_attributes cls)) with (EAVSchema.get_attributes st' cls).
      rewrite (Hown k r Hin). cbn. now rewrite (N6 r k Hin Honce).
    + intros parent Hp.
      assert (Hne : _eav_attributes parent <> _eav_attributes cls)
        by (rewrite N1; lia).
      assert (Hd : EAVSchema.get_attributes st' parent
                   = EAVSchema.get_attributes st parent)
        by (unfold EAVSchema.get_attributes; now apply N3).
      split; [exact Hd|].
      intros Hfresh.
      assert (Hi : EAVSchema.items st' parent = EAVSchema.items st parent).
      { unfold EAVSchema.items. unfold EAVSchema.get_attributes in Hd. rewrite Hd.
        apply map_ext_in. intros [k r] Hin. cbn [fst snd]. f_equal.
        apply N5. intros k'. exact (Hfresh k r Hin k'). }
      split; [exact Hi|].
      intros data. apply validate_traced_same_items; [exact Hd | exact Hi].
Qed.

(* ===================================================================== *)
(** ** The theorems at sample inputs *)
(* ===================================================================== *)

(** Two unknown keys and two failing attributes, reported in one pass. *)
Lemma C1_witness :
  let st := fst config_schema in
  let cls := snd config_schema in
  let d := [("name", VInt 123); ("zeta", VInt 1); ("count", VStr "bad");
            ("extra", VStr "val")] in
  unique (keys d) = true
  /\ unique (keys (dicts st (_eav_attributes cls))) = true
  /\ EAVSchema.no_exception (EAVSchema.items st cls) d = true
  /\ EAVSchema.validate st cls (Dict d)
     = RaiseValidationError
         (ErrorDict [("extra", ["Unknown config key: extra."]);
                     ("zeta", ["Unknown config key: zeta."]);
                     ("name", ["name must be a string."]);
                     ("count", ["count must be an integer."])]).
Proof.
  intros st cls d.
  split; [reflexivity | split; [reflexivity | split; [reflexivity|]]].
  destruct (C1_validate_error_report st cls VNone d) as [_ H].
  destruct (H eq_refl eq_refl eq_refl) as (_ & _ & _ & _ & Hreport).
  apply Hreport. discriminate.
Defined.

(** The text "999.99" given to a Decimal descriptor comes back as the
    decimal 999.99 after a round trip through JSON, and is equal to it. *)
Lemma C2_witness :
  VStr "999.99" <> VNone
  /\ EAVAttribute.validate amount_5_2 (VStr "999.99")
     = Return (VDecimal (PyDecimal.Finite false 99999 (-2)))
  /\ EAVAttribute.from_json amount_5_2
       (EAVAttribute.to_json amount_5_2
          (VDecimal (PyDecimal.Finite false 99999 (-2))))
     = Return (VDecimal (PyDecimal.Finite false 99999 (-2)))
  /\ same_type_eq (VDecimal (PyDecimal.Finite false 99999 (-2)))
       (VDecimal (PyDecimal.Finite false 99999 (-2)))
     = Some (Return true).
Proof.
  assert (H : VStr "999.99" <> VNone) by discriminate.
  split; [exact H | split; [reflexivity|]].
  destruct (proj1 C2_json_round_trip amount_5_2 (VStr "999.99") _ H eq_refl)
    as (Ha & Hb & _).
  split; [exact Ha | exact (Hb eq_refl)].
Defined.

(** A failing attribute keeps the hook from being called. *)
Lemma C4_witness :
  let st := fst config_schema in
  let cls := snd config_schema in
  let d := [("name", VInt 123); ("count", VInt 1)] in
  (exists n a e, In (n, a) (EAVSchema.items st cls)
                 /\ EAVAttribute.validate a (dget d n) = RaiseValidationError e)
  /\ EAVSchema.validate_cross_calls st cls (Dict d) = [].
Proof.
  intros st cls d.
  assert (H : exists n a e, In (n, a) (EAVSchema.items st cls)
                /\ EAVAttribute.validate a (dget d n) = RaiseValidationError e).
  { exists "name", (set_name (descriptor_object true VNone (EAVString None None)) "name"),
      (ErrorList ["name must be a string."]).
    split; [left; reflexivity | reflexivity]. }
  split; [exact H|].
  apply (proj1 (C4_validate_cross_gate st cls d)). right. exact H.
Defined.

(** The child that redeclares [name] validates it with its own descriptor,
    and the parent keeps its own. *)
Lemma C5_witness :
  let st := fst parent_schema in
  let parent := snd parent_schema in
  let bases := [Some (_eav_attributes parent)] in
  let st' :=
    fst (class_statement st bases child_namespace EAVSchema.no_validate_cross) in
  let child :=
    snd (class_statement st bases child_namespace EAVSchema.no_validate_cross) in
  (forall r, In (Some r) bases -> (r < next_dict st)%nat)
  /\ unique (keys child_namespace) = true
  /\ (forall r, In (Some r) bases -> unique (keys (dicts st r)) = true)
  /\ dict_get (EAVSchema.items st' child) "name"
     = Some (set_name (descriptor_object true VNone (EAVString (Some 100) None)) "name")
  /\ EAVSchema.get_attributes st' parent = EAVSchema.get_attributes st parent
  /\ EAVSchema.items st' parent = EAVSchema.items st parent.
Proof.
  intros st parent bases st' child.
  assert (H1 : forall r, In (Some r) bases -> (r < next_dict st)%nat).
  { intros r [E | []]. injection E as <-. cbn. lia. }
  assert (H3 : forall r, In (Some r) bases -> unique (keys (dicts st r)) = true).
  { intros r [E | []]. injection E as <-. reflexivity. }
  split; [exact H1 | split; [reflexivity | split; [exact H3|]]].
  destruct (C5_merged_attribute_set st bases child_namespace
              EAVSchema.no_validate_cross H1 eq_refl H3)
    as (_ & _ & _ & _ & _ & _ & Hown & Hparent).
  split.
  - apply (Hown "name" 1%nat); [left; reflexivity|].
    intros k' [E | []]. now injection E as <-.
  - destruct (Hparent parent) as [Hd Hi]; [cbn; lia|].
    split; [exact Hd|].
    apply Hi. intros k r [E | []] k' [E' | []].
    injection E as <- <-. discriminate E'.
Defined.


(** An optional attribute without value and default leaves no key; the
    default hook leaves the dict as it is, and that dict is returned. *)
Lemma C8_witness :
  let st := fst note_schema in
  let cls := snd note_schema in
  let data := Dict [("name", VStr "test")] in
  unique (keys (dicts st (_eav_attributes cls))) = true
  /\ EAVSchema.validate st cls data = Return [("name", VStr "test")]
  /\ exists cleaned,
       EAVSchema.validate_cross_calls st cls data = [cleaned]
       /\ ~ In "note" (keys cleaned).
Proof.
  intros st cls data.
  split; [reflexivity | split; [reflexivity|]].
  destruct (C8_cleaned_keys st cls data [("name", VStr "test")] eq_refl eq_refl)
    as (cleaned & Hcalls & _ & _ & _ & _ & _ & Habsent).
  exists cleaned. split; [exact Hcalls|].
  apply (Habsent "note"
           (set_name (descriptor_object false VNone (EAVString None None)) "note"));
    [right; left; reflexivity | reflexivity | reflexivity | reflexivity].
Defined.


(** Binding the parent's own descriptor object to another name in a class
    body renames that object for the parent too: the dict of the parent is
    the same, its descriptor now reports under the new name.  Hence the
    condition, in C5, that the body binds no descriptor of the parent. *)
Remark shared_descriptor_is_renamed :
  let st := fst parent_schema in
  let parent := snd parent_schema in
  let st' :=
    fst (class_statement st [Some (_eav_attributes parent)] alias_namespace
           EAVSchema.no_validate_cross) in
  EAVSchema.get_attributes st' parent = EAVSchema.get_attributes st parent
  /\ EAVSchema.validate st parent (Dict [])
     = RaiseValidationError (ErrorDict [("name", ["name is required."])])
  /\ EAVSchema.validate st' parent (Dict [])
     = RaiseValidationError (ErrorDict [("name", ["other is required."])]).
Proof. repeat split. Qed.

(* ===================================================================== *)
(** ** [EAVSchema.apply_defaults] *)
(* ===================================================================== *)

Section ApplyDefaults.

Local Abbreviation apply_defaults := (EAVSchema.apply_defaults).
Local Abbreviation to_json := (EAVAttribute.to_json).
Local Abbreviation attr_validate := (EAVAttribute.validate).

Lemma keys_app {V : Type} (d d' : pydict V) : keys (d ++ d') = keys d ++ keys d'.
Proof. apply map_app. Qed.

Lemma dict_get_Some_key {V : Type} (d : pydict V) (k : string) (v : V) :
  dict_get d k = Some v -> In k (keys d).
Proof.
  intros H. apply dict_get_Some_In in H.
  apply (in_map fst) in H. exact H.
Qed.

Lemma existsb_eqb_app (k : string) (l l' : list string) :
  ~ In k l' ->
  existsb (String.eqb k) (l ++ l') = existsb (String.eqb k) l.
Proof.
  intros H. rewrite existsb_app.
  apply existsb_eqb_not_In in H. rewrite H. apply orb_false_r.
Qed.

(** The loop of [apply_defaults], started on [d] with the entries [x]
    already added. *)
Lemma apply_defaults_loop (attributes : list (string * EAVAttribute))
    (d x : pydict pyval) :
  NoDup (keys attributes) ->
  (forall n, In n (keys attributes) -> ~ In n (keys x)) ->
  fold_left
    (fun result na =>
       let '(attr_name, attr) := na in
       if negb (existsb (String.eqb attr_name) (keys result))
          && negb (is_None (default attr))
       then dict_set result attr_name (to_json attr (default attr))
       else result)
    attributes (d ++ x)
  = d ++ x ++ missing_defaults attributes d.
Proof.
  revert x. induction attributes as [|[n a] rest IH]; intros x Hnd Hx.
  - simpl. now rewrite app_nil_r.
  - inversion Hnd as [|? ? Hn Hrest]; subst.
    assert (Hnx : ~ In n (keys x)) by (apply Hx; now left).
    cbn [fold_left missing_defaults flat_map fst snd].
    rewrite keys_app, (existsb_eqb_app n _ _ Hnx).
    destruct (existsb (String.eqb n) (keys d)) eqn:Hd; cbn [negb andb orb].
    + rewrite IH; [reflexivity | exact Hrest |].
      intros m Hm. apply Hx. now right.
    + destruct (is_None (default a)) eqn:Hdef; cbn [negb].
      * rewrite IH; [reflexivity | exact Hrest |].
        intros m Hm. apply Hx. now right.
      * rewrite dict_set_fresh.
        2:{ rewrite keys_app. intros Hin. apply in_app_or in Hin as [Hin | Hin].
            - apply existsb_eqb_not_In in Hd. contradiction.
            - contradiction. }
        rewrite <- app_assoc. rewrite IH; [| exact Hrest |].
        -- now rewrite <- app_assoc.
        -- intros m Hm. rewrite keys_app. intros Hin.
           apply in_app_or in Hin as [Hin | [<- | []]].
           ++ revert Hin. apply Hx. now right.
           ++ contradiction.
Qed.

Lemma apply_defaults_closed (st : store) (cls : EAVSchema) (d : pydict pyval) :
  NoDup (keys (dicts st (_eav_attributes cls))) ->
  apply_defaults st cls (Some d) = d ++ missing_defaults (EAVSchema.items st cls) d.
Proof.
  intros Hnd. unfold EAVSchema.apply_defaults.
  rewrite <- (app_nil_r d) at 1.
  rewrite apply_defaults_loop; [reflexivity | now rewrite keys_items |].
  intros n _ [].
Qed.

Lemma keys_missing_defaults (attributes : list (string * EAVAttribute))
    (d : pydict pyval) (k : string) :
  In k (keys (missing_defaults attributes d)) ->
  In k (keys attributes) /\ ~ In k (keys d).
Proof.
  induction attributes as [|[n a] rest IH]; [intros []|].
  cbn [missing_defaults flat_map fst snd].
  rewrite keys_app.
  intros Hin. apply in_app_or in Hin as [Hin | Hin].
  - destruct (existsb (String.eqb n) (keys d)) eqn:Hd; [contradiction|].
    destruct (is_None (default a)); [contradiction|].
    destruct Hin as [<- | []]. split; [now left|].
    now apply existsb_eqb_not_In.
  - destruct (IH Hin) as [H1 H2]. split; [now right | exact H2].
Qed.

Lemma dict_get_missing_defaults (attributes : list (string * EAVAttribute))
    (d : pydict pyval) (n : string) (a : EAVAttribute) :
  NoDup (keys attributes) -> In (n, a) attributes ->
  dict_get (missing_defaults attributes d) n
  = if existsb (String.eqb n) (keys d) || is_None (default a) then None
    else Some (to_json a (default a)).
Proof.
  induction attributes as [|[m b] rest IH]; [intros _ []|].
  intros Hnd Hin. inversion Hnd as [|? ? Hm Hrest]; subst.
  cbn [missing_defaults flat_map fst snd]. rewrite dict_get_app.
  destruct Hin as [E | Hin].
  - injection E as -> ->.
    destruct (existsb (String.eqb n) (keys d) || is_None (default a)) eqn:Hc.
    + simpl. apply dict_get_None. intros Hk.
      apply keys_missing_defaults in Hk as [Hk _]. contradiction.
    + simpl. now rewrite String.eqb_refl.
  - assert (Hne : m <> n).
    { intros ->. apply Hm. apply (in_map fst) in Hin. exact Hin. }
    apply String.eqb_neq in Hne.
    destruct (existsb (String.eqb m) (keys d) || is_None (default b)).
    + simpl. now apply IH.
    + simpl. rewrite Hne. now apply IH.
Qed.

Lemma missing_defaults_ext (attributes : list (string * EAVAttribute))
    (d d' : pydict pyval) :
  (forall n, In n (keys attributes) -> (In n (keys d') <-> In n (keys d))) ->
  missing_defaults attributes d' = missing_defaults attributes d.
Proof.
  intros H. unfold missing_defaults. apply flat_map_ext_In.
  intros [n a] Hin. cbn [fst snd].
  replace (existsb (String.eqb n) (keys d'))
    with (existsb (String.eqb n) (keys d)); [reflexivity|].
  assert (Hn : In n (keys attributes)) by (apply (in_map fst) in Hin; exact Hin).
  specialize (H n Hn).
  destruct (existsb (String.eqb n) (keys d)) eqn:E1;
    destruct (existsb (String.eqb n) (keys d')) eqn:E2; try reflexivity.
  - apply existsb_eqb_In in E1. apply existsb_eqb_not_In in E2. tauto.
  - apply existsb_eqb_not_In in E1. apply existsb_eqb_In in E2. tauto.
Qed.

Lemma missing_defaults_done (attributes : list (string * EAVAttribute))
    (d : pydict pyval) :
  NoDup (keys attributes) ->
  missing_defaults attributes (d ++ missing_defaults attributes d) = [].
Proof.
  intros Hnd. unfold missing_defaults at 1.
  transitivity (flat_map (fun _ : string * EAVAttribute => @nil (string * pyval))
                  attributes);
    [| apply flat_map_constant_nil].
  apply flat_map_ext_In. intros [n a] Hin. cbn [fst snd].
  destruct (is_None (default a)) eqn:Hdef; [now rewrite orb_true_r|].
  rewrite orb_false_r.
  destruct (existsb (String.eqb n) (keys (d ++ missing_defaults attributes d)))
    eqn:E; [reflexivity|].
  exfalso. apply existsb_eqb_not_In in E. apply E.
  rewrite keys_app. apply in_or_app.
  destruct (existsb (String.eqb n) (keys d)) eqn:Hd.
  - left. now apply existsb_eqb_In.
  - right. apply dict_get_Some_key with (v := to_json a (default a)).
    rewrite (dict_get_missing_defaults attributes d n a Hnd Hin).
    now rewrite Hd, Hdef.
Qed.

(** X1.  [apply_defaults] returns the input followed by one entry for each
    declared name that is missing from it and has a default, in the order
    of declaration, with the default in JSON form.  Every entry of the
    input keeps its value, an explicit None included; a missing name
    without default stays missing; [None] is treated as the empty dict. *)
Theorem X1_apply_defaults_fills_missing :
  forall (st : store) (cls : EAVSchema) (d : pydict pyval),
    let attributes := EAVSchema.items st cls in
    let result := apply_defaults st cls (Some d) in
    unique (keys (dicts st (_eav_attributes cls))) = true ->
    result = d ++ missing_defaults attributes d
    /\ (forall k, In k (keys d) -> dict_get result k = dict_get d k)
    /\ (forall n a, In (n, a) attributes -> ~ In n (keys d) ->
          dict_get result n
          = if is_None (default a) then None
            else Some (to_json a (default a)))
    /\ (forall k, In k (keys result) ->
          In k (keys d) \/ exists a, In (k, a) attributes /\ default a <> VNone)
    /\ apply_defaults st cls None = apply_defaults st cls (Some []).
Proof.
  intros st cls d attributes result Hu.
  apply unique_NoDup in Hu.
  assert (Hi : NoDup (keys attributes))
    by (unfold attributes; now rewrite keys_items).
  assert (Hr : result = d ++ missing_defaults attributes d)
    by (apply apply_defaults_closed; exact Hu).
  split; [exact Hr|].
  split; [| split; [| split; [| reflexivity]]].
  - intros k Hk. rewrite Hr, dict_get_app.
    destruct (dict_get d k) eqn:E; [reflexivity|].
    apply dict_get_None in E. contradiction.
  - intros n a Hin Hn. rewrite Hr, dict_get_app.
    rewrite (proj2 (dict_get_None d n) Hn).
    rewrite (dict_get_missing_defaults attributes d n a Hi Hin).
    now rewrite (proj2 (existsb_eqb_not_In n (keys d)) Hn).
  - intros k Hk. rewrite Hr, keys_app in Hk.
    apply in_app_or in Hk as [Hk | Hk]; [now left | right].
    destruct (keys_missing_defaults _ _ _ Hk) as [Hdecl Hn].
    unfold keys in Hdecl. apply in_map_iff in Hdecl as ([k' a] & Ek & Hin).
    simpl in Ek. subst k'. exists a. split; [exact Hin|].
    apply dict_get_In in Hk as [v Hv].
    rewrite (dict_get_missing_defaults attributes d k a Hi Hin) in Hv.
    rewrite (proj2 (existsb_eqb_not_In k (keys d)) Hn) in Hv.
    destruct (default a); simpl in Hv; discriminate.
Qed.

(** X2.  [apply_defaults] is idempotent: applied to its own result it adds
    nothing. *)
Theorem X2_apply_defaults_idempotent :
  forall (st : store) (cls : EAVSchema) (data : option (pydict pyval)),
    unique (keys (dicts st (_eav_attributes cls))) = true ->
    apply_defaults st cls (Some (apply_defaults st cls data))
    = apply_defaults st cls data.
Proof.
  intros st cls data Hu. apply unique_NoDup in Hu.
  assert (Hi : NoDup (keys (EAVSchema.items st cls))) by now rewrite keys_items.
  assert (H : forall d, apply_defaults st cls (Some (apply_defaults st cls (Some d)))
                        = apply_defaults st cls (Some d)).
  { intros d. rewrite (apply_defaults_closed st cls d Hu).
    rewrite (apply_defaults_closed st cls _ Hu).
    rewrite (missing_defaults_done _ d Hi). apply app_nil_r. }
  destruct data as [d|]; [apply H | apply (H [])].
Qed.

(** X3.  The dict that [validate] builds from the input and hands to the
    hook agrees with [apply_defaults] on every declared name that is missing
    from the input: both give the default in JSON form, or no entry when
    there is no default.  Every key of that dict is a key of the result of
    [apply_defaults], and on the empty input the two are the same dict.
    [validate] returns that dict when the hook returns and leaves it as it
    is. *)
Theorem X3_validate_agrees_with_apply_defaults :
  forall (st : store) (cls : EAVSchema) (d cleaned : pydict pyval),
    unique (keys (dicts st (_eav_attributes cls))) = true ->
    In cleaned (EAVSchema.validate_cross_calls st cls (Dict d)) ->
    (forall n, In n (keys (EAVSchema.items st cls)) -> ~ In n (keys d) ->
       dict_get cleaned n = dict_get (apply_defaults st cls (Some d)) n)
    /\ (forall k, In k (keys cleaned) ->
          In k (keys (apply_defaults st cls (Some d))))
    /\ (d = [] -> cleaned = apply_defaults st cls None)
    /\ (validate_cross cls cleaned = Return cleaned ->
        EAVSchema.validate st cls (Dict d) = Return cleaned).
Proof.
  intros st cls d cleaned Hu Hv. apply unique_NoDup in Hu.
  assert (Hi : NoDup (keys (EAVSchema.items st cls))) by now rewrite keys_items.
  destruct (validate_cross_calls_inv st cls (Dict d) cleaned Hu Hv)
    as (Hc & _ & _ & _ & Hfe & Hval).
  cbn [as_dict] in Hc, Hfe.
  assert (Hmiss : forall n a, In (n, a) (EAVSchema.items st cls) ->
            dget d n = VNone ->
            attr_validate a (dget d n) = Return (default a)).
  { intros n a Hin Hn. rewrite Hn. unfold EAVAttribute.validate.
    destruct (required a && is_None (default a)) eqn:Hreq; [|reflexivity].
    exfalso.
    apply (field_errors_nil _ _ Hfe n a [fmt [name a; " is required."]] Hin).
    rewrite Hn. unfold EAVAttribute.validate. now rewrite Hreq. }
  rewrite (apply_defaults_closed st cls d Hu).
  split; [| split; [| split]].
  - intros n Hdecl Hn.
    unfold keys in Hdecl. apply in_map_iff in Hdecl as ([n' a] & En & Hin).
    simpl in En. subst n'.
    rewrite Hc, (dict_get_field_values _ d n a Hi Hin).
    rewrite (Hmiss n a Hin (dget_missing d n Hn)).
    rewrite dict_get_app, (proj2 (dict_get_None d n) Hn).
    rewrite (dict_get_missing_defaults _ d n a Hi Hin).
    now rewrite (proj2 (existsb_eqb_not_In n (keys d)) Hn).
  - intros k Hk. rewrite keys_app. apply in_or_app.
    destruct (existsb (String.eqb k) (keys d)) eqn:Hd;
      [left; now apply existsb_eqb_In | right].
    apply existsb_eqb_not_In in Hd.
    apply dict_get_In in Hk as [w Hw]. apply dict_get_Some_In in Hw.
    rewrite Hc in Hw.
    apply field_values_In in Hw as (a & v & Hin & Hval' & Hnn & ->).
    rewrite (Hmiss k a Hin (dget_missing d k Hd)) in Hval'.
    injection Hval' as <-.
    apply dict_get_Some_key with (v := to_json a (default a)).
    rewrite (dict_get_missing_defaults _ d k a Hi Hin).
    rewrite (proj2 (existsb_eqb_not_In k (keys d)) Hd).
    destruct (default a); simpl; congruence.
  - intros ->. rewrite Hc.
    refine (eq_trans _ (eq_sym (apply_defaults_closed st cls [] Hu))). simpl.
    unfold EAVSchema.field_values, missing_defaults.
    apply flat_map_ext_In. intros [n a] Hin. cbn [fst snd].
    rewrite (Hmiss n a Hin eq_refl). simpl.
    destruct (is_None (default a)); reflexivity.
  - intros Hsame. now rewrite Hval.
Qed.






End ApplyDefaults.

(** A dict with an explicit None and a missing name: the None stays, the
    missing name gets its default. *)
Lemma X1_witness :
  let st := fst defaults_schema in
  let cls := snd defaults_schema in
  let d := [("rate", VNone)] in
  unique (keys (dicts st (_eav_attributes cls))) = true
  /\ EAVSchema.apply_defaults st cls (Some d)
     = [("rate", VNone); ("name", VStr "unnamed")].
Proof.
  intros st cls d. split; [reflexivity|].
  exact (eq_trans (proj1 (X1_apply_defaults_fills_missing st cls d eq_refl))
           eq_refl).
Defined.

Lemma X2_witness :
  let st := fst defaults_schema in
  let cls := snd defaults_schema in
  unique (keys (dicts st (_eav_attributes cls))) = true
  /\ EAVSchema.apply_defaults st cls
       (Some [("name", VStr "unnamed"); ("rate", VStr "0.05")])
     = EAVSchema.apply_defaults st cls None.
Proof.
  intros st cls. split; [reflexivity|].
  exact (X2_apply_defaults_idempotent st cls None eq_refl).
Defined.

Lemma X3_witness :
  let st := fst defaults_schema in
  let cls := snd defaults_schema in
  let d := [("name", VStr "x")] in
  let cleaned := [("name", VStr "x"); ("rate", VStr "0.05")] in
  unique (keys (dicts st (_eav_attributes cls))) = true
  /\ In cleaned (EAVSchema.validate_cross_calls st cls (Dict d))
  /\ dict_get cleaned "rate"
     = dict_get (EAVSchema.apply_defaults st cls (Some d)) "rate"
  /\ EAVSchema.validate st cls (Dict d) = Return cleaned.
Proof.
  intros st cls d cleaned.
  assert (Hin : In cleaned (EAVSchema.validate_cross_calls st cls (Dict d)))
    by (left; reflexivity).
  split; [reflexivity | split; [exact Hin|]].
  destruct (X3_validate_agrees_with_apply_defaults st cls d cleaned eq_refl Hin)
    as (Hmiss & _ & _ & Hret).
  split.
  - apply Hmiss.
    + right; left; reflexivity.
    + intros [E | []]; discriminate E.
  - apply Hret. reflexivity.
Defined.


(* ===================================================================== *)
(** ** What each descriptor accepts *)
(* ===================================================================== *)

Section Accepts.

Local Abbreviation validate := (EAVAttribute.validate).

Lemma existsb_In_eqb {A : Type} (eqb : A -> A -> bool) (x : A) (l : list A) :
  (forall a b, eqb a b = true <-> a = b) ->
  existsb (eqb x) l = true <-> In x l.
Proof.
  intros Heq. rewrite existsb_exists. split.
  - intros (y & Hy & E). apply Heq in E. now subst.
  - intros H. exists x. split; [exact H | now apply Heq].
Qed.

(** X5.  A String descriptor accepts a value that is not None exactly when
    it is a str no longer than [max_length] and among the [choices], and
    returns it unchanged: nothing is converted to a str, stripped or cut.  A
    str that is too long gets the length message, whatever the choices. *)
Theorem X5_string_accepts :
  forall (self : EAVAttribute) (max_length : option Z)
         (choices : option (list string)),
    kind self = EAVString max_length choices ->
    (forall v w : pyval, v <> VNone ->
       (validate self v = Return w <->
        exists s, v = VStr s /\ w = VStr s
          /\ (forall m, max_length = Some m -> Z.of_nat (String.length s) <= m)
          /\ (forall cs, choices = Some cs -> In s cs)))
    /\ (forall s m, max_length = Some m -> m < Z.of_nat (String.length s) ->
          validate self (VStr s)
          = RaiseValidationError
              (ErrorList [fmt [name self; " must be at most "; str_of_Z m;
                               " characters."]])).
Proof.
  intros [n r dflt h k] max_length choices Hk. simpl in Hk. subst k.
  split.
  - intros v w Hv. split.
    + destruct v; try contradiction; try discriminate.
      unfold EAVAttribute.validate, EAVAttribute._coerce,
        EAVAttribute._check_constraints, EAVAttribute.choices_reprs,
        EAVAttribute.in_choices. cbn [kind bind EAVString._coerce].
      unfold EAVString._check_constraints.
      destruct max_length as [m|].
      * destruct (Z.gtb_spec (Z.of_nat (String.length s)) m) as [Hgt | Hle];
          [discriminate|].
        destruct choices as [cs|]; cbn [bind option_map].
        -- destruct (existsb (String.eqb s) cs) eqn:E; [|discriminate].
           intros [= <-]. exists s. repeat split.
           ++ intros m' [= <-]. exact Hle.
           ++ intros cs' [= <-]. now apply existsb_eqb_In.
        -- intros [= <-]. exists s. repeat split.
           ++ intros m' [= <-]. exact Hle.
           ++ discriminate.
      * destruct choices as [cs|]; cbn [bind option_map].
        -- destruct (existsb (String.eqb s) cs) eqn:E; [|discriminate].
           intros [= <-]. exists s. repeat split.
           ++ discriminate.
           ++ intros cs' [= <-]. now apply existsb_eqb_In.
        -- intros [= <-]. exists s. repeat split; discriminate.
    + intros (s & -> & -> & Hlen & Hch).
      unfold EAVAttribute.validate, EAVAttribute._coerce,
        EAVAttribute._check_constraints, EAVAttribute.choices_reprs,
        EAVAttribute.in_choices. cbn [kind bind EAVString._coerce].
      unfold EAVString._check_constraints.
      assert (Hc : match choices with
                   | Some cs => existsb (String.eqb s) cs = true
                   | None => True
                   end).
      { destruct choices as [cs|]; [|exact I].
        apply existsb_eqb_In. now apply Hch. }
      destruct max_length as [m|].
      * specialize (Hlen m eq_refl).
        destruct (Z.gtb_spec (Z.of_nat (String.length s)) m) as [Hgt | Hle];
          [lia|].
        destruct choices as [cs|]; cbn [bind option_map];
          [now rewrite Hc | reflexivity].
      * destruct choices as [cs|]; cbn [bind option_map];
          [now rewrite Hc | reflexivity].
  - intros s m -> Hlen.
    unfold EAVAttribute.validate, EAVAttribute._coerce,
      EAVAttribute._check_constraints. cbn [kind bind EAVString._coerce].
    unfold EAVString._check_constraints.
    destruct (Z.gtb_spec (Z.of_nat (String.length s)) m) as [Hgt | Hle];
      [reflexivity | lia].
Qed.

Lemma X5_witness :
  let self := {| name := "code"; required := true; default := VNone;
                 help_text := ""; kind := EAVString (Some 3) (Some ["abc"; "de"]) |} in
  kind self = EAVString (Some 3) (Some ["abc"; "de"])
  /\ VStr "de" <> VNone
  /\ validate self (VStr "de") = Return (VStr "de").
Proof.
  intros self. split; [reflexivity | split; [discriminate|]].
  apply (proj1 (X5_string_accepts self _ _ eq_refl)); [discriminate|].
  exists "de". repeat split.
  - intros m [= <-]. simpl. lia.
  - intros cs [= <-]. right; left; reflexivity.
Defined.

(** X6.  An Integer descriptor accepts a value that is not None exactly
    when it is an int, not a bool, with [min_value <= value <= max_value]
    (both bounds included) and among the [choices]; the int is returned
    unchanged.  Below [min_value] the message is the one of [min_value],
    whatever [max_value] and the choices. *)
Theorem X6_integer_accepts :
  forall (self : EAVAttribute) (min_value max_value : option Z)
         (choices : option (list Z)),
    kind self = EAVInteger min_value max_value choices ->
    (forall v w : pyval, v <> VNone ->
       (validate self v = Return w <->
        exists z, v = VInt z /\ w = VInt z
          /\ (forall m, min_value = Some m -> m <= z)
          /\ (forall m, max_value = Some m -> z <= m)
          /\ (forall cs, choices = Some cs -> In z cs)))
    /\ (forall z m, min_value = Some m -> z < m ->
          validate self (VInt z)
          = RaiseValidationError
              (ErrorList [fmt [name self; " must be >= "; str_of_Z m; "."]]))
    /\ (forall z m, max_value = Some m -> m < z ->
          (forall m', min_value = Some m' -> m' <= z) ->
          validate self (VInt z)
          = RaiseValidationError
              (ErrorList [fmt [name self; " must be <= "; str_of_Z m; "."]])).
Proof.
  intros [n r dflt h k] min_value max_value choices Hk. simpl in Hk. subst k.
  assert (Hun : forall z,
    validate {| name := n; required := r; default := dflt; help_text := h;
                kind := EAVInteger min_value max_value choices |} (VInt z)
    = (match min_value with
       | Some m => if z <? m
                   then raise_message (fmt [n; " must be >= "; str_of_Z m; "."])
                   else Return tt
       | None => Return tt
       end ;;;
       match max_value with
       | Some m => if z >? m
                   then raise_message (fmt [n; " must be <= "; str_of_Z m; "."])
                   else Return tt
       | None => Return tt
       end ;;;
       match choices with
       | Some cs =>
           if existsb (Z.eqb z) cs then Return (VInt z)
           else raise_message
                  (fmt [n; " must be one of: ";
                        String.concat ", " (map str_of_Z cs); "."])
       | None => Return (VInt z)
       end)).
  { intros z. unfold EAVAttribute.validate, EAVAttribute._coerce,
      EAVAttribute._check_constraints, EAVAttribute.choices_reprs,
      EAVAttribute.in_choices, EAVInteger._check_constraints.
    cbn [kind bind EAVInteger._coerce name].
    destruct min_value as [m|]; [destruct (z <? m)|]; cbn [bind]; try reflexivity;
      (destruct max_value as [m'|]; [destruct (z >? m')|]; cbn [bind];
       try reflexivity;
       destruct choices as [cs|]; cbn [bind option_map]; reflexivity). }
  split; [| split].
  - intros v w Hv. split.
    + destruct v; try contradiction; try discriminate.
      rewrite Hun.
      destruct min_value as [m|].
      * destruct (Z.ltb_spec z m) as [Hlt | Hge]; [discriminate|]. cbn [bind].
        destruct max_value as [m'|].
        -- destruct (Z.gtb_spec z m') as [Hgt | Hle]; [discriminate|]. cbn [bind].
           destruct choices as [cs|].
           ++ destruct (existsb (Z.eqb z) cs) eqn:E; [|discriminate].
              intros [= <-]. exists z. repeat split.
              ** intros ? [= <-]. exact Hge.
              ** intros ? [= <-]. exact Hle.
              ** intros ? [= <-]. apply (existsb_In_eqb Z.eqb z cs Z.eqb_eq), E.
           ++ intros [= <-]. exists z. repeat split.
              ** intros ? [= <-]. exact Hge.
              ** intros ? [= <-]. exact Hle.
              ** discriminate.
        -- cbn [bind]. destruct choices as [cs|].
           ++ destruct (existsb (Z.eqb z) cs) eqn:E; [|discriminate].
              intros [= <-]. exists z. repeat split.
              ** intros ? [= <-]. exact Hge.
              ** discriminate.
              ** intros ? [= <-]. apply (existsb_In_eqb Z.eqb z cs Z.eqb_eq), E.
           ++ intros [= <-]. exists z. repeat split.
              ** intros ? [= <-]. exact Hge.
              ** discriminate.
              ** discriminate.
      * cbn [bind]. destruct max_value as [m'|].
        -- destruct (Z.gtb_spec z m') as [Hgt | Hle]; [discriminate|]. cbn [bind].
           destruct choices as [cs|].
           ++ destruct (existsb (Z.eqb z) cs) eqn:E; [|discriminate].
              intros [= <-]. exists z. repeat split.
              ** discriminate.
              ** intros ? [= <-]. exact Hle.
              ** intros ? [= <-]. apply (existsb_In_eqb Z.eqb z cs Z.eqb_eq), E.
           ++ intros [= <-]. exists z. repeat split.
              ** discriminate.
              ** intros ? [= <-]. exact Hle.
              ** discriminate.
        -- cbn [bind]. destruct choices as [cs|].
           ++ destruct (existsb (Z.eqb z) cs) eqn:E; [|discriminate].
              intros [= <-]. exists z. repeat split.
              ** discriminate.
              ** discriminate.
              ** intros ? [= <-]. apply (existsb_In_eqb Z.eqb z cs Z.eqb_eq), E.
           ++ intros [= <-]. exists z. repeat split; discriminate.
    + intros (z & -> & -> & Hmin & Hmax & Hch). rewrite Hun.
      destruct min_value as [m|].
      * specialize (Hmin m eq_refl).
        destruct (Z.ltb_spec z m) as [Hlt | Hge]; [lia|]. cbn [bind].
        destruct max_value as [m'|].
        -- specialize (Hmax m' eq_refl).
           destruct (Z.gtb_spec z m') as [Hgt | Hle]; [lia|]. cbn [bind].
           destruct choices as [cs|]; [|reflexivity].
           now rewrite (proj2 (existsb_In_eqb Z.eqb z cs Z.eqb_eq) (Hch cs eq_refl)).
        -- cbn [bind]. destruct choices as [cs|]; [|reflexivity].
           now rewrite (proj2 (existsb_In_eqb Z.eqb z cs Z.eqb_eq) (Hch cs eq_refl)).
      * cbn [bind]. destruct max_value as [m'|].
        -- specialize (Hmax m' eq_refl).
           destruct (Z.gtb_spec z m') as [Hgt | Hle]; [lia|]. cbn [bind].
           destruct choices as [cs|]; [|reflexivity].
           now rewrite (proj2 (existsb_In_eqb Z.eqb z cs Z.eqb_eq) (Hch cs eq_refl)).
        -- cbn [bind]. destruct choices as [cs|]; [|reflexivity].
           now rewrite (proj2 (existsb_In_eqb Z.eqb z cs Z.eqb_eq) (Hch cs eq_refl)).
  - intros z m -> Hlt. rewrite Hun. cbn [name].
    destruct (Z.ltb_spec z m) as [_ | Hge]; [reflexivity | lia].
  - intros z m -> Hgt Hmin. rewrite Hun. cbn [name].
    destruct min_value as [m'|].
    + specialize (Hmin m' eq_refl).
      destruct (Z.ltb_spec z m') as [Hlt | _]; [lia|]. cbn [bind].
      destruct (Z.gtb_spec z m) as [_ | Hle]; [reflexivity | lia].
    + cbn [bind]. destruct (Z.gtb_spec z m) as [_ | Hle]; [reflexivity | lia].
Qed.

Lemma X6_witness :
  let self := {| name := "count"; required := true; default := VNone;
                 help_text := ""; kind := EAVInteger (Some 0) (Some 10) None |} in
  kind self = EAVInteger (Some 0) (Some 10) None
  /\ VInt 10 <> VNone
  /\ validate self (VInt 10) = Return (VInt 10)
  /\ validate self (VInt (-1))
     = RaiseValidationError (ErrorList ["count must be >= 0."]).
Proof.
  intros self. split; [reflexivity | split; [discriminate|]].
  destruct (X6_integer_accepts self _ _ _ eq_refl) as (Hacc & Hmin & _).
  split.
  - apply Hacc; [discriminate|]. exists 10. repeat split.
    + intros m [= <-]. lia.
    + intros m [= <-]. lia.
    + discriminate.
  - exact (Hmin (-1) 0 eq_refl eq_refl).
Defined.

(** X7.  A Float descriptor validates an int as the float it converts to,
    and raises OverflowError, not a ValidationError, when the int is beyond
    the float range.  It accepts a float that is not a NaN exactly when the
    float is not below [min_value], not above [max_value] and equal to one
    of the [choices], and returns it unchanged.  A NaN is below and above
    nothing: without choices it passes every bound.  (With choices, a NaN is
    equal to none of them and is found only if the very object is in the
    list; no statement is made for that case.) *)
Theorem X7_float_accepts :
  forall (self : EAVAttribute) (min_value max_value : option spec_float)
         (choices : option (list spec_float)),
    kind self = EAVFloat min_value max_value choices ->
    (forall z,
       validate self (VInt z)
       = (f <- float_of_int z ;; validate self (VFloat f)))
    /\ (forall z, float_of_int z = Raise OverflowError ->
          validate self (VInt z) = Raise OverflowError)
    /\ (forall f w,
          (f = S754_nan -> choices = None) ->
          validate self (VFloat f) = Return w <->
          w = VFloat f
          /\ (forall m, min_value = Some m -> float_lt f m = false)
          /\ (forall m, max_value = Some m -> float_lt m f = false)
          /\ (forall cs, choices = Some cs ->
                exists c, In c cs /\ float_eq f c = true))
    /\ (choices = None ->
        validate self (VFloat S754_nan) = Return (VFloat S754_nan)).
Proof.
  intros [n r dflt h k] min_value max_value choices Hk. simpl in Hk. subst k.
  set (self := {| name := n; required := r; default := dflt; help_text := h;
                  kind := EAVFloat min_value max_value choices |}).
  assert (Hun : forall f,
    validate self (VFloat f)
    = (match min_value with
       | Some m => if float_lt f m
                   then raise_message (fmt [n; " must be >= "; float_repr m; "."])
                   else Return tt
       | None => Return tt
       end ;;;
       match max_value with
       | Some m => if float_lt m f
                   then raise_message (fmt [n; " must be <= "; float_repr m; "."])
                   else Return tt
       | None => Return tt
       end ;;;
       match choices with
       | Some cs =>
           if existsb (float_eq f) cs then Return (VFloat f)
           else raise_message
                  (fmt [n; " must be one of: ";
                        String.concat ", " (map float_repr cs); "."])
       | None => Return (VFloat f)
       end)).
  { intros f. unfold self, EAVAttribute.validate, EAVAttribute._coerce,
      EAVAttribute._check_constraints, EAVAttribute.choices_reprs,
      EAVAttribute.in_choices, EAVFloat._check_constraints.
    cbn [kind bind EAVFloat._coerce name].
    destruct min_value as [m|]; [destruct (float_lt f m)|]; cbn [bind];
      try reflexivity;
      (destruct max_value as [m'|]; [destruct (float_lt m' f)|]; cbn [bind];
       try reflexivity;
       destruct choices as [cs|]; cbn [bind option_map]; reflexivity). }
  assert (Hint : forall z,
            validate self (VInt z)
            = (f <- float_of_int z ;; validate self (VFloat f))).
  { intros z. unfold self at 1, EAVAttribute.validate at 1.
    unfold EAVAttribute._coerce. cbn [kind EAVFloat._coerce].
    destruct (float_of_int z) as [f| |]; cbn [bind]; reflexivity. }
  split; [exact Hint | split; [| split]].
  - intros z Hz. rewrite Hint, Hz. reflexivity.
  - intros f w _. rewrite Hun. split.
    + destruct min_value as [m|].
      * destruct (float_lt f m) eqn:E1; [discriminate|]. cbn [bind].
        destruct max_value as [m'|].
        -- destruct (float_lt m' f) eqn:E2; [discriminate|]. cbn [bind].
           destruct choices as [cs|].
           ++ destruct (existsb (float_eq f) cs) eqn:E; [|discriminate].
              intros [= <-]. repeat split.
              ** intros ? [= <-]. exact E1.
              ** intros ? [= <-]. exact E2.
              ** intros ? [= <-]. apply existsb_exists in E. exact E.
           ++ intros [= <-]. repeat split.
              ** intros ? [= <-]. exact E1.
              ** intros ? [= <-]. exact E2.
              ** discriminate.
        -- cbn [bind]. destruct choices as [cs|].
           ++ destruct (existsb (float_eq f) cs) eqn:E; [|discriminate].
              intros [= <-]. repeat split.
              ** intros ? [= <-]. exact E1.
              ** discriminate.
              ** intros ? [= <-]. apply existsb_exists in E. exact E.
           ++ intros [= <-]. repeat split.
              ** intros ? [= <-]. exact E1.
              ** discriminate.
              ** discriminate.
      * cbn [bind]. destruct max_value as [m'|].
        -- destruct (float_lt m' f) eqn:E2; [discriminate|]. cbn [bind].
           destruct choices as [cs|].
           ++ destruct (existsb (float_eq f) cs) eqn:E; [|discriminate].
              intros [= <-]. repeat split.
              ** discriminate.
              ** intros ? [= <-]. exact E2.
              ** intros ? [= <-]. apply existsb_exists in E. exact E.
           ++ intros [= <-]. repeat split.
              ** discriminate.
              ** intros ? [= <-]. exact E2.
              ** discriminate.
        -- cbn [bind]. destruct choices as [cs|].
           ++ destruct (existsb (float_eq f) cs) eqn:E; [|discriminate].
              intros [= <-]. repeat split.
              ** discriminate.
              ** discriminate.
              ** intros ? [= <-]. apply existsb_exists in E. exact E.
           ++ intros [= <-]. repeat split; discriminate.
    + intros (-> & Hmin & Hmax & Hch).
      assert (Hc : match choices with
                   | Some cs => existsb (float_eq f) cs = true
                   | None => True
                   end).
      { destruct choices as [cs|]; [|exact I].
        apply existsb_exists. now apply Hch. }
      destruct min_value as [m|].
      * rewrite (Hmin m eq_refl). cbn [bind].
        destruct max_value as [m'|].
        -- rewrite (Hmax m' eq_refl). cbn [bind].
           destruct choices as [cs|]; [now rewrite Hc | reflexivity].
        -- cbn [bind]. destruct choices as [cs|]; [now rewrite Hc | reflexivity].
      * cbn [bind]. destruct max_value as [m'|].
        -- rewrite (Hmax m' eq_refl). cbn [bind].
           destruct choices as [cs|]; [now rewrite Hc | reflexivity].
        -- cbn [bind]. destruct choices as [cs|]; [now rewrite Hc | reflexivity].
  - intros Hch. rewrite Hun, Hch.
    destruct min_value as [m|]; destruct max_value as [m'|];
      try destruct m; try destruct m'; reflexivity.
Qed.

(** The int 2^1024 has no float; with bounds 0 and 1, a NaN passes. *)
Lemma X7_witness :
  let self := {| name := "ratio"; required := true; default := VNone;
                 help_text := "";
                 kind := EAVFloat (Some (S754_zero false)) (Some (S754_finite false 4503599627370496 (-52))) None |} in
  kind self = EAVFloat (Some (S754_zero false)) (Some (S754_finite false 4503599627370496 (-52))) None
  /\ float_of_int (2 ^ 1024) = Raise OverflowError
  /\ validate self (VInt (2 ^ 1024)) = Raise OverflowError
  /\ validate self (VFloat S754_nan) = Return (VFloat S754_nan).
Proof.
  intros self.
  assert (Ho : float_of_int (2 ^ 1024) = Raise OverflowError)
    by (vm_compute; reflexivity).
  split; [reflexivity | split; [exact Ho|]].
  destruct (X7_float_accepts self _ _ _ eq_refl) as (_ & Hov & _ & Hnan).
  split; [exact (Hov _ Ho) | exact (Hnan eq_refl)].
Defined.

End Accepts.

(* ===================================================================== *)
(** ** Decimal descriptors: ints, texts and special values *)
(* ===================================================================== *)

Section DecimalInputs.

Local Abbreviation validate := (EAVAttribute.validate).

(** [Decimal(str(z))] for an int [z]. *)
Lemma of_string_str_of_Z (z : Z) :
  PyDecimal.of_string (str_of_Z z)
  = Some (PyDecimal.Finite (z <? 0) (Z.abs_N z) 0).
Proof.
  unfold PyDecimal.of_string, str_of_Z. rewrite chars_text.
  assert (E : chars_of_Z z
              = PyDecimal.sign_chars (z <? 0) ++ chars_of_N (Z.abs_N z) ++ []).
  { unfold chars_of_Z, PyDecimal.sign_chars. rewrite app_nil_r.
    destruct (Z.ltb_spec z 0) as [Hlt | Hge]; [reflexivity|].
    simpl. f_equal. destruct z; try reflexivity. lia. }
  rewrite E.
  rewrite (of_chars_whole (z <? 0) (chars_of_N (Z.abs_N z)) [] 0).
  - now rewrite N_of_chars_of_N.
  - apply chars_of_N_digits.
  - apply chars_of_N_not_nil.
  - left. split; reflexivity.
Qed.

(** [str(Decimal(str(z)))] is [str(z)]. *)
Lemma str_of_whole (z : Z) :
  PyDecimal.str (PyDecimal.Finite (z <? 0) (Z.abs_N z) 0) = str_of_Z z.
Proof.
  unfold PyDecimal.str, str_of_Z. f_equal.
  unfold PyDecimal.str_chars.
  set (_int := chars_of_N (Z.abs_N z)).
  assert (Hlen : 0 < Z.of_nat (List.length _int)).
  { pose proof (chars_of_N_not_nil (Z.abs_N z)) as H. fold _int in H.
    destruct _int; [congruence | simpl; lia]. }
  cbv zeta.
  replace (0 + Z.of_nat (List.length _int)) with (Z.of_nat (List.length _int))
    by lia.
  replace ((0 <=? 0) && (-6 <? Z.of_nat (List.length _int))) with true.
  2:{ symmetry. apply andb_true_iff. split; [reflexivity|].
      apply Z.ltb_lt. lia. }
  replace (Z.of_nat (List.length _int) <=? 0) with false
    by (symmetry; apply Z.leb_gt; lia).
  rewrite Z.leb_refl, Z.eqb_refl, Z.sub_diag. simpl (repeat _ _).
  rewrite !app_nil_r.
  unfold chars_of_Z, PyDecimal.sign_chars.
  destruct (Z.ltb_spec z 0) as [Hlt | Hge]; [reflexivity|].
  simpl. unfold _int. f_equal. destruct z; try reflexivity. lia.
Qed.

(** X8.  A Decimal descriptor validates an int of at most 4300 digits (the
    most that [str] converts) as the Decimal with the digits of the int and
    exponent 0, and so does it validate the text of that int; the JSON form
    of that Decimal is the text of the int.  A text that reads as a Decimal
    within the bounds of the constructor is validated as that Decimal.  A
    text that is no decimal numeral is rejected as not a valid decimal, a
    bool as not a decimal. *)
Theorem X8_decimal_of_int_and_text :
  forall (self : EAVAttribute) (md dp : option Z)
         (mn mx : option PyDecimal.Decimal)
         (ch : option (list PyDecimal.Decimal)),
    kind self = EAVDecimal md dp mn mx ch ->
    (forall z,
       let d := PyDecimal.Finite (z <? 0) (Z.abs_N z) 0 in
       num_digits (Z.abs_N z) <= 4300 ->
       decimal_in_range d = true
       /\ validate self (VInt z) = validate self (VDecimal d)
       /\ validate self (VStr (str_of_Z z)) = validate self (VDecimal d)
       /\ EAVAttribute.to_json self (VDecimal d) = VStr (str_of_Z z))
    /\ (forall s d, PyDecimal.of_string s = Some d ->
          decimal_in_range d = true ->
          validate self (VStr s) = validate self (VDecimal d))
    /\ (forall s, PyDecimal.of_string s = None ->
          validate self (VStr s)
          = RaiseValidationError
              (ErrorList [fmt [name self; " must be a valid decimal."]]))
    /\ (forall b,
          validate self (VBool b)
          = RaiseValidationError
              (ErrorList [fmt [name self; " must be a decimal."]])).
Proof.
  intros [n r dflt h k] md dp mn mx ch Hk. simpl in Hk. subst k.
  set (self := {| name := n; required := r; default := dflt; help_text := h;
                  kind := EAVDecimal md dp mn mx ch |}).
  assert (Hs : forall s d, PyDecimal.of_string s = Some d ->
            validate self (VStr s) = validate self (VDecimal d)).
  { intros s d Hd. unfold EAVAttribute.validate, EAVAttribute._coerce.
    cbn [kind self EAVDecimal._coerce py_str]. now rewrite Hd. }
  split; [| split; [intros s d Hd _; now apply Hs | split]].
  - intros z d Hz. split; [| split; [| split]].
    + unfold d, decimal_in_range. fold (num_digits (Z.abs_N z)).
      assert (0 <= num_digits (Z.abs_N z)) by (unfold num_digits; lia).
      apply andb_true_iff. split; [apply andb_true_iff; split|].
      * reflexivity.
      * apply Z.leb_le. lia.
      * apply Z.leb_le. lia.
    + unfold EAVAttribute.validate at 1, EAVAttribute._coerce.
      cbn [kind self EAVDecimal._coerce py_str].
      now rewrite of_string_str_of_Z.
    + apply Hs. apply of_string_str_of_Z.
    + unfold EAVAttribute.to_json. cbn [kind self EAVDecimal.to_json py_str].
      f_equal. apply str_of_whole.
  - intros s Hnone. unfold EAVAttribute.validate, EAVAttribute._coerce.
    cbn [kind self EAVDecimal._coerce py_str]. now rewrite Hnone.
  - intros b. reflexivity.
Qed.

Lemma X8_witness :
  kind amount_5_2 = EAVDecimal (Some 5) (Some 2) None None None
  /\ num_digits (Z.abs_N (-17)) <= 4300
  /\ validate amount_5_2 (VInt (-17))
     = Return (VDecimal (PyDecimal.Finite true 17 0))
  /\ PyDecimal.of_string "1e" = None
  /\ validate amount_5_2 (VStr "1e")
     = RaiseValidationError (ErrorList ["amount must be a valid decimal."]).
Proof.
  destruct (X8_decimal_of_int_and_text amount_5_2 _ _ _ _ _ eq_refl)
    as (Hint & _ & Hbad & _).
  assert (Hz : num_digits (Z.abs_N (-17)) <= 4300) by (vm_compute; discriminate).
  split; [reflexivity | split; [exact Hz | split; [| split; [reflexivity|]]]].
  - exact (eq_trans (proj1 (proj2 (Hint (-17) Hz))) eq_refl).
  - exact (Hbad "1e" eq_refl).
Defined.

(** X9.  Special values leave a Decimal descriptor with an exception that
    is not a ValidationError: with [max_digits] or [decimal_places] set and
    no bounds, an infinity or a NaN raises TypeError (its exponent is a
    str); with a bound set, a NaN raises InvalidOperation.  The texts
    "Infinity" and "NaN" are read as such values. *)
Theorem X9_decimal_special_values :
  forall (self : EAVAttribute) (md dp : option Z)
         (mn mx : option PyDecimal.Decimal)
         (ch : option (list PyDecimal.Decimal)) (d : PyDecimal.Decimal),
    kind self = EAVDecimal md dp mn mx ch ->
    (forall s c e, d <> PyDecimal.Finite s c e) ->
    (mn = None -> mx = None -> (md <> None \/ dp <> None) ->
     validate self (VDecimal d) = Raise TypeError)
    /\ (PyDecimal.is_nan d = true -> (mn <> None \/ mx <> None) ->
        validate self (VDecimal d) = Raise InvalidOperation)
    /\ PyDecimal.of_string "Infinity" = Some (PyDecimal.Infinity false)
    /\ PyDecimal.of_string "NaN" = Some (PyDecimal.NaN false false 0).
Proof.
  intros [n r dflt h k] md dp mn mx ch d Hk Hd. simpl in Hk. subst k.
  split; [| split; [| split; reflexivity]].
  - intros -> -> Hc.
    unfold EAVAttribute.validate, EAVAttribute._coerce,
      EAVAttribute._check_constraints.
    cbn [kind bind EAVDecimal._coerce].
    unfold EAVDecimal._check_constraints. cbn [bind].
    assert (Hdc : EAVDecimal.digit_counts d = Raise TypeError).
    { destruct d as [s c e | s | s sig p].
      - now elim (Hd s c e).
      - reflexivity.
      - unfold EAVDecimal.digit_counts. simpl. destruct sig; reflexivity. }
    rewrite Hdc.
    destruct md, dp; cbn [bind]; try reflexivity.
    destruct Hc as [Hc | Hc]; now elim Hc.
  - intros Hnan Hb.
    unfold EAVAttribute.validate, EAVAttribute._coerce,
      EAVAttribute._check_constraints.
    cbn [kind bind EAVDecimal._coerce].
    unfold EAVDecimal._check_constraints, PyDecimal.gt, PyDecimal.lt.
    destruct mn as [m|].
    + rewrite Hnan. reflexivity.
    + cbn [bind]. destruct mx as [m|].
      * rewrite Hnan, orb_true_r. reflexivity.
      * destruct Hb as [Hb | Hb]; now elim Hb.
Qed.

Lemma X9_witness :
  kind amount_5_2 = EAVDecimal (Some 5) (Some 2) None None None
  /\ (forall s c e, PyDecimal.Infinity false <> PyDecimal.Finite s c e)
  /\ validate amount_5_2 (VStr "Infinity") = Raise TypeError.
Proof.
  assert (H : forall s c e, PyDecimal.Infinity false <> PyDecimal.Finite s c e)
    by (intros s c e; discriminate).
  split; [reflexivity | split; [exact H|]].
  refine (eq_trans eq_refl
            (proj1 (X9_decimal_special_values amount_5_2 _ _ _ _ _
                      (PyDecimal.Infinity false) eq_refl H)
               eq_refl eq_refl _)).
  left. discriminate.
Defined.

End DecimalInputs.

(* ===================================================================== *)
(** ** The report and the cleaned dict of [EAVSchema.validate] *)
(* ===================================================================== *)

Lemma bind_one_message {A B : Type} (m : result A) (k : A -> result B) :
  one_message m -> (forall a, one_message (k a)) -> one_message (bind m k).
Proof. destruct m as [a | [[|? [|? ?]] | md] | x]; simpl; auto. Qed.

Ltac one_message_step :=
  match goal with
  | |- one_message (bind _ _) => apply bind_one_message; [| intros ?]
  | |- one_message (raise_message _) => exact I
  | |- one_message (Return _) => exact I
  | |- one_message (Raise _) => exact I
  | |- one_message (match ?x with _ => _ end) => destruct x
  | |- one_message (if ?x then _ else _) => destruct x
  end.

Lemma decimal_lt_one_message (a b : PyDecimal.Decimal) :
  one_message (PyDecimal.lt a b).
Proof. unfold PyDecimal.lt. repeat one_message_step. Qed.

Lemma decimal_eq_one_message (a b : PyDecimal.Decimal) :
  one_message (PyDecimal.eq a b).
Proof. unfold PyDecimal.eq. repeat one_message_step. Qed.

Lemma contains_one_message (l : list PyDecimal.Decimal) (d : PyDecimal.Decimal) :
  one_message (EAVDecimal.contains l d).
Proof.
  induction l as [|c l IH]; simpl; [exact I|].
  apply bind_one_message; [apply decimal_eq_one_message|].
  intros []; [exact I | exact IH].
Qed.

Lemma coerce_one_message (self : EAVAttribute) (v : pyval) :
  one_message (EAVAttribute._coerce self v).
Proof.
  unfold EAVAttribute._coerce, EAVString._coerce, EAVBoolean._coerce,
    EAVInteger._coerce, EAVFloat._coerce, EAVDecimal._coerce, float_of_int.
  destruct (kind self); destruct v; repeat one_message_step.
Qed.

Lemma check_constraints_one_message (self : EAVAttribute) (v : pyval) :
  one_message (EAVAttribute._check_constraints self v).
Proof.
  unfold EAVAttribute._check_constraints, EAVString._check_constraints,
    EAVInteger._check_constraints, EAVFloat._check_constraints,
    EAVDecimal._check_constraints, EAVDecimal.digit_counts, PyDecimal.gt.
  destruct (kind self); destruct v;
    repeat (one_message_step || apply decimal_lt_one_message).
Qed.

Lemma in_choices_one_message (self : EAVAttribute) (v : pyval) :
  one_message (EAVAttribute.in_choices self v).
Proof.
  unfold EAVAttribute.in_choices.
  destruct (kind self) as [? [?|] | [?|] | ? ? [?|] | ? ? [?|] | ? ? ? ? [?|]];
    destruct v; try exact I.
  apply contains_one_message.
Qed.

(** A descriptor stops at the first rule that fails: its error has one
    message. *)
Lemma validate_one_message (self : EAVAttribute) (v : pyval) :
  one_message (EAVAttribute.validate self v).
Proof.
  unfold EAVAttribute.validate.
  destruct v;
    try (apply bind_one_message; [apply coerce_one_message | intros w];
         apply bind_one_message; [apply check_constraints_one_message | intros _];
         destruct (EAVAttribute.choices_reprs self);
           [apply bind_one_message; [apply in_choices_one_message | intros []];
            exact I
           | exact I]).
  destruct (required self && is_None (default self)); exact I.
Qed.

Section Report.

Local Abbreviation attr_validate := (EAVAttribute.validate).
Local Abbreviation field_errors := (EAVSchema.field_errors).
Local Abbreviation field_values := (EAVSchema.field_values).

Lemma field_errors_In (attributes : list (string * EAVAttribute))
    (d : pydict pyval) (k : string) (messages : list string) :
  In (k, messages) (field_errors attributes d) ->
  exists a, In (k, a) attributes
            /\ attr_validate a (dget d k)
               = RaiseValidationError (ErrorList messages).
Proof.
  unfold EAVSchema.field_errors. rewrite in_flat_map.
  intros ([n a] & Hin & H). cbn [fst snd] in H.
  destruct (attr_validate a (dget d n)) as [v | [msgs | md] | x] eqn:E;
    try contradiction.
  destruct H as [[= <- <-] | []]. now exists a.
Qed.

Lemma NoDup_keys_flat_map {V W : Type} (f : string * V -> list (string * W))
    (l : list (string * V)) :
  (forall kv, f kv = [] \/ exists w, f kv = [(fst kv, w)]) ->
  NoDup (keys l) -> NoDup (keys (flat_map f l)).
Proof.
  intros Hf. induction l as [|[k v] l IH]; simpl; [constructor|].
  intros Hnd. inversion Hnd as [|? ? Hk Hl]; subst.
  destruct (Hf (k, v)) as [E | [w E]]; rewrite E; simpl.
  - now apply IH.
  - constructor; [| now apply IH].
    intros Hin. apply Hk.
    unfold keys in Hin. apply in_map_iff in Hin as ([k' w'] & Ek & Hin).
    simpl in Ek. subst k'. apply in_flat_map in Hin as ([k2 v2] & Hin2 & Hf2).
    destruct (Hf (k2, v2)) as [E2 | [w2 E2]]; rewrite E2 in Hf2;
      [contradiction|].
    destruct Hf2 as [[= <- <-] | []].
    apply (in_map fst) in Hin2. exact Hin2.
Qed.

Lemma NoDup_keys_field_errors (attributes : list (string * EAVAttribute))
    (d : pydict pyval) :
  NoDup (keys attributes) -> NoDup (keys (field_errors attributes d)).
Proof.
  apply NoDup_keys_flat_map. intros [n a]. cbn [fst snd].
  destruct (attr_validate a (dget d n)) as [v | [msgs | md] | x];
    [now left | right; now exists msgs | now left | now left].
Qed.

(** X10.  An error report raised by the field pass of [validate] (the hook
    was not called) is not empty, names each field once, and gives each
    field exactly one message: an unknown key its unknown-key message, a
    declared attribute the message of the first rule it breaks. *)
Theorem X10_report_entries :
  forall (st : store) (cls : EAVSchema) (d : pydict pyval) (e : ValidationError),
    unique (keys d) = true ->
    unique (keys (dicts st (_eav_attributes cls))) = true ->
    EAVSchema.validate st cls (Dict d) = RaiseValidationError e ->
    EAVSchema.validate_cross_calls st cls (Dict d) = [] ->
    exists report,
      e = ErrorDict report
      /\ report <> []
      /\ NoDup (keys report)
      /\ (forall k messages, In (k, messages) report ->
            exists m, messages = [m]
              /\ ((~ In k (keys (EAVSchema.items st cls)) /\ In k (keys d)
                   /\ m = fmt ["Unknown config key: "; k; "."])
                  \/ (exists a, In (k, a) (EAVSchema.items st cls)
                                /\ attr_validate a (dget d k)
                                   = RaiseValidationError (ErrorList [m])))).
Proof.
  intros st cls d e Hd Hu Hv Hcalls.
  apply unique_NoDup in Hd. apply unique_NoDup in Hu.
  assert (Hi : NoDup (keys (EAVSchema.items st cls))) by now rewrite keys_items.
  assert (Hx : EAVSchema.no_exception (EAVSchema.items st cls) d = true).
  { unfold EAVSchema.validate, EAVSchema.validate_traced in Hv.
    destruct (validate_attributes_cases (EAVSchema.items st cls) d
                (EAVSchema.unknown_errors
                   (EAVSchema.unknown_keys
                      (keys (dicts st (_eav_attributes cls))) d)) [])
      as [(r & Hr & Hne) | (x & Hr & _)]; [exact Hne|].
    rewrite Hr in Hv. discriminate. }
  pose proof (validate_traced_dict st cls d Hu Hx) as Ht. cbv zeta in Ht.
  unfold EAVSchema.validate in Hv. unfold EAVSchema.validate_cross_calls in Hcalls.
  rewrite Ht in Hv, Hcalls.
  set (unknown := EAVSchema.unknown_keys (keys (EAVSchema.items st cls)) d) in *.
  assert (Hun : NoDup unknown) by (apply unknown_keys_NoDup; exact Hd).
  rewrite (unknown_errors_map unknown Hun) in Hv, Hcalls.
  set (report := map (fun key => (key, [fmt ["Unknown config key: "; key; "."]]))
                   (sorted unknown) ++ field_errors (EAVSchema.items st cls) d)
    in *.
  destruct report as [|entry rest] eqn:Er; [discriminate Hcalls|].
  rewrite <- Er in *. simpl in Hv.
  exists report. split; [rewrite Er in *; now injection Hv as <-|].
  split; [rewrite Er; discriminate|].
  assert (Hin : forall k messages, In (k, messages) report ->
            (In k unknown /\ messages = [fmt ["Unknown config key: "; k; "."]])
            \/ In (k, messages) (field_errors (EAVSchema.items st cls) d)).
  { intros k messages Hk. unfold report in Hk.
    apply in_app_or in Hk as [Hk | Hk]; [left | now right].
    apply in_map_iff in Hk as (key & [= <- <-] & Hkey).
    split; [exact (proj1 (sorted_In _ _) Hkey) | reflexivity]. }
  split.
  - unfold report. rewrite keys_app. apply NoDup_app.
    + unfold keys. rewrite map_map. cbn [fst]. rewrite map_id.
      now apply sorted_NoDup.
    + now apply NoDup_keys_field_errors.
    + intros k Hk1 Hk2. unfold keys in Hk1. rewrite map_map in Hk1.
      cbn [fst] in Hk1. rewrite map_id in Hk1.
      apply (proj1 (sorted_In _ _)) in Hk1.
      apply (proj1 (unknown_keys_In _ _ _)) in Hk1 as [_ Hk1].
      apply Hk1. now apply keys_field_errors in Hk2.
  - intros k messages Hk. destruct (Hin k messages Hk) as [[Hk1 ->] | Hk1].
    + eexists. split; [reflexivity | left].
      apply (proj1 (unknown_keys_In _ _ _)) in Hk1 as [Hk1 Hk2].
      now repeat split.
    + apply field_errors_In in Hk1 as (a & Ha & Hval).
      pose proof (validate_one_message a (dget d k)) as Hone.
      rewrite Hval in Hone. destruct messages as [|m [|m' rest']];
        try contradiction.
      exists m. split; [reflexivity | right]. now exists a.
Qed.

Lemma validate_no_error (attributes : list (string * EAVAttribute))
    (d : pydict pyval) (n : string) (a : EAVAttribute) :
  EAVSchema.no_exception attributes d = true ->
  field_errors attributes d = [] ->
  In (n, a) attributes ->
  exists v, attr_validate a (dget d n) = Return v.
Proof.
  intros Hx Hfe Hin.
  destruct (attr_validate a (dget d n)) as [v | [msgs | md] | x] eqn:E.
  - now exists v.
  - now elim (field_errors_nil _ _ Hfe n a msgs Hin).
  - pose proof (validate_list_error a (dget d n)) as H. rewrite E in H.
    contradiction.
  - unfold EAVSchema.no_exception in Hx. rewrite forallb_forall in Hx.
    specialize (Hx (n, a) Hin). cbn [fst snd] in Hx. rewrite E in Hx.
    discriminate.
Qed.

(** X11.  In the dict that [validate] builds and hands to the hook, every
    declared name whose input value is not None is present with a value of
    the JSON type of its descriptor: a str, a bool, an int or a float, and
    for a Decimal descriptor a str that holds the text of a decimal, never
    a Decimal object.  [validate] returns that dict when the hook returns
    and leaves it as it is. *)
Theorem X11_cleaned_json_types :
  forall (st : store) (cls : EAVSchema) (data : pydata) (cleaned : pydict pyval),
    unique (keys (dicts st (_eav_attributes cls))) = true ->
    In cleaned (EAVSchema.validate_cross_calls st cls data) ->
    (forall n a, In (n, a) (EAVSchema.items st cls) ->
       dget (as_dict data) n <> VNone ->
       exists w, dict_get cleaned n = Some w /\ json_form a w)
    /\ (validate_cross cls cleaned = Return cleaned ->
        EAVSchema.validate st cls data = Return cleaned).
Proof.
  intros st cls data cleaned Hu Hv. apply unique_NoDup in Hu.
  assert (Hi : NoDup (keys (EAVSchema.items st cls))) by now rewrite keys_items.
  destruct (validate_cross_calls_inv st cls data cleaned Hu Hv)
    as (Hc & _ & Hx & _ & Hfe & Hval).
  split; [| intros Hsame; now rewrite Hval].
  intros n a Hin Hraw.
  destruct (validate_no_error _ _ n a Hx Hfe Hin) as [v Hva].
  rewrite Hc, (dict_get_field_values _ _ n a Hi Hin), Hva.
  pose proof (validate_present a _ v Hraw Hva) as Hco.
  apply coerce_canonical in Hco.
  pose proof (canonical_not_None a v Hco) as Hnn.
  exists (EAVAttribute.to_json a v). split.
  - destruct v; simpl; congruence.
  - unfold canonical in Hco. unfold json_form, EAVAttribute.to_json.
    destruct (kind a); destruct v; try contradiction; try exact I.
    simpl. now exists d.
Qed.

Lemma X11_witness :
  let st := fst defaults_schema in
  let cls := snd defaults_schema in
  let data := Dict [("rate", VInt 2)] in
  let cleaned := [("name", VStr "unnamed"); ("rate", VStr "2")] in
  unique (keys (dicts st (_eav_attributes cls))) = true
  /\ In cleaned (EAVSchema.validate_cross_calls st cls data)
  /\ (exists w, dict_get cleaned "rate" = Some w
                /\ json_form
                     (set_name
                        (descriptor_object false
                           (VDecimal (PyDecimal.Finite false 5 (-2)))
                           (EAVDecimal None None None None None)) "rate") w)
  /\ EAVSchema.validate st cls data = Return cleaned.
Proof.
  intros st cls data cleaned.
  assert (Hin : In cleaned (EAVSchema.validate_cross_calls st cls data))
    by (left; reflexivity).
  split; [reflexivity | split; [exact Hin|]].
  destruct (X11_cleaned_json_types st cls data cleaned eq_refl Hin) as [Hj Hret].
  split.
  - apply (Hj "rate"); [right; left; reflexivity | discriminate].
  - apply Hret. reflexivity.
Defined.

Lemma validate_attributes_app (pre rest : list (string * EAVAttribute))
    (d : pydict pyval) (errors : pydict (list string)) (cleaned : pydict pyval) :
  EAVSchema.no_exception pre d = true ->
  exists errors' cleaned',
    EAVSchema.validate_attributes (pre ++ rest) d errors cleaned
    = EAVSchema.validate_attributes rest d errors' cleaned'.
Proof.
  revert errors cleaned.
  induction pre as [|[n a] pre IH]; intros errors cleaned Hx.
  - now exists errors, cleaned.
  - cbn [EAVSchema.no_exception forallb fst snd] in Hx.
    apply andb_true_iff in Hx as [Ha Hx].
    cbn [app EAVSchema.validate_attributes].
    destruct (attr_validate a (dget d n)) as [v | e | x];
      [apply IH; exact Hx | apply IH; exact Hx | discriminate].
Qed.

(** X12.  An exception of a descriptor that is not a ValidationError ends
    [validate] at once: the exception of the first attribute, in the order
    of declaration, that raises one is raised as it is, the hook is not
    called, and what was collected before, unknown keys included, is
    dropped. *)
Theorem X12_other_exceptions_escape :
  forall (st : store) (cls : EAVSchema) (d : pydict pyval),
    (forall pre n a post x,
       EAVSchema.items st cls = pre ++ (n, a) :: post ->
       EAVSchema.no_exception pre d = true ->
       attr_validate a (dget d n) = Raise x ->
       EAVSchema.validate_traced st cls (Dict d) = ([], Raise x))
    /\ (forall n a x,
          In (n, a) (EAVSchema.items st cls) ->
          attr_validate a (dget d n) = Raise x ->
          exists y, EAVSchema.validate_traced st cls (Dict d) = ([], Raise y)).
Proof.
  intros st cls d. split.
  - intros pre n a post x Hitems Hpre Hval.
    unfold EAVSchema.validate_traced. rewrite Hitems.
    destruct (validate_attributes_app pre ((n, a) :: post) d
                (EAVSchema.unknown_errors
                   (EAVSchema.unknown_keys
                      (keys (dicts st (_eav_attributes cls))) d)) [] Hpre)
      as (errors' & cleaned' & ->).
    cbn [EAVSchema.validate_attributes]. now rewrite Hval.
  - intros n a x Hin Hval.
    unfold EAVSchema.validate_traced.
    destruct (validate_attributes_cases (EAVSchema.items st cls) d
                (EAVSchema.unknown_errors
                   (EAVSchema.unknown_keys
                      (keys (dicts st (_eav_attributes cls))) d)) [])
      as [(r & _ & Hne) | (y & -> & _)]; [| now exists y].
    unfold EAVSchema.no_exception in Hne. rewrite forallb_forall in Hne.
    specialize (Hne (n, a) Hin). cbn [fst snd] in Hne. rewrite Hval in Hne.
    discriminate.
Qed.

(** An int beyond the float range, beside an unknown key and a missing
    required name: OverflowError, no report. *)
Lemma X12_witness :
  let st := fst ratio_schema in
  let cls := snd ratio_schema in
  let d := [("ratio", VInt (2 ^ 1024)); ("extra", VInt 1)] in
  let name := set_name (descriptor_object true VNone (EAVString None None)) "name" in
  let ratio :=
    set_name (descriptor_object true VNone (EAVFloat None None None)) "ratio" in
  EAVSchema.items st cls = [("name", name)] ++ ("ratio", ratio) :: []
  /\ EAVSchema.no_exception [("name", name)] d = true
  /\ attr_validate ratio (dget d "ratio") = Raise OverflowError
  /\ EAVSchema.validate_traced st cls (Dict d) = ([], Raise OverflowError).
Proof.
  intros st cls d name ratio.
  assert (H3 : attr_validate ratio (dget d "ratio") = Raise OverflowError)
    by (vm_compute; reflexivity).
  split; [reflexivity | split; [reflexivity | split; [exact H3|]]].
  exact (proj1 (X12_other_exceptions_escape st cls d)
           [("name", name)] "ratio" ratio [] OverflowError eq_refl eq_refl H3).
Defined.

End Report.

(** An unknown key and a value of the wrong type: two entries, one message
    each. *)
Lemma X10_witness :
  let st := fst config_schema in
  let cls := snd config_schema in
  let d := [("name", VInt 123); ("extra", VStr "val"); ("count", VInt 1)] in
  let e := ErrorDict [("extra", ["Unknown config key: extra."]);
                      ("name", ["name must be a string."])] in
  unique (keys d) = true
  /\ unique (keys (dicts st (_eav_attributes cls))) = true
  /\ EAVSchema.validate st cls (Dict d) = RaiseValidationError e
  /\ EAVSchema.validate_cross_calls st cls (Dict d) = []
  /\ exists report, e = ErrorDict report /\ report <> [] /\ NoDup (keys report).
Proof.
  intros st cls d e.
  split; [reflexivity | split; [reflexivity | split; [reflexivity |
    split; [reflexivity|]]]].
  destruct (X10_report_entries st cls d e eq_refl eq_refl eq_refl eq_refl)
    as (report & H1 & H2 & H3 & _).
  exists report. split; [exact H1 | split; [exact H2 | exact H3]].
Defined.

(* ===================================================================== *)
(** ** The order of the keys *)
(* ===================================================================== *)

Lemma ascii_compare_N (a b : ascii) :
  Ascii.compare a b = N.compare (N_of_ascii a) (N_of_ascii b).
Proof. reflexivity. Qed.

Lemma string_leb_trans (a b c : string) :
  String.leb a b = true -> String.leb b c = true -> String.leb a c = true.
Proof.
  unfold String.leb. revert b c.
  induction a as [|x a IH]; intros [|y b] [|z c]; simpl; try congruence.
  rewrite !ascii_compare_N.
  destruct (N.compare_spec (N_of_ascii x) (N_of_ascii y)) as [E1 | L1 | G1];
    destruct (N.compare_spec (N_of_ascii y) (N_of_ascii z)) as [E2 | L2 | G2];
    try congruence.
  - rewrite E1, E2, N.compare_refl. apply IH.
  - rewrite E1. rewrite (proj2 (N.compare_lt_iff _ _) L2). reflexivity.
  - rewrite <- E2. rewrite (proj2 (N.compare_lt_iff _ _) L1). reflexivity.
  - rewrite (proj2 (N.compare_lt_iff _ _) (N.lt_trans _ _ _ L1 L2)).
    reflexivity.
Qed.

(** Two sorted lists with the same elements are the same list. *)
Lemma sorted_permutation (l l' : list string) :
  Permutation l l' -> sorted l = sorted l'.
Proof.
  intros Hp.
  assert (Hs : forall l, StronglySorted (fun a b => String.leb a b = true) (sorted l)).
  { intros l0. apply Sorted_StronglySorted.
    - intros a b c. apply string_leb_trans.
    - apply sorted_Sorted. }
  assert (Hperm : Permutation (sorted l) (sorted l')).
  { transitivity l; [symmetry; apply StringSort.Permuted_sort|].
    transitivity l'; [exact Hp | apply StringSort.Permuted_sort]. }
  pose proof (Hs l) as H1. pose proof (Hs l') as H2.
  revert H1 H2 Hperm. generalize (sorted l) (sorted l').
  clear. intros s. induction s as [|a s IH]; intros s' H1 H2 Hperm.
  - apply Permutation_nil in Hperm. now subst.
  - destruct s' as [|b s'].
    + symmetry in Hperm. apply Permutation_nil in Hperm. discriminate.
    + inversion H1 as [|? ? Hs1 Ha]; subst. inversion H2 as [|? ? Hs2 Hb]; subst.
      assert (E : a = b).
      { assert (Hab : In a (b :: s'))
          by (apply (Permutation_in _ Hperm); now left).
        assert (Hba : In b (a :: s))
          by (apply (Permutation_in _ (Permutation_sym Hperm)); now left).
        destruct Hab as [-> | Hab]; [reflexivity|].
        destruct Hba as [-> | Hba]; [reflexivity|].
        rewrite Forall_forall in Ha, Hb.
        apply String.leb_antisym; [now apply Ha | now apply Hb]. }
      subst b. f_equal. apply IH; [exact Hs1 | exact Hs2|].
      now apply Permutation_cons_inv in Hperm.
Qed.

Lemma dict_get_permutation {V : Type} (d d' : pydict V) (k : string) :
  NoDup (keys d) -> Permutation d d' -> dict_get d' k = dict_get d k.
Proof.
  intros Hnd Hp.
  assert (Hnd' : NoDup (keys d')).
  { apply (Permutation_NoDup (l := keys d)); [| exact Hnd].
    unfold keys. now apply Permutation_map. }
  destruct (dict_get d k) as [v|] eqn:E.
  - apply In_dict_get; [exact Hnd'|].
    apply (Permutation_in _ Hp). now apply dict_get_Some_In.
  - apply dict_get_None. apply dict_get_None in E. intros Hin. apply E.
    apply (Permutation_in (l := keys d')); [| exact Hin].
    unfold keys. apply Permutation_map. now symmetry.
Qed.

Lemma filter_permutation {A : Type} (f : A -> bool) (l l' : list A) :
  Permutation l l' -> Permutation (filter f l) (filter f l').
Proof.
  induction 1 as [| x l l' _ IH | x y l | l l' l'' _ IH1 _ IH2]; simpl.
  - constructor.
  - destruct (f x); [now constructor | exact IH].
  - destruct (f x), (f y); try reflexivity. constructor.
  - now transitivity (filter f l').
Qed.

Section KeyOrder.

Local Abbreviation attr_validate := (EAVAttribute.validate).

(** X13.  The order of the keys in the input is irrelevant: [validate]
    makes the same calls of the hook and gives the same cleaned dict or the
    same error, entry for entry, on any rearrangement of the input. *)
Theorem X13_input_order_irrelevant :
  forall (st : store) (cls : EAVSchema) (d d' : pydict pyval),
    unique (keys d) = true ->
    Permutation d d' ->
    EAVSchema.validate_traced st cls (Dict d')
    = EAVSchema.validate_traced st cls (Dict d).
Proof.
  intros st cls d d' Hd Hp. apply unique_NoDup in Hd.
  unfold EAVSchema.validate_traced.
  assert (Hu : EAVSchema.unknown_errors
                 (EAVSchema.unknown_keys (keys (dicts st (_eav_attributes cls))) d')
               = EAVSchema.unknown_errors
                   (EAVSchema.unknown_keys (keys (dicts st (_eav_attributes cls))) d)).
  { unfold EAVSchema.unknown_errors. f_equal. apply sorted_permutation.
    unfold EAVSchema.unknown_keys. apply filter_permutation.
    unfold keys. apply Permutation_map. now symmetry. }
  rewrite Hu.
  rewrite (validate_attributes_ext _ d d'); [reflexivity|].
  intros n _. unfold dget. now rewrite (dict_get_permutation d d' n Hd Hp).
Qed.

Lemma X13_witness :
  let st := fst config_schema in
  let cls := snd config_schema in
  let d := [("name", VStr "a"); ("zeta", VInt 1); ("count", VInt 2)] in
  let d' := [("zeta", VInt 1); ("name", VStr "a"); ("count", VInt 2)] in
  unique (keys d) = true
  /\ Permutation d d'
  /\ EAVSchema.validate_traced st cls (Dict d')
     = EAVSchema.validate_traced st cls (Dict d).
Proof.
  intros st cls d d'.
  assert (Hp : Permutation d d') by apply perm_swap.
  split; [reflexivity | split; [exact Hp|]].
  exact (X13_input_order_irrelevant st cls d d' eq_refl Hp).
Defined.

(** X14.  The keys of the dict that [validate] builds and hands to the
    hook come in the order of declaration of the schema, whatever the order
    of the input: they are the declared names, in order, without those that
    got no value, each once.  [validate] returns that dict when the hook
    returns and leaves it as it is. *)
Theorem X14_cleaned_in_declaration_order :
  forall (st : store) (cls : EAVSchema) (data : pydata) (cleaned : pydict pyval),
    unique (keys (dicts st (_eav_attributes cls))) = true ->
    In cleaned (EAVSchema.validate_cross_calls st cls data) ->
    keys cleaned
    = filter (fun n => existsb (String.eqb n) (keys cleaned))
        (keys (EAVSchema.get_attributes st cls))
    /\ NoDup (keys cleaned)
    /\ (validate_cross cls cleaned = Return cleaned ->
        EAVSchema.validate st cls data = Return cleaned).
Proof.
  intros st cls data cleaned Hu Hv. apply unique_NoDup in Hu.
  assert (Hi : NoDup (keys (EAVSchema.items st cls))) by now rewrite keys_items.
  destruct (validate_cross_calls_inv st cls data cleaned Hu Hv)
    as (Hc & _ & _ & _ & _ & Hval).
  unfold EAVSchema.get_attributes. rewrite <- keys_items.
  set (attributes := EAVSchema.items st cls) in *.
  set (d := as_dict data) in *.
  assert (Hmem : forall n a, In (n, a) attributes ->
            existsb (String.eqb n) (keys cleaned)
            = match attr_validate a (dget d n) with
              | Return v => negb (is_None v)
              | _ => false
              end).
  { intros n a Hin.
    pose proof (dict_get_field_values attributes d n a Hi Hin) as Hg.
    rewrite <- Hc in Hg.
    destruct (existsb (String.eqb n) (keys cleaned)) eqn:E.
    - apply existsb_eqb_In in E. apply dict_get_In in E as [w Hw].
      rewrite Hw in Hg.
      destruct (attr_validate a (dget d n)) as [v | e | x]; try discriminate.
      destruct (is_None v); [discriminate | reflexivity].
    - apply existsb_eqb_not_In in E. apply dict_get_None in E.
      rewrite E in Hg.
      destruct (attr_validate a (dget d n)) as [v | e | x]; try reflexivity.
      destruct (is_None v); [reflexivity | discriminate]. }
  split; [| split; [| intros Hsame; now rewrite Hval]].
  - transitivity
      (keys (flat_map
               (fun na : string * EAVAttribute =>
                  if existsb (String.eqb (fst na)) (keys cleaned)
                  then [(fst na, tt)] else [])
               attributes)).
    + rewrite Hc at 1. unfold EAVSchema.field_values.
      clear Hc Hval Hv. revert Hmem. generalize (keys cleaned). intros ks Hmem.
      induction attributes as [|[n a] rest IH]; [reflexivity|].
      cbn [flat_map fst snd]. rewrite !keys_app.
      rewrite IH.
      * f_equal. rewrite (Hmem n a (or_introl eq_refl)).
        destruct (attr_validate a (dget d n)) as [v | e | x]; try reflexivity.
        destruct (is_None v); reflexivity.
      * now inversion Hi.
      * intros m b Hin. apply Hmem. now right.
    + clear. induction attributes as [|[n a] rest IH]; [reflexivity|].
      cbn [flat_map fst snd]. rewrite keys_app, IH.
      change (keys ((n, a) :: rest)) with (n :: keys rest).
      cbn [filter].
      destruct (existsb (String.eqb n) (keys cleaned)); reflexivity.
  - rewrite Hc. apply NoDup_keys_flat_map; [| exact Hi].
    intros [n a]. cbn [fst snd].
    destruct (attr_validate a (dget d n)) as [v | e | x]; try now left.
    destruct (is_None v); [now left | right; eexists; reflexivity].
Qed.

Lemma X14_witness :
  let st := fst config_schema in
  let cls := snd config_schema in
  let data := Dict [("count", VInt 2); ("name", VStr "a")] in
  let cleaned := [("name", VStr "a"); ("count", VInt 2)] in
  unique (keys (dicts st (_eav_attributes cls))) = true
  /\ In cleaned (EAVSchema.validate_cross_calls st cls data)
  /\ NoDup (keys cleaned)
  /\ EAVSchema.validate st cls data = Return cleaned.
Proof.
  intros st cls data cleaned.
  assert (Hin : In cleaned (EAVSchema.validate_cross_calls st cls data))
    by (left; reflexivity).
  split; [reflexivity | split; [exact Hin|]].
  destruct (X14_cleaned_in_declaration_order st cls data cleaned eq_refl Hin)
    as (_ & Hnd & Hret).
  split; [exact Hnd | apply Hret; reflexivity].
Defined.

End KeyOrder.

(* ===================================================================== *)
(** ** What [EAVSchemaMeta.__new__] leaves in the class body *)
(* ===================================================================== *)

Lemma inherit_objects (attrs : ref) (bases : list (option ref)) (st : store) :
  forall r, objects (EAVSchemaMeta.inherit st attrs bases) r = objects st r.
Proof.
  unfold EAVSchemaMeta.inherit. revert st.
  induction bases as [|b bases IH]; intros st r; [reflexivity|].
  cbn [fold_left]. now rewrite IH.
Qed.

(** The keys collected by the loop over the class body, and the name that
    a descriptor object has after it. *)
Lemma collect_names (attrs : ref) (namespace : pydict nsvalue) (st : store)
    (names : list string) :
  let '(st', names') :=
    fold_left
      (fun acc kv =>
         let '(st, attr_names) := acc in
         let '(key, value) := kv in
         match value with
         | Attribute r =>
             let st := set_object st r (set_name (objects st r) key) in
             let st := set_dict st attrs (dict_set (dicts st attrs) key r) in
             (st, attr_names ++ [key])
         | NotAttribute => (st, attr_names)
         end)
      namespace (st, names) in
  names' = names ++ keys (own_attributes namespace)
  /\ (forall r k, set_name (objects st' r) k = set_name (objects st r) k)
  /\ (forall pre k r post,
        namespace = pre ++ (k, Attribute r) :: post ->
        (forall k', ~ In (k', Attribute r) post) ->
        objects st' r = set_name (objects st r) k).
Proof.
  revert st names.
  induction namespace as [|[key value] ns IH]; intros st names; cbn [fold_left].
  - split; [now rewrite app_nil_r|]. split; [reflexivity|].
    intros [|? ?] k r post E; discriminate E.
  - destruct value as [r0|].
    + set (st1 := set_dict (set_object st r0 (set_name (objects st r0) key)) attrs _).
      specialize (IH st1 (names ++ [key])).
      pose proof (collect_spec attrs ns st1 (names ++ [key])) as C.
      destruct (fold_left _ ns (st1, names ++ [key])) as [st' names'].
      destruct IH as (H1 & H2 & H3). destruct C as (_ & _ & _ & C4 & _).
      assert (Ho : forall r, objects st1 r
                             = if Nat.eqb r r0 then set_name (objects st r0) key
                               else objects st r) by reflexivity.
      split; [rewrite H1, <- app_assoc; reflexivity|].
      split.
      * intros r k. rewrite H2, Ho.
        destruct (Nat.eqb_spec r r0) as [->|]; reflexivity.
      * intros pre k r post E Hlast.
        destruct pre as [|p pre]; cbn [app] in E.
        -- injection E as -> -> ->.
           rewrite (C4 r Hlast), Ho, Nat.eqb_refl. reflexivity.
        -- injection E as <- ->.
           rewrite (H3 pre k r post eq_refl Hlast), Ho.
           destruct (Nat.eqb_spec r r0) as [->|]; reflexivity.
    + specialize (IH st names).
      destruct (fold_left _ ns (st, names)) as [st' names'].
      destruct IH as (H1 & H2 & H3).
      split; [exact H1|]. split; [exact H2|].
      intros pre k r post E Hlast.
      destruct pre as [|p pre]; cbn [app] in E; [discriminate E|].
      injection E as <- ->. exact (H3 pre k r post eq_refl Hlast).
Qed.

Lemma fold_dict_del_cons {V : Type} (ks : list string) (k : string) (v : V)
    (d : pydict V) :
  ~ In k ks ->
  fold_left (fun ns key => dict_del ns key) ks ((k, v) :: d)
  = (k, v) :: fold_left (fun ns key => dict_del ns key) ks d.
Proof.
  revert d. induction ks as [|k' ks IH]; intros d Hk; [reflexivity|].
  cbn [fold_left dict_del].
  destruct (String.eqb_spec k k') as [->|Hne]; [elim Hk; now left|].
  apply IH. intros Hin. apply Hk. now right.
Qed.

Lemma fold_dict_del_own (namespace : pydict nsvalue) :
  NoDup (keys namespace) ->
  fold_left (fun ns key => dict_del ns key) (keys (own_attributes namespace))
    namespace
  = filter (fun kv => match snd kv with
                      | NotAttribute => true
                      | Attribute _ => false
                      end) namespace.
Proof.
  induction namespace as [|[k v] ns IH]; intros Hnd; [reflexivity|].
  inversion Hnd as [|? ? Hk Hns]; subst.
  destruct v as [r|]; cbn [own_attributes flat_map fst snd filter app keys map].
  - cbn [fold_left dict_del]. rewrite String.eqb_refl. now apply IH.
  - rewrite fold_dict_del_cons; [f_equal; now apply IH|].
    intros Hin. apply Hk. apply keys_own_attributes in Hin as [r Hin].
    apply (in_map fst) in Hin. exact Hin.
Qed.

(** X15.  The class body that [__new__] hands on holds no descriptor any
    more and every other member as before, in the same order: a declared
    name is no attribute of the class. *)
Theorem X15_namespace_without_descriptors :
  forall (st : store) (bases : list (option ref)) (namespace : pydict nsvalue),
    let namespace' := snd (fst (EAVSchemaMeta.__new__ st bases namespace)) in
    unique (keys namespace) = true ->
    namespace'
    = filter (fun kv => match snd kv with
                        | NotAttribute => true
                        | Attribute _ => false
                        end) namespace
    /\ (forall k r, In (k, Attribute r) namespace -> dict_get namespace' k = None)
    /\ (forall k, In (k, NotAttribute) namespace ->
          dict_get namespace' k = Some NotAttribute).
Proof.
  intros st bases namespace namespace' Hu. apply unique_NoDup in Hu.
  assert (E : namespace'
              = filter (fun kv => match snd kv with
                                  | NotAttribute => true
                                  | Attribute _ => false
                                  end) namespace).
  { unfold namespace', EAVSchemaMeta.__new__, new_dict, EAVSchemaMeta.collect.
    set (st1 := EAVSchemaMeta.inherit _ _ bases).
    pose proof (collect_names (next_dict st) namespace st1 []) as C.
    destruct (fold_left _ namespace (st1, [])) as [st2 names].
    destruct C as (C1 & _). cbn [fst snd]. rewrite C1. cbn [app].
    now apply fold_dict_del_own. }
  assert (Hnd : NoDup (keys namespace')).
  { rewrite E. clear E namespace'.
    induction namespace as [|[k v] ns IH]; [constructor|].
    inversion Hu as [|? ? Hk Hns]; subst. cbn [filter snd].
    destruct v; [now apply IH|]. cbn [keys map fst]. constructor; [| now apply IH].
    intros Hin. apply Hk. unfold keys in Hin.
    apply in_map_iff in Hin as (kv & Ek & Hin). apply filter_In in Hin as [Hin _].
    rewrite <- Ek. now apply (in_map fst). }
  split; [exact E | split].
  - intros k r Hin. apply dict_get_None. intros Hk.
    apply dict_get_In in Hk as [v Hv]. apply dict_get_Some_In in Hv.
    rewrite E in Hv. apply filter_In in Hv as [Hv Hf]. cbn [snd] in Hf.
    destruct v as [r'|]; [discriminate|].
    pose proof (NoDup_keys_In_eq namespace k _ _ Hu Hin Hv). discriminate.
  - intros k Hin. apply In_dict_get; [exact Hnd|].
    rewrite E. apply filter_In. now split.
Qed.

Lemma X15_witness :
  let namespace := [("name", Attribute 0%nat); ("helper", NotAttribute);
                    ("count", Attribute 1%nat)] in
  unique (keys namespace) = true
  /\ snd (fst (EAVSchemaMeta.__new__ (initial_store name_objects) [] namespace))
     = [("helper", NotAttribute)].
Proof.
  intros namespace. split; [reflexivity|].
  exact (proj1 (X15_namespace_without_descriptors
                  (initial_store name_objects) [] namespace eq_refl)).
Defined.

(** X16.  A descriptor object carries the last name under which the class
    body binds it.  Bound under two names, it is entered under both, and
    the entry of the first name reports under the second. *)
Theorem X16_descriptor_takes_last_name :
  forall (st : store) (bases : list (option ref))
         (pre post : pydict nsvalue) (k : string) (r : ref)
         (hook : pydict pyval -> result (pydict pyval)),
    let namespace := pre ++ (k, Attribute r) :: post in
    let st' := fst (class_statement st bases namespace hook) in
    let cls := snd (class_statement st bases namespace hook) in
    (forall k', ~ In (k', Attribute r) post) ->
    objects st' r = set_name (objects st r) k
    /\ (forall k0, In (k0, Attribute r) namespace -> unique (keys namespace) = true ->
          (forall b, In (Some b) bases -> (b < next_dict st)%nat) ->
          dict_get (EAVSchema.items st' cls) k0 = Some (set_name (objects st r) k)).
Proof.
  intros st bases pre post k r hook namespace st' cls Hlast.
  assert (Ho : objects st' r = set_name (objects st r) k).
  { unfold st', class_statement, EAVSchemaMeta.__new__, new_dict,
      EAVSchemaMeta.collect.
    set (st0 := {| objects := objects st; dicts := _; next_dict := _ |}).
    pose proof (inherit_objects (next_dict st) bases st0 r) as I.
    set (st1 := EAVSchemaMeta.inherit st0 (next_dict st) bases) in *.
    pose proof (collect_names (next_dict st) namespace st1 []) as C.
    destruct (fold_left _ namespace (st1, [])) as [st2 names].
    destruct C as (_ & _ & C3). cbn [fst].
    rewrite (C3 pre k r post eq_refl Hlast), I. reflexivity. }
  split; [exact Ho|].
  intros k0 Hin Hu Halloc.
  rewrite dict_get_items.
  destruct (new_spec st bases namespace Halloc) as (_ & _ & _ & Hd & _).
  assert (Hcls : dicts st' (_eav_attributes cls)
                 = merged_attributes st bases namespace).
  { unfold st', cls, class_statement.
    destruct (EAVSchemaMeta.__new__ st bases namespace) as [[st2 ns2] attrs].
    exact Hd. }
  rewrite Hcls. unfold merged_attributes.
  apply unique_NoDup in Hu.
  rewrite dict_get_update by now apply NoDup_keys_own_attributes.
  assert (Hown : dict_get (own_attributes namespace) k0 = Some r)
    by (apply dict_get_own_attributes; assumption).
  rewrite Hown. cbn [option_map]. now rewrite Ho.
Qed.

(** [a = b = EAVString()]: the entry of [a] reports under the name [b]. *)
Lemma X16_witness :
  let namespace := [("a", Attribute 0%nat); ("b", Attribute 0%nat)] in
  let st := initial_store name_objects in
  let st' := fst (class_statement st [] namespace EAVSchema.no_validate_cross) in
  let cls := snd (class_statement st [] namespace EAVSchema.no_validate_cross) in
  (forall k', ~ In (k', Attribute 0%nat) (@nil (string * nsvalue)))
  /\ name (objects st' 0%nat) = "b"
  /\ EAVSchema.validate st' cls (Dict [("b", VStr "x")])
     = RaiseValidationError (ErrorDict [("a", ["b is required."])]).
Proof.
  intros namespace st st' cls.
  assert (H : forall k', ~ In (k', Attribute 0%nat) (@nil (string * nsvalue)))
    by (intros k' []).
  split; [exact H | split; [| reflexivity]].
  exact (f_equal name
           (proj1 (X16_descriptor_takes_last_name st []
                     [("a", Attribute 0%nat)] [] "b" 0%nat
                     EAVSchema.no_validate_cross H))).
Defined.

(* ===================================================================== *)
(** ** The model field *)
(* ===================================================================== *)

Lemma rsplit_dot_no_dot (s : string) : no_dot s = true -> rsplit_dot s = None.
Proof.
  induction s as [|c s IH]; [reflexivity|].
  cbn [no_dot rsplit_dot]. intros H. apply andb_true_iff in H as [Hc Hs].
  rewrite (IH Hs). apply negb_true_iff in Hc. now rewrite Hc.
Qed.

Lemma rsplit_dot_last (head tail : string) :
  no_dot tail = true ->
  rsplit_dot (head ++ String "."%char tail) = Some (head, tail).
Proof.
  intros Ht. induction head as [|c head IH].
  - cbn [String.append rsplit_dot]. rewrite (rsplit_dot_no_dot tail Ht).
    reflexivity.
  - cbn [String.append rsplit_dot]. now rewrite IH.
Qed.

Lemma schema_to_path_class (c : schema_class) :
  _schema_to_path (SchemaClass c)
  = (__module__ c ++ String "."%char (__qualname__ c))%string.
Proof. reflexivity. Qed.

Lemma string_app_assoc (a b c : string) :
  ((a ++ b) ++ c)%string = (a ++ (b ++ c))%string.
Proof. induction a as [|x a IH]; simpl; [reflexivity | now rewrite IH]. Qed.

Lemma resolve_importable (import_module : importlib) (c : schema_class) :
  importable import_module c ->
  _resolve_schema_class import_module (SchemaPath (_schema_to_path (SchemaClass c)))
  = Ok c.
Proof.
  intros (Hq & module & Him & Hget).
  unfold _resolve_schema_class, rpartition.
  rewrite schema_to_path_class, (rsplit_dot_last _ _ Hq), Him.
  unfold getattr. now rewrite Hget.
Qed.

(** X17.  The path that [_schema_to_path] gives for a class is read back
    by [_resolve_schema_class] as module [__module__] and name
    [__qualname__] when the qualified name has no dot, and then resolves to
    the class if that module binds that name to it.  For a nested class,
    whose qualified name has a dot, the path is cut at its last dot: the
    module imported is [__module__] followed by the outer names, not
    [__module__].  A path is its own path. *)
Theorem X17_path_round_trip :
  forall (import_module : importlib) (c : schema_class),
    (no_dot (__qualname__ c) = true ->
     rpartition (_schema_to_path (SchemaClass c))
     = (__module__ c, ".", __qualname__ c))
    /\ (importable import_module c ->
        _resolve_schema_class import_module
          (SchemaPath (_schema_to_path (SchemaClass c)))
        = Ok c)
    /\ (forall outer inner,
          __qualname__ c = (outer ++ String "."%char inner)%string ->
          no_dot inner = true ->
          rpartition (_schema_to_path (SchemaClass c))
          = ((__module__ c ++ String "."%char outer)%string, ".", inner)
          /\ _resolve_schema_class import_module
               (SchemaPath (_schema_to_path (SchemaClass c)))
             = match import_module (__module__ c ++ String "."%char outer)%string with
               | Ok module => getattr module inner
               | Invalid e => Invalid e
               | Fails x => Fails x
               end)
    /\ (forall p, _schema_to_path (SchemaPath p) = p).
Proof.
  intros import_module c. split; [| split; [| split]].
  - intros Hq. unfold rpartition.
    now rewrite schema_to_path_class, (rsplit_dot_last _ _ Hq).
  - apply resolve_importable.
  - intros outer inner Hq Hin.
    assert (E : rsplit_dot (_schema_to_path (SchemaClass c))
                = Some ((__module__ c ++ String "."%char outer)%string, inner)).
    { rewrite schema_to_path_class, Hq.
      change (String "."%char (outer ++ String "."%char inner))%string
        with (String "."%char outer ++ String "."%char inner)%string.
      rewrite <- string_app_assoc.
      now apply rsplit_dot_last. }
    unfold _resolve_schema_class, rpartition. rewrite E. split; reflexivity.
  - reflexivity.
Qed.

Lemma X17_witness :
  importable app_modules config_class
  /\ _schema_to_path (SchemaClass config_class) = "app.schemas.Config"
  /\ _resolve_schema_class app_modules (SchemaPath "app.schemas.Config")
     = Ok config_class.
Proof.
  assert (H : importable app_modules config_class).
  { split; [reflexivity|]. exists [("Config", config_class)]. split; reflexivity. }
  split; [exact H | split; [reflexivity|]].
  exact (proj1 (proj2 (X17_path_round_trip app_modules config_class)) H).
Defined.

Section Field.

Local Abbreviation to_paths :=
  (map (fun kv : string * schema_ref => (fst kv, _schema_to_path (snd kv)))).
Local Abbreviation of_paths :=
  (map (fun kv : string * string => (fst kv, SchemaPath (snd kv)))).

Lemma init_Ok (super : JSONField) (s : option schema_ref)
    (m : option (pydict schema_ref)) (k : option string) (f : EAVField) :
  EAVField.__init__ super s m k = Ok f ->
  EAVField.schema_true s && EAVField.schema_map_true m = false
  /\ EAVField.schema_map_true m && negb (EAVField.key_field_true k) = false
  /\ super_init super = Ok tt
  /\ f = {| schema := s; schema_map := m; schema_key_field := k;
            json_field := super |}.
Proof.
  unfold EAVField.__init__.
  destruct (EAVField.schema_true s && EAVField.schema_map_true m);
    [discriminate|].
  destruct (EAVField.schema_map_true m && negb (EAVField.key_field_true k));
    [discriminate|].
  destruct (super_init super) as [[] | e | x]; try discriminate.
  intros [= <-]. repeat split.
Qed.

Lemma path_not_empty (c : schema_class) :
  String.eqb (_schema_to_path (SchemaClass c)) "" = false.
Proof.
  rewrite schema_to_path_class. destruct (__module__ c); reflexivity.
Qed.

Lemma schema_true_paths (s : option schema_ref) :
  EAVField.schema_true (option_map SchemaPath (option_map _schema_to_path s))
  = EAVField.schema_true s.
Proof.
  destruct s as [[c | p]|]; try reflexivity.
  cbn [option_map EAVField.schema_true]. now rewrite path_not_empty.
Qed.

Lemma schema_map_true_paths (m : option (pydict schema_ref)) :
  EAVField.schema_map_true (option_map of_paths (option_map to_paths m))
  = EAVField.schema_map_true m.
Proof. destruct m as [[|? ?]|]; reflexivity. Qed.

Lemma to_paths_of_paths (m : pydict schema_ref) :
  to_paths (of_paths (to_paths m)) = to_paths m.
Proof.
  rewrite !map_map. apply map_ext. intros [k r]. reflexivity.
Qed.

(** X18.  The keyword arguments of [deconstruct] give the field back: the
    constructor accepts them whenever it accepted the original arguments,
    the field it makes refers to its schemas by path only, has the same key
    field and the same keys in its map, and deconstructs to the same
    keyword arguments. *)
Theorem X18_deconstruct_reconstruct :
  forall (super : JSONField) (s : option schema_ref)
         (m : option (pydict schema_ref)) (k : option string) (f : EAVField),
    EAVField.__init__ super s m k = Ok f ->
    exists f',
      EAVField.reconstruct super (EAVField.deconstruct f) = Ok f'
      /\ EAVField.deconstruct f' = EAVField.deconstruct f
      /\ schema_key_field f' = schema_key_field f
      /\ option_map keys (schema_map f') = option_map keys (schema_map f)
      /\ (forall r, In r (field_refs f') -> exists p, r = SchemaPath p).
Proof.
  intros super s m k f Hf.
  destruct (init_Ok super s m k f Hf) as (H1 & H2 & H3 & ->).
  exists {| schema := option_map SchemaPath (option_map _schema_to_path s);
            schema_map := option_map of_paths (option_map to_paths m);
            schema_key_field := k; json_field := super |}.
  split; [| split; [| split; [reflexivity | split]]].
  - unfold EAVField.reconstruct, EAVField.deconstruct, EAVField.__init__.
    cbn [kw_schema kw_schema_map kw_schema_key_field schema schema_map
           schema_key_field].
    rewrite schema_true_paths, schema_map_true_paths, H1, H2, H3. reflexivity.
  - unfold EAVField.deconstruct.
    cbn [schema schema_map schema_key_field]. f_equal.
    + destruct s as [[c | p]|]; reflexivity.
    + destruct m as [m|]; [| reflexivity]. cbn [option_map]. f_equal.
      apply to_paths_of_paths.
  - cbn [schema_map]. destruct m as [m|]; [| reflexivity]. cbn [option_map].
    f_equal. unfold keys. rewrite !map_map. apply map_ext. now intros [k0 r].
  - intros r Hr. unfold field_refs in Hr. cbn [schema schema_map] in Hr.
    apply in_app_or in Hr as [Hr | Hr].
    + destruct s as [s|]; [| contradiction]. destruct Hr as [<- | []].
      eexists. reflexivity.
    + destruct m as [m|]; [| contradiction]. cbn [option_map] in Hr.
      rewrite !map_map in Hr. apply in_map_iff in Hr as ([k0 r0] & <- & _).
      eexists. reflexivity.
Qed.

Lemma X18_witness :
  let f := {| schema := None;
              schema_map := Some [("a", SchemaClass config_class)];
              schema_key_field := Some "config_type";
              json_field := plain_json_field |} in
  EAVField.__init__ plain_json_field None
    (Some [("a", SchemaClass config_class)]) (Some "config_type") = Ok f
  /\ exists f',
       EAVField.reconstruct plain_json_field (EAVField.deconstruct f) = Ok f'
       /\ EAVField.deconstruct f' = EAVField.deconstruct f.
Proof.
  intros f. split; [reflexivity|].
  destruct (X18_deconstruct_reconstruct plain_json_field None
              (Some [("a", SchemaClass config_class)]) (Some "config_type") f
              eq_refl) as (f' & H1 & H2 & _).
  exists f'. split; [exact H1 | exact H2].
Defined.

Lemma resolve_path_of (import_module : importlib) (r : schema_ref) :
  (forall c, r = SchemaClass c -> importable import_module c) ->
  _resolve_schema_class import_module (SchemaPath (_schema_to_path r))
  = _resolve_schema_class import_module r.
Proof.
  intros H. destruct r as [c | p]; [| reflexivity].
  rewrite (resolve_importable import_module c (H c eq_refl)). reflexivity.
Qed.

Lemma dict_get_map_values {V W : Type} (g : V -> W) (d : pydict V) (k : string) :
  dict_get (map (fun kv => (fst kv, g (snd kv))) d) k
  = option_map g (dict_get d k).
Proof.
  induction d as [|[k' v] d IH]; [reflexivity|].
  cbn [map dict_get fst snd]. destruct (String.eqb k' k); [reflexivity | exact IH].
Qed.

(** X19.  When every class a field refers to can be imported under its
    path, the field made from the keyword arguments of [deconstruct]
    validates as the original does: same outcome for every value and every
    model instance. *)
Theorem X19_reconstructed_field_validates_alike :
  forall (import_module : importlib) (st : store) (f f' : EAVField),
    (forall c, In (SchemaClass c) (field_refs f) -> importable import_module c) ->
    EAVField.reconstruct (json_field f) (EAVField.deconstruct f) = Ok f' ->
    forall (value : pydata) (instance : model_instance),
      EAVField.validate import_module st f' value instance
      = EAVField.validate import_module st f value instance.
Proof.
  intros import_module st f f' Himp Hf' value instance.
  unfold EAVField.reconstruct in Hf'.
  destruct (init_Ok _ _ _ _ _ Hf') as (_ & _ & _ & ->).
  destruct f as [s m k super]. unfold field_refs in Himp.
  cbn [schema schema_map schema_key_field json_field EAVField.deconstruct
         kw_schema kw_schema_map kw_schema_key_field] in *.
  unfold EAVField.validate. cbn [json_field].
  destruct (super_validate super value instance) as [[] | e | x];
    try reflexivity.
  destruct value as [d | v]; [| reflexivity].
  replace (EAVField._resolve_schema import_module
             {| schema := option_map SchemaPath (option_map _schema_to_path s);
                schema_map := option_map of_paths (option_map to_paths m);
                schema_key_field := k; json_field := super |} instance)
    with (EAVField._resolve_schema import_module
            {| schema := s; schema_map := m; schema_key_field := k;
               json_field := super |} instance); [reflexivity|].
  unfold EAVField._resolve_schema. cbn [schema schema_map schema_key_field].
  destruct s as [r|]; cbn [option_map].
  - rewrite resolve_path_of; [reflexivity|].
    intros c ->. apply Himp. now left.
  - destruct m as [m|]; [| reflexivity]. cbn [option_map].
    destruct k as [field|]; [| reflexivity].
    destruct (EAVField.key_value instance field) as [key|]; [| reflexivity].
    rewrite map_map. cbn [fst snd].
    rewrite (dict_get_map_values (fun r => SchemaPath (_schema_to_path r)) m key).
    destruct (dict_get m key) as [r|] eqn:E; [| reflexivity]. cbn [option_map].
    rewrite resolve_path_of; [reflexivity|].
    intros c ->. apply Himp. cbn [app].
    apply dict_get_Some_In in E. apply (in_map snd) in E. exact E.
Qed.

Lemma X19_witness :
  let f := {| schema := Some (SchemaClass config_class); schema_map := None;
              schema_key_field := None; json_field := plain_json_field |} in
  let f' := {| schema := Some (SchemaPath "app.schemas.Config");
               schema_map := None; schema_key_field := None;
               json_field := plain_json_field |} in
  (forall c, In (SchemaClass c) (field_refs f) -> importable app_modules c)
  /\ EAVField.reconstruct (json_field f) (EAVField.deconstruct f) = Ok f'
  /\ EAVField.validate app_modules (fst config_schema) f'
       (Dict [("name", VInt 1)]) []
     = Invalid (ErrorDict [("name", ["name must be a string."]);
                           ("count", ["count is required."])]).
Proof.
  intros f f'.
  assert (H : forall c, In (SchemaClass c) (field_refs f) ->
                        importable app_modules c).
  { intros c [E | []]. injection E as <-.
    split; [reflexivity|]. exists [("Config", config_class)]. split; reflexivity. }
  split; [exact H | split; [reflexivity|]].
  exact (eq_trans
           (X19_reconstructed_field_validates_alike app_modules
              (fst config_schema) f f' H eq_refl (Dict [("name", VInt 1)]) [])
           eq_refl).
Defined.

(** X20.  When the inherited validation passes: a value that is not a dict
    is accepted without a look at the schema, though every schema rejects
    it when it is not None; a field without [schema] accepts every dict
    when the key field of the instance is None, is missing, or holds a key
    that is not in [schema_map]; and a field whose schema is found accepts a
    dict exactly when that schema does, and raises the error of the schema
    otherwise. *)
Theorem X20_field_validation_gate :
  forall (import_module : importlib) (st : store) (self : EAVField)
         (instance : model_instance),
    (forall value, super_validate (json_field self) value instance = Ok tt) ->
    (forall v,
       EAVField.validate import_module st self (NotDict v) instance = Ok tt
       /\ (v <> VNone -> forall cls,
             EAVSchema.validate st cls (NotDict v)
             = RaiseValidationError
                 (ErrorDict [("__all__", ["Config must be a dict."])])))
    /\ (schema self = None ->
        (forall map field key,
           schema_map self = Some map -> schema_key_field self = Some field ->
           EAVField.key_value instance field = Some key ->
           dict_get map key = None) ->
        forall d, EAVField.validate import_module st self (Dict d) instance = Ok tt)
    /\ (forall c d,
          EAVField._resolve_schema import_module self instance = Ok (Some c) ->
          (EAVField.validate import_module st self (Dict d) instance = Ok tt <->
           exists cleaned,
             EAVSchema.validate st (schema_of c) (Dict d) = Return cleaned)
          /\ (forall e,
                EAVField.validate import_module st self (Dict d) instance
                = Invalid e <->
                EAVSchema.validate st (schema_of c) (Dict d)
                = RaiseValidationError e))
    /\ (forall c, schema self = Some (SchemaClass c) ->
          EAVField._resolve_schema import_module self instance = Ok (Some c))
    /\ (forall map field key c,
          schema self = None -> schema_map self = Some map ->
          schema_key_field self = Some field ->
          EAVField.key_value instance field = Some key ->
          dict_get map key = Some (SchemaClass c) ->
          EAVField._resolve_schema import_module self instance = Ok (Some c)).
Proof.
  intros import_module st self instance Hsuper.
  split; [| split; [| split; [| split]]].
  - intros v. split.
    + unfold EAVField.validate. now rewrite Hsuper.
    + intros Hv cls. unfold EAVSchema.validate, EAVSchema.validate_traced.
      destruct v; congruence || reflexivity.
  - intros Hs Hoff d. unfold EAVField.validate. rewrite Hsuper.
    unfold EAVField._resolve_schema. rewrite Hs.
    destruct (schema_map self) as [map|]; [| reflexivity].
    destruct (schema_key_field self) as [field|]; [| reflexivity].
    destruct (EAVField.key_value instance field) as [key|] eqn:Hkey;
      [| reflexivity].
    now rewrite (Hoff map field key eq_refl eq_refl Hkey).
  - intros c d Hres. unfold EAVField.validate. rewrite Hsuper, Hres.
    unfold EAVField.schema_validate.
    destruct (EAVSchema.validate st (schema_of c) (Dict d)) as [cl | e' | x].
    + split; [split; [intros _; now exists cl | reflexivity]|].
      intros e. split; discriminate.
    + split; [split; [discriminate | intros [cl' H]; discriminate]|].
      intros e. split; intros [= ->]; reflexivity.
    + split; [split; [discriminate | intros [cl' H]; discriminate]|].
      intros e. split; discriminate.
  - intros c Hs. unfold EAVField._resolve_schema. now rewrite Hs.
  - intros map field key c Hs Hm Hk Hkey Hget.
    unfold EAVField._resolve_schema. now rewrite Hs, Hm, Hk, Hkey, Hget.
Qed.

(** A key that is not in the map: anything goes. *)
Lemma X20_witness :
  let self := {| schema := None;
                 schema_map := Some [("a", SchemaClass config_class)];
                 schema_key_field := Some "config_type";
                 json_field := plain_json_field |} in
  let instance := [("config_type", Some "unknown_type")] in
  (forall value, super_validate (json_field self) value instance = Ok tt)
  /\ EAVField.validate app_modules (fst config_schema) self
       (Dict [("anything", VStr "goes")]) instance = Ok tt
  /\ EAVField.validate app_modules (fst config_schema) self
       (Dict [("anything", VStr "goes")]) [("config_type", Some "a")]
     = Invalid (ErrorDict [("anything", ["Unknown config key: anything."]);
                           ("name", ["name is required."]);
                           ("count", ["count is required."])]).
Proof.
  intros self instance.
  assert (H : forall value, super_validate (json_field self) value instance = Ok tt)
    by reflexivity.
  split; [exact H | split; [| reflexivity]].
  apply (proj1 (proj2 (X20_field_validation_gate app_modules (fst config_schema)
                         self instance H)));
    [reflexivity|].
  intros map field key [= <-] [= <-] [= <-]. reflexivity.
Defined.

End Field.

(* ===================================================================== *)
(** ** Decimal bounds compare values *)
(* ===================================================================== *)

(** The value of a finite Decimal in units of [10^l], for an [l] that is
    at most its exponent. *)
Lemma scaled_lower (s : bool) (c : N) (e m l : Z) :
  l <= m -> m <= e ->
  PyDecimal.scaled s c e l = PyDecimal.scaled s c e m * 10 ^ (m - l).
Proof.
  intros Hl Hm. unfold PyDecimal.scaled.
  replace (e - l) with ((e - m) + (m - l)) by lia.
  rewrite Z.pow_add_r by lia. ring.
Qed.

Lemma cmp_scaled (sa sb : bool) (ca cb : N) (ea eb l : Z) :
  l <= ea -> l <= eb ->
  PyDecimal.cmp (PyDecimal.Finite sa ca ea) (PyDecimal.Finite sb cb eb)
  = Z.compare (PyDecimal.scaled sa ca ea l) (PyDecimal.scaled sb cb eb l).
Proof.
  intros Ha Hb. cbn [PyDecimal.cmp].
  set (m := Z.min ea eb).
  rewrite (scaled_lower sa ca ea m l), (scaled_lower sb cb eb m l) by lia.
  assert (Hk : 0 < 10 ^ (m - l)) by (apply Z.pow_pos_nonneg; lia).
  generalize dependent (10 ^ (m - l)). intros k Hk.
  destruct (Z.compare_spec (PyDecimal.scaled sa ca ea m)
              (PyDecimal.scaled sb cb eb m)) as [E | L | G];
    symmetry.
  - rewrite E. apply Z.compare_refl.
  - apply Z.compare_lt_iff. nia.
  - apply Z.compare_gt_iff. nia.
Qed.

Lemma cmp_equal_values (sa sb sc : bool) (ca cb cc : N) (ea eb ec : Z) :
  PyDecimal.cmp (PyDecimal.Finite sa ca ea) (PyDecimal.Finite sb cb eb) = Eq ->
  PyDecimal.cmp (PyDecimal.Finite sa ca ea) (PyDecimal.Finite sc cc ec)
  = PyDecimal.cmp (PyDecimal.Finite sb cb eb) (PyDecimal.Finite sc cc ec)
  /\ PyDecimal.cmp (PyDecimal.Finite sc cc ec) (PyDecimal.Finite sa ca ea)
     = PyDecimal.cmp (PyDecimal.Finite sc cc ec) (PyDecimal.Finite sb cb eb).
Proof.
  set (l := Z.min ea (Z.min eb ec)).
  rewrite (cmp_scaled sa sb ca cb ea eb l) by lia.
  rewrite (cmp_scaled sa sc ca cc ea ec l), (cmp_scaled sb sc cb cc eb ec l),
    (cmp_scaled sc sa cc ca ec ea l), (cmp_scaled sc sb cc cb ec eb l) by lia.
  intros E. apply Z.compare_eq in E. now rewrite E.
Qed.

Lemma lt_equal_values (x x' m : PyDecimal.Decimal) :
  (exists s c e, x = PyDecimal.Finite s c e) ->
  (exists s c e, x' = PyDecimal.Finite s c e) ->
  PyDecimal.eq x x' = Return true ->
  PyDecimal.lt x m = PyDecimal.lt x' m /\ PyDecimal.lt m x = PyDecimal.lt m x'.
Proof.
  intros (s & c & e & ->) (s' & c' & e' & ->) Heq.
  unfold PyDecimal.eq in Heq. cbn [PyDecimal.is_snan PyDecimal.is_nan orb] in Heq.
  assert (E : PyDecimal.cmp (PyDecimal.Finite s c e) (PyDecimal.Finite s' c' e') = Eq).
  { destruct (PyDecimal.cmp _ _); [reflexivity | discriminate | discriminate]. }
  unfold PyDecimal.lt. cbn [PyDecimal.is_nan orb].
  destruct m as [sm cm em | sm | sm sig p]; cbn [PyDecimal.is_nan orb].
  - destruct (cmp_equal_values s s' sm c c' cm e e' em E) as [-> ->].
    split; reflexivity.
  - split; reflexivity.
  - split; reflexivity.
Qed.

Section DecimalBounds.

Local Abbreviation validate := (EAVAttribute.validate).

(** X21.  The bounds of a Decimal descriptor compare values, not texts:
    with bounds only, two finite decimals that are equal, such as 1.5 and
    1.50, are both accepted, each returned as it is, or both rejected with
    the same message. *)
Theorem X21_decimal_bounds_by_value :
  forall (self : EAVAttribute) (mn mx : option PyDecimal.Decimal)
         (x x' : PyDecimal.Decimal),
    kind self = EAVDecimal None None mn mx None ->
    (exists s c e, x = PyDecimal.Finite s c e) ->
    (exists s c e, x' = PyDecimal.Finite s c e) ->
    PyDecimal.eq x x' = Return true ->
    validate self (VDecimal x)
    = match validate self (VDecimal x') with
      | Return _ => Return (VDecimal x)
      | RaiseValidationError e => RaiseValidationError e
      | Raise y => Raise y
      end.
Proof.
  intros [n r dflt h k] mn mx x x' Hk Hx Hx' Heq. simpl in Hk. subst k.
  unfold EAVAttribute.validate, EAVAttribute._coerce,
    EAVAttribute._check_constraints, EAVAttribute.choices_reprs.
  cbn [kind bind EAVDecimal._coerce option_map].
  unfold EAVDecimal._check_constraints, PyDecimal.gt.
  destruct mn as [m|].
  - rewrite (proj1 (lt_equal_values x x' m Hx Hx' Heq)).
    destruct (PyDecimal.lt x' m) as [[|] | e | y]; cbn [bind]; try reflexivity.
    destruct mx as [m'|]; cbn [bind]; [| reflexivity].
    rewrite (proj2 (lt_equal_values x x' m' Hx Hx' Heq)).
    destruct (PyDecimal.lt m' x') as [[|] | e | y]; reflexivity.
  - cbn [bind]. destruct mx as [m'|]; cbn [bind]; [| reflexivity].
    rewrite (proj2 (lt_equal_values x x' m' Hx Hx' Heq)).
    destruct (PyDecimal.lt m' x') as [[|] | e | y]; reflexivity.
Qed.

(** 1.50 against the bound 1.5. *)
Lemma X21_witness :
  let self := {| name := "rate"; required := true; default := VNone;
                 help_text := "";
                 kind := EAVDecimal None None None (Some one_point_5) None |} in
  kind self = EAVDecimal None None None (Some one_point_5) None
  /\ PyDecimal.eq one_point_50 one_point_5 = Return true
  /\ validate self (VDecimal one_point_50) = Return (VDecimal one_point_50).
Proof.
  intros self. split; [reflexivity | split; [reflexivity|]].
  refine (eq_trans
            (X21_decimal_bounds_by_value self None (Some one_point_5)
               one_point_50 one_point_5 eq_refl _ _ eq_refl)
            eq_refl).
  - exists false, 150%N, (-2). reflexivity.
  - exists false, 15%N, (-1). reflexivity.
Defined.

End DecimalBounds.

(* ===================================================================== *)
(** ** None and absence at the interface of [validate] *)
(* ===================================================================== *)

Section NoneIsAbsent.

Local Abbreviation attr_validate := (EAVAttribute.validate).
Local Abbreviation to_json := (EAVAttribute.to_json).
Local Abbreviation field_errors := (EAVSchema.field_errors).
Local Abbreviation field_values := (EAVSchema.field_values).
Local Abbreviation no_exception := (EAVSchema.no_exception).
Local Abbreviation validate_traced := (EAVSchema.validate_traced).
Local Abbreviation validate := (EAVSchema.validate).
Local Abbreviation validate_cross_calls := (EAVSchema.validate_cross_calls).

Lemma dict_get_field_errors (attributes : list (string * EAVAttribute))
    (d : pydict pyval) (n : string) (a : EAVAttribute) :
  NoDup (keys attributes) -> In (n, a) attributes ->
  dict_get (field_errors attributes d) n
  = match attr_validate a (dget d n) with
    | RaiseValidationError (ErrorList messages) => Some messages
    | _ => None
    end.
Proof.
  intros Hn Hin.
  assert (Hnone : (forall messages,
                     attr_validate a (dget d n)
                     <> RaiseValidationError (ErrorList messages)) ->
                  dict_get (field_errors attributes d) n = None).
  { intros Hno. apply dict_get_None. intros Hk.
    apply dict_get_In in Hk as [messages Hm]. apply dict_get_Some_In in Hm.
    apply field_errors_In in Hm as (a' & Ha' & Hv).
    assert (a' = a) by (eapply NoDup_keys_In_eq; eauto). subst a'.
    exact (Hno messages Hv). }
  destruct (attr_validate a (dget d n)) as [v | [messages | md] | x] eqn:E;
    try (apply Hnone; intros m; discriminate).
  apply In_dict_get; [now apply NoDup_keys_field_errors|].
  unfold EAVSchema.field_errors. apply in_flat_map. exists (n, a).
  split; [exact Hin|]. cbn [fst snd]. rewrite E. now left.
Qed.

Lemma dict_get_unknown_errors_declared (known : list string) (d : pydict pyval)
    (k : string) :
  In k known ->
  dict_get (EAVSchema.unknown_errors (EAVSchema.unknown_keys known d)) k = None.
Proof.
  intros Hk. apply dict_get_None. intros Hin.
  apply (proj1 (keys_unknown_errors _ _)) in Hin.
  apply (proj1 (unknown_keys_In _ _ _)) in Hin. tauto.
Qed.

(** C10.  Binding a declared name that is missing from the input to None
    changes nothing: same hook calls, same outcome.  A None value is not
    coerced: the descriptor raises the required error when the attribute is
    required and has no default, and returns the default otherwise.  At
    [validate]: for a name that is required and has no default the hook is
    not called, no dict is returned, and a ValidationError raised is the
    report, which holds the required message under that name (it is raised
    whenever no descriptor raises another exception); otherwise the dict
    handed to the hook holds the default in JSON form under that name, or
    no entry when there is no default, and the report holds nothing under
    that name. *)
Theorem C10_none_is_absent :
  forall (st : store) (cls : EAVSchema) (d : pydict pyval) (k : string),
    let attributes := EAVSchema.items st cls in
    let data := Dict (dict_set d k VNone) in
    let report :=
      EAVSchema.unknown_errors (EAVSchema.unknown_keys (keys attributes) d)
        ++ field_errors attributes d in
    In k (keys (dicts st (_eav_attributes cls))) ->
    ~ In k (keys d) ->
    validate_traced st cls data = validate_traced st cls (Dict d)
    /\ validate st cls data = validate st cls (Dict d)
    /\ (forall a : EAVAttribute,
          attr_validate a (dget (dict_set d k VNone) k) = attr_validate a (dget d k)
          /\ attr_validate a VNone
             = if required a && is_None (default a)
               then RaiseValidationError
                      (ErrorList [(name a ++ " is required.")%string])
               else Return (default a))
    /\ (unique (keys (dicts st (_eav_attributes cls))) = true ->
        forall a : EAVAttribute, In (k, a) attributes ->
          (required a && is_None (default a) = true ->
           validate_cross_calls st cls data = []
           /\ (forall out, validate st cls data <> Return out)
           /\ dict_get report k = Some [(name a ++ " is required.")%string]
           /\ (forall e, validate st cls data = RaiseValidationError e ->
                 e = ErrorDict report)
           /\ (no_exception attributes d = true ->
               validate st cls data = RaiseValidationError (ErrorDict report)))
          /\ (required a && is_None (default a) = false ->
              dict_get report k = None
              /\ (forall cleaned, In cleaned (validate_cross_calls st cls data) ->
                    dict_get cleaned k
                    = if is_None (default a) then None
                      else Some (to_json a (default a)))
              /\ (no_exception attributes d = true -> report = [] ->
                  validate_traced st cls data
                  = ([field_values attributes d],
                     validate_cross cls (field_values attributes d))
                  /\ dict_get (field_values attributes d) k
                     = if is_None (default a) then None
                       else Some (to_json a (default a))))).
Proof.
  intros st cls d k attributes data report Hk Hd.
  assert (Hget : forall n, dget (dict_set d k VNone) n = dget d n).
  { intros n. unfold dget. rewrite (dict_set_fresh d k VNone Hd), dict_get_app.
    destruct (dict_get d n) as [w|] eqn:E; [reflexivity|].
    simpl. destruct (String.eqb_spec k n) as [<-|]; reflexivity. }
  assert (Hunk : EAVSchema.unknown_keys (keys (dicts st (_eav_attributes cls)))
                   (dict_set d k VNone)
                 = EAVSchema.unknown_keys (keys (dicts st (_eav_attributes cls))) d).
  { unfold EAVSchema.unknown_keys, keys.
    rewrite (dict_set_fresh d k VNone Hd), map_app, filter_app. simpl.
    pose proof (proj2 (existsb_eqb_In k _) Hk) as Hk'.
    unfold keys in Hk'. rewrite Hk'. simpl.
    apply app_nil_r. }
  assert (Ht : validate_traced st cls data = validate_traced st cls (Dict d)).
  { unfold data, EAVSchema.validate_traced. rewrite Hunk.
    rewrite (validate_attributes_ext _ d (dict_set d k VNone));
      [reflexivity | intros n _; apply Hget]. }
  assert (Hv : validate st cls data = validate st cls (Dict d))
    by (unfold EAVSchema.validate; now rewrite Ht).
  assert (Hc : validate_cross_calls st cls data = validate_cross_calls st cls (Dict d))
    by (unfold EAVSchema.validate_cross_calls; now rewrite Ht).
  split; [exact Ht | split; [exact Hv | split]].
  { intros a. split; [now rewrite Hget | reflexivity]. }
  intros Hu a Hin. apply unique_NoDup in Hu.
  assert (Hi : NoDup (keys attributes))
    by (unfold attributes; now rewrite keys_items).
  assert (Hnone : dget d k = VNone) by (now apply dget_missing).
  assert (Hdecl : In k (keys attributes))
    by (unfold attributes; now rewrite keys_items).
  assert (Hrep : dict_get report k = dict_get (field_errors attributes d) k).
  { unfold report. rewrite dict_get_app.
    now rewrite (dict_get_unknown_errors_declared _ d k Hdecl). }
  rewrite (dict_get_field_errors attributes d k a Hi Hin), Hnone in Hrep.
  assert (Hraise : forall e, validate st cls (Dict d) = RaiseValidationError e ->
            validate_cross_calls st cls (Dict d) = [] ->
            e = ErrorDict report).
  { intros e He Hcalls.
    unfold EAVSchema.validate in He. unfold EAVSchema.validate_cross_calls in Hcalls.
    destruct (validate_attributes_cases attributes d
                (EAVSchema.unknown_errors
                   (EAVSchema.unknown_keys (keys attributes) d)) [])
      as [(r & Hr & Hx) | (x & Hr & _)].
    - rewrite (validate_traced_dict st cls d Hu Hx) in He, Hcalls.
      fold attributes in He, Hcalls. fold report in He, Hcalls.
      destruct report; [discriminate Hcalls|].
      cbn [snd] in He. now injection He as <-.
    - unfold EAVSchema.validate_traced in He. rewrite <- keys_items in He.
      fold attributes in He. rewrite Hr in He. discriminate He. }
  split.
  - intros Hreq.
    assert (Hva : attr_validate a VNone
                  = RaiseValidationError
                      (ErrorList [(name a ++ " is required.")%string]))
      by (unfold EAVAttribute.validate; now rewrite Hreq).
    rewrite Hva in Hrep.
    assert (Hcalls : validate_cross_calls st cls (Dict d) = []).
    { destruct (validate_cross_calls st cls (Dict d)) as [|cleaned l] eqn:E;
        [reflexivity | exfalso].
      assert (Hcl : In cleaned (validate_cross_calls st cls (Dict d)))
        by (rewrite E; now left).
      destruct (validate_cross_calls_inv st cls (Dict d) cleaned Hu Hcl)
        as (_ & _ & _ & _ & Hfe & _).
      cbn [as_dict] in Hfe. fold attributes in Hfe.
      apply (field_errors_nil _ _ Hfe k a
               [(name a ++ " is required.")%string] Hin).
      rewrite Hnone. exact Hva. }
    split; [now rewrite Hc|].
    split.
    { intros out Hout. rewrite Hv in Hout.
      destruct (validate_Return_inv st cls (Dict d) out Hu Hout) as (Hcl & _).
      rewrite Hcalls in Hcl. discriminate Hcl. }
    split; [exact Hrep|].
    split.
    { intros e He. rewrite Hv in He. now apply Hraise. }
    intros Hx. rewrite Hv. unfold EAVSchema.validate.
    rewrite (validate_traced_dict st cls d Hu Hx). fold attributes. fold report.
    destruct report; [discriminate Hrep | reflexivity].
  - intros Hreq.
    assert (Hva : attr_validate a VNone = Return (default a))
      by (unfold EAVAttribute.validate; now rewrite Hreq).
    rewrite Hva in Hrep.
    assert (Hfv : dict_get (field_values attributes d) k
                  = if is_None (default a) then None
                    else Some (to_json a (default a))).
    { rewrite (dict_get_field_values attributes d k a Hi Hin), Hnone, Hva.
      reflexivity. }
    split; [exact Hrep|].
    split.
    { intros cleaned Hcl. rewrite Hc in Hcl.
      destruct (validate_cross_calls_inv st cls (Dict d) cleaned Hu Hcl)
        as (-> & _).
      exact Hfv. }
    intros Hx Hnil. split; [| exact Hfv].
    rewrite Ht, (validate_traced_dict st cls d Hu Hx). fold attributes.
    fold report. now rewrite Hnil.
Qed.

End NoneIsAbsent.

(** A required name bound to None: the required error, under that name. *)
Lemma C10_witness :
  let st := fst config_schema in
  let cls := snd config_schema in
  let d := [("count", VInt 3)] in
  In "name" (keys (dicts st (_eav_attributes cls)))
  /\ ~ In "name" (keys d)
  /\ EAVSchema.validate_traced st cls (Dict [("count", VInt 3); ("name", VNone)])
     = EAVSchema.validate_traced st cls (Dict d)
  /\ unique (keys (dicts st (_eav_attributes cls))) = true
  /\ EAVSchema.no_exception (EAVSchema.items st cls) d = true
  /\ EAVSchema.validate st cls (Dict [("count", VInt 3); ("name", VNone)])
     = RaiseValidationError (ErrorDict [("name", ["name is required."])]).
Proof.
  intros st cls d.
  assert (H1 : In "name" (keys (dicts st (_eav_attributes cls))))
    by (left; reflexivity).
  assert (H2 : ~ In "name" (keys d)) by (intros [E | []]; discriminate E).
  destruct (C10_none_is_absent st cls d "name" H1 H2) as (Ht & _ & _ & Hs).
  split; [exact H1 | split; [exact H2 | split; [exact Ht|]]].
  split; [reflexivity | split; [reflexivity|]].
  destruct (Hs eq_refl
              (set_name (descriptor_object true VNone (EAVString None None)) "name")
              (or_introl eq_refl)) as [Hreq _].
  destruct (Hreq eq_refl) as (_ & _ & _ & _ & Hraise).
  exact (Hraise eq_refl).
Defined.

(** C1, as stated, fails when a descriptor raises an exception that is
    not a ValidationError: with an unknown key, a missing required name and
    an int beyond the float range, no report is raised, and the unknown key
    and the missing name are reported nowhere. *)
Lemma C1_counterexample :
  let st := fst ratio_schema in
  let cls := snd ratio_schema in
  let d := [("ratio", VInt (2 ^ 1024)); ("extra", VInt 1)] in
  In "extra" (EAVSchema.unknown_keys (keys (EAVSchema.items st cls)) d)
  /\ EAVAttribute.validate
       (set_name (descriptor_object true VNone (EAVString None None)) "name")
       (dget d "name")
     = RaiseValidationError (ErrorList ["name is required."])
  /\ EAVSchema.validate_traced st cls (Dict d) = ([], Raise OverflowError)
  /\ ~ (exists report,
          EAVSchema.validate st cls (Dict d)
          = RaiseValidationError (ErrorDict report)).
Proof.
  intros st cls d.
  assert (H : EAVSchema.validate_traced st cls (Dict d) = ([], Raise OverflowError))
    by (vm_compute; reflexivity).
  split; [left; reflexivity | split; [reflexivity | split; [exact H|]]].
  intros [report E]. unfold EAVSchema.validate in E. rewrite H in E.
  discriminate E.
Qed.

(** C8, as stated, fails for a schema whose hook writes to the dict it is
    given: the dict returned holds the key that the hook added, which the
    schema does not declare. *)
Lemma C8_counterexample :
  let st := fst writing_schema in
  let cls := snd writing_schema in
  let data := Dict [("name", VStr "a")] in
  EAVSchema.validate st cls data
  = Return [("name", VStr "a"); ("added", VInt 1)]
  /\ EAVSchema.validate_cross_calls st cls data = [[("name", VStr "a")]]
  /\ keys (EAVSchema.items st cls) = ["name"]
  /\ ~ (forall cleaned,
          EAVSchema.validate st cls data = Return cleaned ->
          forall k, In k (keys cleaned) -> In k (keys (EAVSchema.items st cls))).
Proof.
  intros st cls data.
  split; [reflexivity | split; [reflexivity | split; [reflexivity|]]].
  intros H.
  specialize (H _ eq_refl "added" (or_intror (or_introl eq_refl))).
  destruct H as [E | []]. discriminate E.
Qed.
